(** * Tabular dump of DATS metadata: a shallow embedding of
      [sparql/v0.5/rdflib_tabular_dump.py] and the properties of its report.

    The script reads a triple graph, builds a handful of dictionaries while
    walking it (identifiers, studies, groups, subjects, characteristics,
    files), and prints a tab-separated table.  Here the graph store is the
    list of triples in the order the store enumerates them, Python
    dictionaries are insertion-ordered association lists, [sys.exit] and
    uncaught exceptions are an explicit abort value, and what [print] writes
    is the list of rows (each row the list of cells that the script joins with
    a tab). *)

From Stdlib Require Import List String Ascii Bool Arith Lia.
From Stdlib Require Import Sorted Permutation DecimalString.
From Stdlib Require OrderedTypeEx.
Import ListNotations.
Open Scope string_scope.
Open Scope list_scope.

Set Implicit Arguments.

(* ------------------------------------------------------------------ *)
(** ** Python dictionaries *)
(* ------------------------------------------------------------------ *)

(** A Python [dict] keeps its keys in insertion order; assigning to a key
    that is present replaces the value where it stands, assigning to a new
    key appends.  [.keys()] and [.values()] enumerate in that order. *)
Module PyDict.
Section Dict.
Variables K V : Type.
Variable eqb : K -> K -> bool.

Definition t := list (K * V).

Definition empty : t := [].

Fixpoint get (k : K) (d : t) : option V :=
match d with
| [] => None
| (k', v) :: d' => if eqb k k' then Some v else get k d'
end.

Fixpoint set (k : K) (v : V) (d : t) : t :=
match d with
| [] => [(k, v)]
| (k', v') :: d' => if eqb k k' then (k', v) :: d' else (k', v') :: set k v d'
end.

Definition mem (k : K) (d : t) : bool :=
match get k d with Some _ => true | None => false end.

Definition keys (d : t) : list K := map fst d.
Definition values (d : t) : list V := map snd d.
End Dict.
End PyDict.

(* ------------------------------------------------------------------ *)
(** ** Terms, triples and the graph store *)
(* ------------------------------------------------------------------ *)

(** rdflib's three kinds of node.  Every one of them is a Python [str]
    (so [str(t)] and ["\t".join] accept it); [str] below is that string. *)
Inductive term : Type :=
| URIRef (iri : string)
| BNode (label : string)
| Literal (lexical : string) (datatype : option string).

Definition str (t : term) : string :=
  match t with
  | URIRef s => s
  | BNode s => s
  | Literal s _ => s
  end.

Definition option_eqb {A} (eqb : A -> A -> bool) (a b : option A) : bool :=
  match a, b with
  | Some x, Some y => eqb x y
  | None, None => true
  | _, _ => false
  end.

Definition term_eqb (a b : term) : bool :=
  match a, b with
  | URIRef x, URIRef y => String.eqb x y
  | BNode x, BNode y => String.eqb x y
  | Literal x dx, Literal y dy => String.eqb x y && option_eqb String.eqb dx dy
  | _, _ => false
  end.

Definition triple : Type := term * term * term.

Definition subj (t : triple) : term := fst (fst t).
Definition pred (t : triple) : term := snd (fst t).
Definition obj (t : triple) : term := snd t.

(** The store: the triples of the graph in the order the store yields them. *)
Definition graph : Type := list triple.

Definition matches (pat : option term) (x : term) : bool :=
  match pat with
  | None => true
  | Some y => term_eqb y x
  end.

(** [g.triples((s, p, o))]: [None] is a wildcard. *)
Definition triples (g : graph) (s p o : option term) : list triple :=
  filter (fun t => matches s (subj t) && matches p (pred t) && matches o (obj t)) g.

(** The objects of [for (_, _, o) in g.triples((s, p, None))]. *)
Definition objects (g : graph) (s p : term) : list term :=
  map obj (triples g (Some s) (Some p) None).

(** The objects reached by two nested loops
    [for (_,_,o) in g.triples((s, p1, None)): for (_,_,o2) in g.triples((o, p2, None))],
    in the order the inner body runs. *)
Definition chain (g : graph) (s p1 p2 : term) : list term :=
  flat_map (fun o => objects g o p2) (objects g s p1).

(** The vocabulary of [rdflib_util] ([ru.*]): the terms used as query keys. *)
Record vocab : Type := {
  RDF_TYPE_TERM : term;
  DATS_DATASET_TERM : term;
  CENTRAL_ID_TERM : term;
  SDO_IDENT_TERM : term;
  DESCR_TERM : term;
  TITLE_TERM : term;
  PRODUCED_BY_TERM : term;
  DATS_STUDY_TERM : term;
  HAS_PART_TERM : term;
  DATS_STUDY_GROUP_TERM : term;
  NAME_TERM : term;
  HAS_MEMBER_TERM : term;
  DATS_MATERIAL_TERM : term;
  HAS_QUALITY_TERM : term;
  DATA_ITEM_TERM : term;
  SDO_VALUE_TERM : term;
  DATS_DIMENSION_TERM : term;
  SDO_DISTRIBUTIONS_TERM : term;
  SDO_SIZE_TERM : term;
  SDO_DATA_DOWNLOAD_TERM : term;
  DATS_DATA_ACQUISITION_TERM : term;
  HAS_INPUT_TERM : term;
  DERIVES_FROM_TERM : term;
  SDO_ANATOMICAL_STRUCTURE_TERM : term
}.

(* ------------------------------------------------------------------ *)
(** ** Aborts, strings *)
(* ------------------------------------------------------------------ *)

(** How a run ends early: [logging.fatal(msg); sys.exit(1)], or an exception
    nobody catches.  Both leave the process with a non-zero status. *)
Inductive abort : Type :=
| Fatal (msg : string)
| KeyError (key : term)
| TypeError.

Inductive result (A : Type) : Type :=
| Ok (a : A)
| Abort (e : abort).
Arguments Ok {A} a.
Arguments Abort {A} e.

Definition bind {A B} (r : result A) (f : A -> result B) : result B :=
  match r with
  | Ok a => f a
  | Abort e => Abort e
  end.

Notation "x <- r ;; k" := (bind r (fun x => k))
  (at level 61, r at next level, right associativity).

(** A [for] loop whose body may abort: the state is threaded through the
    elements in order, the first abort ends the loop. *)
Fixpoint for_each {A S} (body : S -> A -> result S) (l : list A) (st : S) : result S :=
  match l with
  | [] => Ok st
  | x :: xs => st' <- body st x ;; for_each body xs st'
  end.

(** [str(n)] for a length. *)
Definition str_nat (n : nat) : string := NilEmpty.string_of_uint (Nat.to_uint n).

(** [re.search(re.escape(frag), s) is not None]: [frag] occurs in [s]. *)
Fixpoint contains (frag s : string) : bool :=
  String.prefix frag s ||
  match s with
  | EmptyString => false
  | String _ s' => contains frag s'
  end.

(** [last] of a list, as left by a loop that overwrites one variable. *)
Definition last_opt {A} (l : list A) : option A :=
  fold_left (fun _ x => Some x) l None.

(** ["\t".join(cells)]. *)
Definition tab : string := String (ascii_of_nat 9) EmptyString.
Definition join_tab (cells : list string) : string := String.concat tab cells.

(* ------------------------------------------------------------------ *)
(** ** [list.sort(key=...)] *)
(* ------------------------------------------------------------------ *)

(** Python's sort computes the key of every element first (an exception in
    the key function ends the sort before anything is compared), orders the
    elements with [<] on the keys alone, and is stable.  The model is the
    insertion sort of the decorated list: an element is put in front of the
    first one whose key is not smaller than its own. *)
Section Sort.
Variables A K : Type.
Variable ltb : K -> K -> bool.

Fixpoint insert_keyed (x : K * A) (l : list (K * A)) : list (K * A) :=
  match l with
  | [] => [x]
  | y :: ys => if ltb (fst y) (fst x) then y :: insert_keyed x ys else x :: y :: ys
  end.

Fixpoint sort_keyed (l : list (K * A)) : list (K * A) :=
  match l with
  | [] => []
  | x :: xs => insert_keyed x (sort_keyed xs)
  end.

Fixpoint decorate (key : A -> result K) (l : list A) : result (list (K * A)) :=
  match l with
  | [] => Ok []
  | x :: xs => k <- key x ;; ks <- decorate key xs ;; Ok ((k, x) :: ks)
  end.

Definition sort_by (key : A -> result K) (l : list A) : result (list A) :=
  ks <- decorate key l ;; Ok (map snd (sort_keyed ks)).
End Sort.

(** [sorted(strs)] on plain strings. *)
Definition sorted_strings (l : list string) : list string :=
  map snd (sort_keyed String.ltb (map (fun s => (s, s)) l)).

(** [<] on [str | None] where both sides have the same type; [None < "x"]
    raises and is excluded before this is used. *)
Definition opt_string_ltb (a b : option string) : bool :=
  match a, b with
  | Some x, Some y => String.ltb x y
  | _, _ => false
  end.

(** [<] on the tuples [(anatomical_part_name, datatype, S3_URI)]: the first
    position where the tuples differ decides. *)
Definition file_key : Type := option string * string * string.

Definition file_key_ltb (a b : file_key) : bool :=
  let '(a1, a2, a3) := a in
  let '(b1, b2, b3) := b in
  if option_eqb String.eqb a1 b1
  then if String.eqb a2 b2 then String.ltb a3 b3 else String.ltb a2 b2
  else opt_string_ltb a1 b1.

(* ------------------------------------------------------------------ *)
(** ** The tables built from the graph *)
(* ------------------------------------------------------------------ *)

(** [chars[cname] = { "value": cval, "name": cname }] *)
Record characteristic : Type := {
  value : string;
  name : string
}.

(** The [file_info] dictionary.  [S3_URI] is a [str]: the classifier has
    searched it before the record is made. *)
Record file_info : Type := {
  anatomical_part_name : option string;
  anatomical_part_id : string;
  S3_URI : string;
  GS_URI : option string;
  datatype : string;
  distribs : list (string * option string);
  file_size : option string;
  md5_checksum : option string
}.

Definition tdict (V : Type) : Type := PyDict.t term V.
Definition tget {V} (k : term) (d : tdict V) : option V := PyDict.get term_eqb k d.
Definition tset {V} (k : term) (v : V) (d : tdict V) : tdict V := PyDict.set term_eqb k v d.
Definition tmem {V} (k : term) (d : tdict V) : bool := PyDict.mem term_eqb k d.

Definition sdict (V : Type) : Type := PyDict.t string V.
Definition sget {V} (k : string) (d : sdict V) : option V := PyDict.get String.eqb k d.
Definition sset {V} (k : string) (v : V) (d : sdict V) : sdict V := PyDict.set String.eqb k v d.

(** [d[k]]: a missing key raises [KeyError]. *)
Definition index {V} (d : tdict V) (k : term) : result V :=
  match tget k d with
  | Some v => Ok v
  | None => Abort (KeyError k)
  end.

Record tables : Type := {
  project_name : option term;
  dataset_ids : tdict term;
  datasets : list term;
  ds_to_study : tdict term;
  study_to_groups : tdict (list term);
  study_group_to_name : tdict term;
  study_group_to_subjects : tdict (list term);
  subject_to_name : tdict term;
  subject_to_chars : tdict (sdict characteristic);
  sorted_char_names : list string;
  subject_to_files : tdict (list file_info)
}.

Definition titles : list string :=
  ["Genotype-Tissue Expression Project (GTEx)";
   "Trans-Omics for Precision Medicine (TOPMed)"].

(** [str(x)] where [x] may be [None]. *)
Definition str_or_None (x : option term) : string :=
  match x with
  | Some t => str t
  | None => "None"
  end.

(** The datatype of a file, from the project and the S3 URI (lines 245-257).
    [re.search] on [None] raises [TypeError], and so does ["..." + None].
    On success the URI that was searched is returned with the datatype. *)
Definition seq_datatype (project : option term) (s3_URI : option string)
  : result (string * string) :=
  match project with
  | None => Abort TypeError
  | Some pn =>
    if contains "GTEx" (str pn) then
      match s3_URI with
      | None => Abort TypeError
      | Some u =>
        if contains "/wgs/" u then Ok ("WGS", u)
        else if contains "/rnaseq/" u then Ok ("RNA-Seq", u)
        else Abort (Fatal ("couldn't parse seq type from URI " ++ u))
      end
    else
      match s3_URI with
      | None => Abort TypeError
      | Some u => Abort (Fatal ("couldn't determine seq datatype from URI " ++ u))
      end
  end.

(* ------------------------------------------------------------------ *)
(** ** [main]: building the tables (lines 29-273) *)
(* ------------------------------------------------------------------ *)

Section Dump.
Variable ru : vocab.

(** The matches of [g.triples((o, ru.RDF_TYPE_TERM, ty))]: the body of a
    loop over them runs once per match. *)
Definition typed (g : graph) (o ty : term) : list triple :=
  triples g (Some o) (Some (RDF_TYPE_TERM ru)) (Some ty).

(** line 30 *)
Definition find_all_datasets (g : graph) : list term :=
  map subj (triples g None (Some (RDF_TYPE_TERM ru)) (Some (DATS_DATASET_TERM ru))).

(** lines 31-38: [dataset_ids] and [datasets] *)
Definition collect_dataset_ids (g : graph) (all_datasets : list term)
  : tdict term * list term :=
  fold_left
    (fun (st : tdict term * list term) d =>
       let ids := fold_left (fun m o2 => tset d o2 m)
                    (chain g d (CENTRAL_ID_TERM ru) (SDO_IDENT_TERM ru)) (fst st) in
       (ids, if tmem d ids then snd st ++ [d] else snd st))
    all_datasets ([], []).

(** line 43 *)
Definition title_terms : list term :=
  map (fun t => Literal t (Some (str (DESCR_TERM ru)))) titles.

(** lines 47-51: one entry per matching triple; the first component is
    what is appended to [tl_datasets], the second what [project_name]
    is set to. *)
Definition top_level_matches (g : graph) (all_datasets : list term) : list (term * term) :=
  flat_map
    (fun d =>
       flat_map
         (fun tt => map (fun _ => (d, tt))
                      (triples g (Some d) (Some (TITLE_TERM ru)) (Some tt)))
         title_terms)
    all_datasets.

(** lines 58-62 *)
Definition link_studies (g : graph) (ds : list term) : tdict term :=
  fold_left
    (fun m d =>
       fold_left
         (fun m o => fold_left (fun m _ => tset d o m) (typed g o (DATS_STUDY_TERM ru)) m)
         (objects g d (PRODUCED_BY_TERM ru)) m)
    ds [].

(** lines 72-80, for one study: the groups with exactly one name, and the
    name map updated with every name seen. *)
Definition groups_of_study (g : graph) (s : term) (names : tdict term)
  : list term * tdict term :=
  fold_left
    (fun (st : list term * tdict term) o =>
       fold_left
         (fun (st : list term * tdict term) _ =>
            let os := objects g o (NAME_TERM ru) in
            let names' := fold_left (fun m o3 => tset o o3 m) os (snd st) in
            let n_names := List.length os in
            (if Nat.eqb n_names 1 then fst st ++ [o] else fst st, names'))
         (typed g o (DATS_STUDY_GROUP_TERM ru)) st)
    (objects g s (HAS_PART_TERM ru)) ([], names).

(** lines 68-81 *)
Definition link_groups (g : graph) (studies : list term)
  : tdict (list term) * tdict term :=
  fold_left
    (fun (st : tdict (list term) * tdict term) s =>
       let r := groups_of_study g s (snd st) in
       (tset s (fst r) (fst st), snd r))
    studies ([], []).

(** lines 87-92, for one study group *)
Definition subjects_of_group (g : graph) (sg : term) (names : tdict term)
  : list term * tdict term :=
  fold_left
    (fun (st : list term * tdict term) o =>
       fold_left
         (fun (st : list term * tdict term) _ =>
            let names' := fold_left (fun m o3 => tset o o3 m)
                            (objects g o (NAME_TERM ru)) (snd st) in
            (fst st ++ [o], names'))
         (typed g o (DATS_MATERIAL_TERM ru)) st)
    (objects g sg (HAS_MEMBER_TERM ru)) ([], names).

(** lines 84-93 *)
Definition link_subjects (g : graph) (groups : list term)
  : tdict (list term) * tdict term :=
  fold_left
    (fun (st : tdict (list term) * tdict term) sg =>
       let r := subjects_of_group g sg (snd st) in
       (tset sg (fst r) (fst st), snd r))
    groups ([], []).

(** lines 111-137, for one quality node: [None] is the [continue]. *)
Definition characteristic_of (g : graph) (o : term) : option characteristic :=
  let char_values := map Some (objects g o (DATA_ITEM_TERM ru)) in
  let char_names := chain g o (NAME_TERM ru) (SDO_VALUE_TERM ru) in
  let dbgap_ids := chain g o (CENTRAL_ID_TERM ru) (SDO_IDENT_TERM ru) in
  let char_values := if Nat.eqb (List.length char_values) 0 then [None] else char_values in
  match char_values, char_names, dbgap_ids with
  | [v], [n], [_] => Some {| value := str_or_None v; name := str n |}
  | _, _, _ => None
  end.

(** lines 109-138, for one subject: its [chars] and [all_char_names]. *)
Definition chars_of_subject (g : graph) (s : term) (all_char_names : sdict bool)
  : sdict characteristic * sdict bool :=
  fold_left
    (fun (st : sdict characteristic * sdict bool) o =>
       match characteristic_of g o with
       | None => st
       | Some c => (sset (name c) c (fst st), sset (name c) true (snd st))
       end)
    (objects g s (HAS_QUALITY_TERM ru)) ([], all_char_names).

(** lines 96-139 *)
Definition collect_chars (g : graph) (subjects : list term)
  : tdict (sdict characteristic) * sdict bool :=
  fold_left
    (fun (st : tdict (sdict characteristic) * sdict bool) s =>
       let r := chars_of_subject g s (snd st) in
       (tset s (fst r) (fst st), snd r))
    subjects ([], []).

(** lines 154-166 *)
Definition md5_of (g : graph) (d : term) : option string :=
  fold_left
    (fun md5 o2 =>
       fold_left
         (fun md5 _ =>
            let name := last_opt (map str (chain g o2 (NAME_TERM ru) (SDO_VALUE_TERM ru))) in
            let value := last_opt (map str (objects g o2 (DATA_ITEM_TERM ru))) in
            if option_eqb String.eqb name (Some "MD5") then value else md5)
         (typed g o2 (DATS_DIMENSION_TERM ru)) md5)
    (objects g d (HAS_PART_TERM ru)) (Some "TBD").

(** What the loop over the distributions of a Dataset leaves behind. *)
Record distributions : Type := {
  d_file_size : option string;
  d_s3_URI : option string;
  d_gs_URI : option string;
  d_distribs : list (string * option string)
}.

(** lines 172-179 *)
Definition check_sizes (g : graph) (o : term) (file_size : option string)
  : result (option string) :=
  for_each
    (fun fs o2 =>
       let fsize := str o2 in
       match fs with
       | None => Ok (Some fsize)
       | Some f => if String.eqb f fsize then Ok (Some f)
                   else Abort (Fatal "file size mismatch")
       end)
    (objects g o (SDO_SIZE_TERM ru)) file_size.

(** lines 181-188 *)
Definition record_download (o : term) (st : distributions) : distributions :=
  if String.prefix "gs://" (str o) then
    {| d_file_size := d_file_size st; d_s3_URI := d_s3_URI st;
       d_gs_URI := Some (str o);
       d_distribs := d_distribs st ++ [(str o, d_file_size st)] |}
  else if String.prefix "s3://" (str o) then
    {| d_file_size := d_file_size st; d_s3_URI := Some (str o);
       d_gs_URI := d_gs_URI st;
       d_distribs := d_distribs st ++ [(str o, d_file_size st)] |}
  else st.

(** lines 170-188: one turn of the loop over the distributions *)
Definition distribution_step (g : graph) (st : distributions) (o : term)
  : result distributions :=
  fs <- check_sizes g o (d_file_size st) ;;
  Ok (fold_left (fun st _ => record_download o st)
        (typed g o (SDO_DATA_DOWNLOAD_TERM ru))
        {| d_file_size := fs; d_s3_URI := d_s3_URI st;
           d_gs_URI := d_gs_URI st; d_distribs := d_distribs st |}).

(** lines 169-188 *)
Definition link_distributions (g : graph) (d : term) : result distributions :=
  for_each (distribution_step g)
    (objects g d (SDO_DISTRIBUTIONS_TERM ru))
    {| d_file_size := None; d_s3_URI := None; d_gs_URI := None; d_distribs := [] |}.

(** lines 191-195 *)
Definition data_acquisitions (g : graph) (d : term) : list term :=
  flat_map (fun o => map (fun _ => o) (typed g o (DATS_DATA_ACQUISITION_TERM ru)))
    (objects g d (PRODUCED_BY_TERM ru)).

(** lines 215-231, for one AnatomicalPart node *)
Definition anatomical_part (g : graph) (o3 : term) : result (option string * string) :=
  let term_name := last_opt (map str (objects g o3 (NAME_TERM ru))) in
  let term_ids := fold_left (fun (m : sdict bool) o6 => sset (str o6) true m)
                    (chain g o3 (CENTRAL_ID_TERM ru) (CENTRAL_ID_TERM ru)) [] in
  let tids := PyDict.keys term_ids in
  match tids with
  | [t] => Ok (term_name, t)
  | _ =>
    match term_name with
    | None => Abort TypeError
    | Some n => Abort (Fatal ("found " ++ str_nat (List.length tids)
                                ++ " term ids for AnatomicalPart " ++ n))
    end
  end.

(** lines 212-231, for one sample *)
Definition anatomical_parts_of (g : graph) (o2 : term)
  : result (list (option string * string)) :=
  for_each
    (fun parts o3 =>
       for_each (fun parts _ => p <- anatomical_part g o3 ;; Ok (parts ++ [p]))
         (typed g o3 (SDO_ANATOMICAL_STRUCTURE_TERM ru)) parts)
    (objects g o2 (DERIVES_FROM_TERM ru)) [].

(** lines 236-273, for one subject [o3] of a sample *)
Definition link_file (project : option term) (dist : distributions)
    (md5 : option string) (anatomical_parts : list (option string * string))
    (files : tdict (list file_info)) (o3 : term) : result (tdict (list file_info)) :=
  let files := if tmem o3 files then files else tset o3 [] files in
  match anatomical_parts with
  | [part] =>
    dt <- seq_datatype project (d_s3_URI dist) ;;
    let fi := {| anatomical_part_name := fst part;
                 anatomical_part_id := snd part;
                 S3_URI := snd dt;
                 GS_URI := d_gs_URI dist;
                 datatype := fst dt;
                 distribs := d_distribs dist;
                 file_size := d_file_size dist;
                 md5_checksum := md5 |} in
    l <- index files o3 ;;
    Ok (tset o3 (l ++ [fi]) files)
  | _ => Abort (Fatal ("found " ++ str_nat (List.length anatomical_parts)
                         ++ " AnatomicalParts for subject " ++ str o3))
  end.

(** lines 146-273, for one Dataset *)
Definition link_dataset_files (g : graph) (project : option term)
    (files : tdict (list file_info)) (d : term) : result (tdict (list file_info)) :=
  let md5 := md5_of g d in
  dist <- link_distributions g d ;;
  match data_acquisitions g d with
  | [data_acq] =>
    for_each
      (fun files rna_dna_extract =>
         for_each
           (fun files o2 =>
              parts <- anatomical_parts_of g o2 ;;
              for_each (link_file project dist md5 parts)
                (objects g o2 (DERIVES_FROM_TERM ru)) files)
           (objects g rna_dna_extract (DERIVES_FROM_TERM ru)) files)
      (objects g data_acq (HAS_INPUT_TERM ru)) files
  | _ => Ok files
  end.

(** lines 29-273: everything before the first [print]. *)
Definition build (g : graph) : result tables :=
  let all_datasets := find_all_datasets g in
  let ids := collect_dataset_ids g all_datasets in
  let tl := top_level_matches g all_datasets in
  let tl_datasets := map fst tl in
  let project := last_opt (map snd tl) in
  if negb (Nat.eqb (List.length tl_datasets) 1) then
    Abort (Fatal ("found " ++ str_nat (List.length tl_datasets) ++ " top-level DATS Datasets"))
  else
    let studies := link_studies g (snd ids) in
    let ds := filter (fun d => tmem d studies) (snd ids) in
    let gr := link_groups g (PyDict.values studies) in
    let su := link_subjects g (PyDict.keys (snd gr)) in
    let ch := collect_chars g (PyDict.keys (snd su)) in
    files <- for_each (link_dataset_files g project) all_datasets [] ;;
    Ok {| project_name := project;
          dataset_ids := fst ids;
          datasets := ds;
          ds_to_study := studies;
          study_to_groups := fst gr;
          study_group_to_name := snd gr;
          study_group_to_subjects := fst su;
          subject_to_name := snd su;
          subject_to_chars := fst ch;
          sorted_char_names := sorted_strings (PyDict.keys (snd ch));
          subject_to_files := files |}.

(* ---------------------------------------------------------------- *)
(** ** [main]: printing the table (lines 275-347) *)
(* ---------------------------------------------------------------- *)

(** A printed row: the cells that were joined with a tab. *)
Definition row : Type := list string.

(** What a piece of the printing loop does: the rows it printed, in
    order, and the abort that ended it, if one did. *)
Definition output : Type := list row * option abort.

(** A step that may abort before anything is printed, then a
    continuation that prints. *)
Definition try_then {A} (r : result A) (k : A -> output) : output :=
  match r with
  | Ok a => k a
  | Abort e => ([], Some e)
  end.

(** ["\t".join] raises [TypeError] on a cell that is [None]. *)
Fixpoint all_str (cells : list (option string)) : result row :=
  match cells with
  | [] => Ok []
  | Some c :: cs => r <- all_str cs ;; Ok (c :: r)
  | None :: _ => Abort TypeError
  end.

(** [print("\t".join(cells))] *)
Definition print_row (cells : list (option string)) : output :=
  try_then (all_str cells) (fun r => ([r], None)).

(** A [for] loop whose body prints: the rows accumulate, the first abort
    ends the loop. *)
Fixpoint emit_each {A} (body : A -> output) (l : list A) : output :=
  match l with
  | [] => ([], None)
  | x :: xs =>
    match body x with
    | (rows, Some e) => (rows, Some e)
    | (rows, None) => let r := emit_each body xs in (rows ++ fst r, snd r)
    end
  end.

(** lines 276-281 *)
Definition col_headings (T : tables) : list string :=
  ["Project"; "dbGaP_Study"; "Study_Group"; "Subject_ID"]
    ++ sorted_char_names T
    ++ ["Anatomical_Part"; "Anatomical_Part_ID"]
    ++ ["Datatype"]
    ++ ["File_Size"; "MD5_Checksum"]
    ++ ["AWS_URI"; "GCP_URI"].

Definition is_none {A} (o : option A) : bool :=
  match o with None => true | Some _ => false end.

Definition key_of_file (f : file_info) : file_key :=
  (anatomical_part_name f, datatype f, S3_URI f).

(** line 321.  Comparing a key that starts with [None] with one that
    starts with a [str] raises [TypeError]; a sort of a list that holds
    both cannot avoid that comparison. *)
Definition sort_files (l : list file_info) : result (list file_info) :=
  let names := map anatomical_part_name l in
  if existsb is_none names && existsb (fun n => negb (is_none n)) names
  then Abort TypeError
  else sort_by file_key_ltb (fun f => Ok (key_of_file f)) l.

(** lines 329-345: the seven cells of a file. *)
Definition file_cells (d : file_info) : list (option string) :=
  [anatomical_part_name d; Some (anatomical_part_id d); Some (datatype d);
   file_size d; md5_checksum d; Some (S3_URI d); GS_URI d].

(** lines 304-309 *)
Definition char_cells (T : tables) (subject_chars : sdict characteristic)
  : list (option string) :=
  map (fun k => match sget k subject_chars with
                | Some c => Some (value c)
                | None => Some ""
                end)
    (sorted_char_names T).

(** lines 300-347, for one subject.  The lists held in the dictionaries
    are sorted in place by the script; sorting is stable and leaves a
    sorted list as it is, so sorting the stored list afresh at each visit
    prints the same rows. *)
Definition render_subject (T : tables) (headings : list string)
    (dataset_id group_name s : term) : output :=
  try_then (index (subject_to_name T) s) (fun subject_name =>
  let col_vals := [option_map str (project_name T); Some (str dataset_id);
                   Some (str group_name); Some (str subject_name)] in
  try_then (index (subject_to_chars T) s) (fun subject_chars =>
  let col_vals := col_vals ++ char_cells T subject_chars in
  if negb (tmem s (subject_to_files T)) then
    let n_extra_cols := List.length headings - List.length col_vals in
    print_row (col_vals ++ repeat (Some "") n_extra_cols)
  else
    try_then (index (subject_to_files T) s) (fun data_files =>
    try_then (sort_files data_files) (fun data_files =>
    emit_each (fun d => print_row (col_vals ++ file_cells d)) data_files)))).

(** [a < b] on rdflib terms, as the sorts of lines 285, 292 and 298 ask it
    of their keys: the identifier of a Dataset, the name of a group, the name
    of a subject, none of them turned into a string first (line 321 does
    that for the files).  The comparison is rdflib's ([Identifier.__lt__],
    [Literal.__lt__]), not this repository's, and is taken as a parameter.
    [list.sort] leaves the keys in ascending order, ties in their former
    order, when [<] is a strict weak order on them; so does the insertion
    sort of the model, and the two agree. *)
Variable term_ltb : term -> term -> bool.

(** lines 294-299, for one study group *)
Definition render_group (T : tables) (headings : list string)
    (dataset_id grp : term) : output :=
  try_then (index (study_group_to_name T) grp) (fun group_name =>
  try_then (index (study_group_to_subjects T) grp) (fun subjects =>
  try_then (sort_by term_ltb (index (subject_to_name T)) subjects) (fun subjects =>
  emit_each (render_subject T headings dataset_id group_name) subjects))).

(** lines 287-293, for one Dataset *)
Definition render_dataset (T : tables) (headings : list string) (d : term) : output :=
  try_then (index (dataset_ids T) d) (fun dataset_id =>
  try_then (index (ds_to_study T) d) (fun study =>
  try_then (index (study_to_groups T) study) (fun groups =>
  try_then (sort_by term_ltb (index (study_group_to_name T)) groups) (fun groups =>
  emit_each (render_group T headings dataset_id) groups)))).

(** lines 285-347: the data rows *)
Definition render_rows (T : tables) (headings : list string) : output :=
  try_then (sort_by term_ltb (index (dataset_ids T)) (datasets T)) (fun ds =>
  emit_each (render_dataset T headings) ds).

(** [main]: the rows printed (the header first) and how the run ended. *)
Definition main (g : graph) : output :=
  try_then (build g) (fun T =>
  let headings := col_headings T in
  let r := render_rows T headings in
  (headings :: fst r, snd r)).

(** The text on standard output, line by line, and the exit status. *)
Definition stdout (g : graph) : list string := map join_tab (fst (main g)).

Definition exit_status (g : graph) : nat :=
  match snd (main g) with
  | None => 0
  | Some _ => 1
  end.

End Dump.

(* ------------------------------------------------------------------ *)
(** ** A vocabulary and sample graphs *)
(* ------------------------------------------------------------------ *)

(** A vocabulary of pairwise distinct terms, for running the model. *)
Definition ru0 : vocab := {|
  RDF_TYPE_TERM := URIRef "rdf:type";
  DATS_DATASET_TERM := URIRef "dats:Dataset";
  CENTRAL_ID_TERM := URIRef "obo:IAO_0000578";
  SDO_IDENT_TERM := URIRef "sdo:identifier";
  DESCR_TERM := URIRef "obo:IAO_0000300";
  TITLE_TERM := URIRef "obo:IAO_0000235";
  PRODUCED_BY_TERM := URIRef "obo:RO_0003001";
  DATS_STUDY_TERM := URIRef "dats:Study";
  HAS_PART_TERM := URIRef "obo:BFO_0000051";
  DATS_STUDY_GROUP_TERM := URIRef "dats:StudyGroup";
  NAME_TERM := URIRef "obo:IAO_0000590";
  HAS_MEMBER_TERM := URIRef "obo:RO_0002351";
  DATS_MATERIAL_TERM := URIRef "dats:Material";
  HAS_QUALITY_TERM := URIRef "obo:RO_0000086";
  DATA_ITEM_TERM := URIRef "obo:IAO_0000027";
  SDO_VALUE_TERM := URIRef "sdo:value";
  DATS_DIMENSION_TERM := URIRef "dats:Dimension";
  SDO_DISTRIBUTIONS_TERM := URIRef "sdo:distribution";
  SDO_SIZE_TERM := URIRef "sdo:contentSize";
  SDO_DATA_DOWNLOAD_TERM := URIRef "sdo:DataDownload";
  DATS_DATA_ACQUISITION_TERM := URIRef "dats:DataAcquisition";
  HAS_INPUT_TERM := URIRef "obo:RO_0002233";
  DERIVES_FROM_TERM := URIRef "obo:RO_0001000";
  SDO_ANATOMICAL_STRUCTURE_TERM := URIRef "sdo:AnatomicalStructure"
|}.

Definition gtex_title : term :=
  Literal "Genotype-Tissue Expression Project (GTEx)" (Some "obo:IAO_0000300").
Definition topmed_title : term :=
  Literal "Trans-Omics for Precision Medicine (TOPMed)" (Some "obo:IAO_0000300").

Definition lit (s : string) : term := Literal s None.

(** rdflib's [<] on the terms of the sample runs ([Identifier.__lt__] and
    [Literal.__lt__] in rdflib.term): a Literal is above every other node
    and a BNode below a URIRef ([_ORDERING]); two BNodes and two URIRefs
    compare as their strings; two Literals of different datatypes compare as
    the datatype URIs, a plain Literal counting as an xsd:string, and two
    Literals of one datatype as their strings.  The last line is rdflib's for
    the Literals whose value is the string itself (plain ones, xsd:string,
    datatypes rdflib does not know, as the one of the titles); numbers and
    dates are compared by value and do not occur in the samples.  The
    theorems are stated for any comparison. *)
Definition xsd_string : string := "http://www.w3.org/2001/XMLSchema#string".

Definition ORDERING (t : term) : nat :=
  match t with
  | BNode _ => 10
  | URIRef _ => 30
  | Literal _ _ => 40
  end.

Definition datatype_or_string (t : term) : string :=
  match t with
  | Literal _ (Some dt) => dt
  | _ => xsd_string
  end.

Definition rdflib_ltb (a b : term) : bool :=
  match a, b with
  | Literal x _, Literal y _ =>
    if String.eqb (datatype_or_string a) (datatype_or_string b) then String.ltb x y
    else String.ltb (datatype_or_string a) (datatype_or_string b)
  | Literal _ _, _ => false
  | _, _ =>
    if Nat.eqb (ORDERING a) (ORDERING b) then String.ltb (str a) (str b)
    else Nat.ltb (ORDERING a) (ORDERING b)
  end.

(** The key under which [rdflib_ltb] orders a term, and the order of pairs
    in which the first components decide unless they are equal. *)
Definition lex {K1 K2} (eq1 lt1 : K1 -> K1 -> bool) (lt2 : K2 -> K2 -> bool)
    (a b : K1 * K2) : bool :=
  if eq1 (fst a) (fst b) then lt2 (snd a) (snd b) else lt1 (fst a) (fst b).

Definition term_key (t : term) : nat * (string * string) :=
  (ORDERING t, (datatype_or_string t, str t)).
Definition is_a (x ty : term) : triple := (x, RDF_TYPE_TERM ru0, ty).

(** One top-level Dataset with an identifier, a Study, a StudyGroup
    "Group1" and two subjects "S2" and "S1", discovered in that order. *)
Definition g_project (title : term) : graph :=
  [ is_a (BNode "ds") (DATS_DATASET_TERM ru0);
    (BNode "ds", TITLE_TERM ru0, title);
    (BNode "ds", CENTRAL_ID_TERM ru0, BNode "ds_id");
    (BNode "ds_id", SDO_IDENT_TERM ru0, lit "phs000424");
    (BNode "ds", PRODUCED_BY_TERM ru0, BNode "study");
    is_a (BNode "study") (DATS_STUDY_TERM ru0);
    (BNode "study", HAS_PART_TERM ru0, BNode "grp");
    is_a (BNode "grp") (DATS_STUDY_GROUP_TERM ru0);
    (BNode "grp", NAME_TERM ru0, lit "Group1");
    (BNode "grp", HAS_MEMBER_TERM ru0, BNode "s2");
    (BNode "grp", HAS_MEMBER_TERM ru0, BNode "s1");
    is_a (BNode "s2") (DATS_MATERIAL_TERM ru0);
    is_a (BNode "s1") (DATS_MATERIAL_TERM ru0);
    (BNode "s2", NAME_TERM ru0, lit "S2");
    (BNode "s1", NAME_TERM ru0, lit "S1") ].

Definition g_scenario_a : graph := g_project gtex_title.

(** A file Dataset [f]: one distribution at [uri] (and one at [gs]) of size
    [size], produced by a DataAcquisition whose input extract derives from
    a sample that derives from the anatomical part [part] and from the
    subject [subject]. *)
Definition g_file (f : string) (uri gs size part : string) (subject : term) : graph :=
  [ is_a (BNode f) (DATS_DATASET_TERM ru0);
    (BNode f, SDO_DISTRIBUTIONS_TERM ru0, URIRef uri);
    (URIRef uri, SDO_SIZE_TERM ru0, lit size);
    is_a (URIRef uri) (SDO_DATA_DOWNLOAD_TERM ru0);
    (BNode f, SDO_DISTRIBUTIONS_TERM ru0, URIRef gs);
    is_a (URIRef gs) (SDO_DATA_DOWNLOAD_TERM ru0);
    (BNode f, PRODUCED_BY_TERM ru0, BNode (f ++ "_acq"));
    is_a (BNode (f ++ "_acq")) (DATS_DATA_ACQUISITION_TERM ru0);
    (BNode (f ++ "_acq"), HAS_INPUT_TERM ru0, BNode (f ++ "_extract"));
    (BNode (f ++ "_extract"), DERIVES_FROM_TERM ru0, BNode (f ++ "_sample"));
    (BNode (f ++ "_sample"), DERIVES_FROM_TERM ru0, subject) ]
  ++
  [ (BNode (f ++ "_sample"), DERIVES_FROM_TERM ru0, BNode part);
    is_a (BNode part) (SDO_ANATOMICAL_STRUCTURE_TERM ru0);
    (BNode part, NAME_TERM ru0, lit part);
    (BNode part, CENTRAL_ID_TERM ru0, BNode (part ++ "_id"));
    (BNode (part ++ "_id"), CENTRAL_ID_TERM ru0, lit "UBERON:0000178") ].

(* ------------------------------------------------------------------ *)
(** ** Notions the properties are stated with *)
(* ------------------------------------------------------------------ *)

(** A Dataset whose title is one of the two known project titles. *)
Definition title_matched (ru : vocab) (g : graph) (d : term) : bool :=
  existsb
    (fun tt => negb (Nat.eqb (List.length (triples g (Some d) (Some (TITLE_TERM ru)) (Some tt))) 0))
    (title_terms ru).

(** The number of Datasets with a known title. *)
Definition top_level_count (ru : vocab) (g : graph) : nat :=
  List.length (filter (title_matched ru g) (find_all_datasets ru g)).

(** What a sort needs of [<] on terms to leave its keys in order: nothing
    is below itself, below is transitive, and so is not-below. *)
Definition strict_weak_order (ltb : term -> term -> bool) : Prop :=
  (forall a, ltb a a = false)
  /\ (forall a b c, ltb a b = true -> ltb b c = true -> ltb a c = true)
  /\ (forall a b c, ltb a b = false -> ltb b c = false -> ltb a c = false).

(** [b] is not below [a]: the two are in ascending order. *)
Definition term_le (ltb : term -> term -> bool) (a b : term) : Prop := ltb b a = false.

(** Neither term is below the other: to the sort the two keys are equal. *)
Definition term_tie (ltb : term -> term -> bool) (a b : term) : bool :=
  negb (ltb a b) && negb (ltb b a).

Definition opt_string_lt (a b : option string) : Prop :=
  match a, b with
  | Some x, Some y => String.ltb x y = true
  | _, _ => False
  end.

(** Ascending order of the keys [(anatomical_part_name, datatype, S3_URI)],
    compared from left to right. *)
Definition file_key_le (a b : file_key) : Prop :=
  opt_string_lt (fst (fst a)) (fst (fst b))
  \/ (fst (fst a) = fst (fst b)
      /\ (String.ltb (snd (fst a)) (snd (fst b)) = true
          \/ (snd (fst a) = snd (fst b) /\ String.leb (snd a) (snd b) = true))).

Definition file_key_eqb (a b : file_key) : bool :=
  option_eqb String.eqb (fst (fst a)) (fst (fst b))
  && String.eqb (snd (fst a)) (snd (fst b))
  && String.eqb (snd a) (snd b).

(** The subject [s] has a quality node that is kept under the name [k]. *)
Definition has_char (ru : vocab) (g : graph) (s : term) (k : string) : Prop :=
  exists o c, In o (objects g s (HAS_QUALITY_TERM ru))
              /\ characteristic_of ru g o = Some c /\ name c = k.

(** The members of a study group that are typed Material, in the order
    the loop of lines 88-92 appends them. *)
Definition members (ru : vocab) (g : graph) (sg : term) : list term :=
  flat_map (fun o => map (fun _ : triple => o) (typed ru g o (DATS_MATERIAL_TERM ru)))
    (objects g sg (HAS_MEMBER_TERM ru)).

(** Scenario A with a third member of the group that has no name triple. *)
Definition g_nameless : graph :=
  g_scenario_a
  ++ [ (BNode "grp", HAS_MEMBER_TERM ru0, BNode "s3");
       is_a (BNode "s3") (DATS_MATERIAL_TERM ru0) ].

Definition no_tables : tables := {|
  project_name := None; dataset_ids := []; datasets := []; ds_to_study := [];
  study_to_groups := []; study_group_to_name := []; study_group_to_subjects := [];
  subject_to_name := []; subject_to_chars := []; sorted_char_names := [];
  subject_to_files := []
|}.

(** The tables of a run that got as far as printing. *)
Definition tables_of (r : result tables) : tables :=
  match r with
  | Ok T => T
  | Abort _ => no_tables
  end.

Definition T_nameless : tables := Eval vm_compute in tables_of (build ru0 g_nameless).

(** The FileInfo records linked to a subject (none when the subject is not
    a key of [subject_to_files]). *)
Definition files_of (T : tables) (s : term) : list file_info :=
  match tget s (subject_to_files T) with
  | Some l => l
  | None => []
  end.

(** The cell of a subject in the column of the characteristic [k]. *)
Definition char_string (subject_chars : sdict characteristic) (k : string) : string :=
  match sget k subject_chars with
  | Some c => value c
  | None => ""
  end.

(** What the file-linking loop maintains: a subject that is a key of
    [subject_to_files] has at least one record, and every record carries
    the datatype that the classifier gives for its S3 URI. *)
Definition files_classified (project : option term) (files : tdict (list file_info)) : Prop :=
  forall k l, tget k files = Some l ->
    l <> [] /\ forall f, In f l ->
                 seq_datatype project (Some (S3_URI f)) = Ok (datatype f, S3_URI f).

Definition T_scenario_a : tables := Eval vm_compute in tables_of (build ru0 g_scenario_a).

(** Scenario A with characteristics: "s1" has a "sex" with value "male";
    "s2" has an "age" whose quality node has no value triple, and a quality
    node with two names. *)
Definition g_chars : graph :=
  g_scenario_a
  ++ [ (BNode "s1", HAS_QUALITY_TERM ru0, BNode "q1");
       (BNode "q1", DATA_ITEM_TERM ru0, lit "male");
       (BNode "q1", NAME_TERM ru0, BNode "q1_name");
       (BNode "q1_name", SDO_VALUE_TERM ru0, lit "sex");
       (BNode "q1", CENTRAL_ID_TERM ru0, BNode "q1_id");
       (BNode "q1_id", SDO_IDENT_TERM ru0, lit "phv00169062");
       (BNode "s2", HAS_QUALITY_TERM ru0, BNode "q2");
       (BNode "q2", NAME_TERM ru0, BNode "q2_name");
       (BNode "q2_name", SDO_VALUE_TERM ru0, lit "age");
       (BNode "q2", CENTRAL_ID_TERM ru0, BNode "q2_id");
       (BNode "q2_id", SDO_IDENT_TERM ru0, lit "phv00169063");
       (BNode "s2", HAS_QUALITY_TERM ru0, BNode "q3");
       (BNode "q3", DATA_ITEM_TERM ru0, lit "white");
       (BNode "q3", NAME_TERM ru0, BNode "q3_name");
       (BNode "q3_name", SDO_VALUE_TERM ru0, lit "race");
       (BNode "q3_name", SDO_VALUE_TERM ru0, lit "ethnicity");
       (BNode "q3", CENTRAL_ID_TERM ru0, BNode "q3_id");
       (BNode "q3_id", SDO_IDENT_TERM ru0, lit "phv00169064") ].

Definition T_chars : tables := Eval vm_compute in tables_of (build ru0 g_chars).

(** The GTEx project with one file for "s1"; the S3 URI is a parameter. *)
Definition g_gtex_file (uri : string) : graph :=
  g_scenario_a ++ g_file "f1" uri "gs://bucket/x.cram" "100" "Blood" (BNode "s1").

(** A file whose S3 URI has both path fragments. *)
Definition g_both_fragments : graph := g_gtex_file "s3://bucket/wgs/rnaseq/x.cram".
Definition T_both_fragments : tables :=
  Eval vm_compute in tables_of (build ru0 g_both_fragments).

(** The TOPMed project with one file for "s1". *)
Definition g_topmed_file : graph :=
  g_project topmed_title
  ++ g_file "f1" "s3://bucket/wgs/x.cram" "gs://bucket/x.cram" "100" "Blood" (BNode "s1").

(** The size values that the Distributions of a Dataset report, as the
    strings the script compares. *)
Definition sizes_of (ru : vocab) (g : graph) (d : term) : list string :=
  flat_map (fun o => map str (objects g o (SDO_SIZE_TERM ru)))
    (objects g d (SDO_DISTRIBUTIONS_TERM ru)).

(** An abort that is an uncaught exception rather than a fatal diagnostic. *)
Definition is_exception (e : abort) : Prop :=
  match e with
  | Fatal _ => False
  | _ => True
  end.

(** Scenario B: a Dataset whose two Distributions report "100" and "200". *)
Definition g_two_sizes : graph :=
  [ is_a (BNode "f") (DATS_DATASET_TERM ru0);
    (BNode "f", SDO_DISTRIBUTIONS_TERM ru0, URIRef "s3://bucket/wgs/x.cram");
    (URIRef "s3://bucket/wgs/x.cram", SDO_SIZE_TERM ru0, lit "100");
    (BNode "f", SDO_DISTRIBUTIONS_TERM ru0, URIRef "gs://bucket/x.cram");
    (URIRef "gs://bucket/x.cram", SDO_SIZE_TERM ru0, lit "200") ].

Definition g_scenario_b : graph := g_scenario_a ++ g_two_sizes.

(** The key of an element whose key is looked up in a dictionary of terms;
    the sort only runs when every element has one. *)
Definition key_term (m : tdict term) (x : term) : term :=
  match tget x m with
  | Some t => t
  | None => URIRef ""
  end.

(** A list in ascending order of the terms [key x]: no element has a key
    below the key of an earlier one. *)
Definition ascending {A} (ltb : term -> term -> bool) (key : A -> term) (l : list A) : Prop :=
  StronglySorted (fun a b => term_le ltb (key a) (key b)) l.

(** [l'] keeps the elements of [l] whose keys are equal to the sort in the
    order they have in [l]. *)
Definition ties_in_order {A} (ltb : term -> term -> bool) (key : A -> term)
    (l l' : list A) : Prop :=
  forall k, filter (fun x => term_tie ltb (key x) k) l'
            = filter (fun x => term_tie ltb (key x) k) l.

(** The same two notions for FileInfo records and their composite key. *)
Definition files_ascending (l : list file_info) : Prop :=
  StronglySorted (fun a b => file_key_le (key_of_file a) (key_of_file b)) l.

Definition file_ties_in_order (l l' : list file_info) : Prop :=
  forall k, filter (fun f => file_key_eqb (key_of_file f) k) l'
            = filter (fun f => file_key_eqb (key_of_file f) k) l.

(** The leading cells of the rows of a subject (lines 301-309). *)
Definition leading_cells (T : tables) (dataset_id group_name subject_name : term)
    (subject_chars : sdict characteristic) : list (option string) :=
  [option_map str (project_name T); Some (str dataset_id);
   Some (str group_name); Some (str subject_name)] ++ char_cells T subject_chars.

(** Scenario A with two file Datasets for "s1" that refer to the same S3
    object (so the two FileInfo records have the same anatomical part name,
    datatype and S3 URI) and to different GCP copies.  [first] and [second]
    give the order in which the store enumerates the two Datasets. *)
Definition g_tied_files (first second : string) : graph :=
  g_scenario_a
  ++ [ is_a (BNode first) (DATS_DATASET_TERM ru0);
       is_a (BNode second) (DATS_DATASET_TERM ru0) ]
  ++ [ (BNode "f1", SDO_DISTRIBUTIONS_TERM ru0, URIRef "s3://bucket/wgs/x.cram");
       (BNode "f1", SDO_DISTRIBUTIONS_TERM ru0, URIRef "gs://east/x.cram");
       (BNode "f2", SDO_DISTRIBUTIONS_TERM ru0, URIRef "s3://bucket/wgs/x.cram");
       (BNode "f2", SDO_DISTRIBUTIONS_TERM ru0, URIRef "gs://west/x.cram");
       (URIRef "s3://bucket/wgs/x.cram", SDO_SIZE_TERM ru0, lit "100");
       is_a (URIRef "s3://bucket/wgs/x.cram") (SDO_DATA_DOWNLOAD_TERM ru0);
       is_a (URIRef "gs://east/x.cram") (SDO_DATA_DOWNLOAD_TERM ru0);
       is_a (URIRef "gs://west/x.cram") (SDO_DATA_DOWNLOAD_TERM ru0);
       (BNode "f1", PRODUCED_BY_TERM ru0, BNode "acq1");
       (BNode "f2", PRODUCED_BY_TERM ru0, BNode "acq2");
       is_a (BNode "acq1") (DATS_DATA_ACQUISITION_TERM ru0);
       is_a (BNode "acq2") (DATS_DATA_ACQUISITION_TERM ru0);
       (BNode "acq1", HAS_INPUT_TERM ru0, BNode "extract1");
       (BNode "acq2", HAS_INPUT_TERM ru0, BNode "extract2");
       (BNode "extract1", DERIVES_FROM_TERM ru0, BNode "sample1");
       (BNode "extract2", DERIVES_FROM_TERM ru0, BNode "sample2");
       (BNode "sample1", DERIVES_FROM_TERM ru0, BNode "s1");
       (BNode "sample1", DERIVES_FROM_TERM ru0, BNode "blood");
       (BNode "sample2", DERIVES_FROM_TERM ru0, BNode "s1");
       (BNode "sample2", DERIVES_FROM_TERM ru0, BNode "blood");
       is_a (BNode "blood") (SDO_ANATOMICAL_STRUCTURE_TERM ru0);
       (BNode "blood", NAME_TERM ru0, lit "Blood");
       (BNode "blood", CENTRAL_ID_TERM ru0, BNode "blood_id");
       (BNode "blood_id", CENTRAL_ID_TERM ru0, lit "UBERON:0000178") ].

Definition T_tied_files : tables :=
  Eval vm_compute in tables_of (build ru0 (g_tied_files "f1" "f2")).

(** A graph is a set of triples: a store yields no triple twice.  The
    sample stores are checked with this test. *)
Definition triple_eqb (a b : triple) : bool :=
  term_eqb (subj a) (subj b) && term_eqb (pred a) (pred b) && term_eqb (obj a) (obj b).

Fixpoint no_repeats (g : graph) : bool :=
  match g with
  | [] => true
  | t :: g' => negb (existsb (triple_eqb t) g') && no_repeats g'
  end.

(* ------------------------------------------------------------------ *)
(** ** What the tables hold, read off the graph *)
(* ------------------------------------------------------------------ *)

(** The identifiers of a Dataset: the values behind its central-id nodes,
    in the order the loop of lines 34-36 meets them. *)
Definition identifiers_of (ru : vocab) (g : graph) (d : term) : list term :=
  chain g d (CENTRAL_ID_TERM ru) (SDO_IDENT_TERM ru).

Definition has_identifier (ru : vocab) (g : graph) (d : term) : bool :=
  match identifiers_of ru g d with
  | [] => false
  | _ :: _ => true
  end.

(** The Study nodes that a Dataset is produced by, in the order the loop of
    lines 60-62 assigns them. *)
Definition studies_of (ru : vocab) (g : graph) (d : term) : list term :=
  flat_map (fun o => map (fun _ : triple => o) (typed ru g o (DATS_STUDY_TERM ru)))
    (objects g d (PRODUCED_BY_TERM ru)).

(** The parts of a study that are typed StudyGroup and have exactly one
    name triple, in the order the loop of lines 72-80 appends them. *)
Definition groups_in (ru : vocab) (g : graph) (s : term) : list term :=
  flat_map
    (fun o => flat_map
                (fun _ : triple =>
                   if Nat.eqb (List.length (objects g o (NAME_TERM ru))) 1 then [o] else [])
                (typed ru g o (DATS_STUDY_GROUP_TERM ru)))
    (objects g s (HAS_PART_TERM ru)).

Definition is_in (x : term) (l : list term) : bool := existsb (term_eqb x) l.

Definition has_study (ru : vocab) (g : graph) (d : term) : bool :=
  match studies_of ru g d with
  | [] => false
  | _ :: _ => true
  end.

(** A name map in which every entry is the last name triple of its key. *)
Definition names_sound (ru : vocab) (g : graph) (names : tdict term) : Prop :=
  forall k v, tget k names = Some v -> last_opt (objects g k (NAME_TERM ru)) = Some v.

(** The characteristics kept for a subject, one per quality node that
    passes the test of line 130, in the order of the has-quality edges. *)
Definition kept_characteristics (ru : vocab) (g : graph) (s : term) : list characteristic :=
  flat_map (fun o => match characteristic_of ru g o with
                     | Some c => [c]
                     | None => []
                     end)
    (objects g s (HAS_QUALITY_TERM ru)).

(** The parts of a Dataset that are typed Dimension, in the order the loop
    of lines 156-157 visits them, with the name and the value the loop
    reads for each (the last one when there are several). *)
Definition dimensions_of (ru : vocab) (g : graph) (d : term) : list term :=
  flat_map (fun o2 => map (fun _ : triple => o2) (typed ru g o2 (DATS_DIMENSION_TERM ru)))
    (objects g d (HAS_PART_TERM ru)).

Definition dimension_name (ru : vocab) (g : graph) (o2 : term) : option string :=
  last_opt (map str (chain g o2 (NAME_TERM ru) (SDO_VALUE_TERM ru))).

Definition dimension_value (ru : vocab) (g : graph) (o2 : term) : option string :=
  last_opt (map str (objects g o2 (DATA_ITEM_TERM ru))).

Definition is_md5 (ru : vocab) (g : graph) (o2 : term) : bool :=
  option_eqb String.eqb (dimension_name ru g o2) (Some "MD5").

(** The URIs of the distributions of a Dataset that are typed DataDownload,
    in the order the loop of lines 169-181 meets them. *)
Definition downloads_of (ru : vocab) (g : graph) (d : term) : list string :=
  flat_map (fun o => map (fun _ : triple => str o) (typed ru g o (SDO_DATA_DOWNLOAD_TERM ru)))
    (objects g d (SDO_DISTRIBUTIONS_TERM ru)).

Definition is_s3 (u : string) : bool := String.prefix "s3://" u.
Definition is_gs (u : string) : bool := String.prefix "gs://" u.

Definition no_distributions : distributions :=
  {| d_file_size := None; d_s3_URI := None; d_gs_URI := None; d_distribs := [] |}.

Definition distributions_of (r : result distributions) : distributions :=
  match r with
  | Ok d => d
  | Abort _ => no_distributions
  end.

(** The distributions of the file Dataset of the sample GTEx run. *)
Definition g_wgs_file : graph := g_gtex_file "s3://bucket/wgs/x.cram".
Definition dist_wgs_file : distributions :=
  Eval vm_compute in distributions_of (link_distributions ru0 g_wgs_file (BNode "f1")).
Definition T_wgs_file : tables := Eval vm_compute in tables_of (build ru0 g_wgs_file).

(** The characteristics of "s2" in the run with characteristics. *)
Definition chars_s2 : sdict characteristic :=
  Eval vm_compute in
    match tget (BNode "s2") (subject_to_chars T_chars) with
    | Some c => c
    | None => []
    end.

(** The term ids of an AnatomicalPart node, as the strings that the loop of
    lines 221-224 puts into [term_ids]. *)
Definition term_ids_of (ru : vocab) (g : graph) (o3 : term) : list string :=
  map str (chain g o3 (CENTRAL_ID_TERM ru) (CENTRAL_ID_TERM ru)).

(** The matches for the type AnatomicalStructure among the things a sample
    derives from; lines 213-231 run once for each. *)
Definition anatomical_matches (ru : vocab) (g : graph) (o2 : term) : list triple :=
  flat_map (fun o3 => typed ru g o3 (SDO_ANATOMICAL_STRUCTURE_TERM ru))
    (objects g o2 (DERIVES_FROM_TERM ru)).

(** The GTEx run with a file whose sample derives from two anatomical
    parts. *)
Definition g_two_parts : graph :=
  g_wgs_file
  ++ [ (BNode "f1_sample", DERIVES_FROM_TERM ru0, BNode "Skin");
       is_a (BNode "Skin") (SDO_ANATOMICAL_STRUCTURE_TERM ru0);
       (BNode "Skin", NAME_TERM ru0, lit "Skin");
       (BNode "Skin", CENTRAL_ID_TERM ru0, BNode "Skin_id");
       (BNode "Skin_id", CENTRAL_ID_TERM ru0, lit "UBERON:0002097") ].

(** The FileInfo record [f] is the one that lines 203-273 make for the
    subject [s] from the Dataset [d]: [d] has one DataAcquisition, whose
    input extract derives from a sample that derives from [s] and has one
    anatomical part; the URIs, the size and the checksum are those of [d]. *)
Definition file_from (ru : vocab) (g : graph) (project : option term)
    (d s : term) (f : file_info) : Prop :=
  exists dist acq extract sample part dt,
    link_distributions ru g d = Ok dist
    /\ data_acquisitions ru g d = [acq]
    /\ In extract (objects g acq (HAS_INPUT_TERM ru))
    /\ In sample (objects g extract (DERIVES_FROM_TERM ru))
    /\ In s (objects g sample (DERIVES_FROM_TERM ru))
    /\ anatomical_parts_of ru g sample = Ok [part]
    /\ seq_datatype project (d_s3_URI dist) = Ok dt
    /\ f = {| anatomical_part_name := fst part;
              anatomical_part_id := snd part;
              S3_URI := snd dt;
              GS_URI := d_gs_URI dist;
              datatype := fst dt;
              distribs := d_distribs dist;
              file_size := d_file_size dist;
              md5_checksum := md5_of ru g d |}.

Definition files_from (ru : vocab) (g : graph) (project : option term)
    (ds : list term) (files : tdict (list file_info)) : Prop :=
  forall k l f, tget k files = Some l -> In f l ->
    exists d, In d ds /\ file_from ru g project d k f.

(** The file lists of [b] extend those of [a]: the file-linking loop only
    ever appends. *)
Definition files_grow (a b : tdict (list file_info)) : Prop :=
  forall k l, tget k a = Some l -> exists l', tget k b = Some (l ++ l').

(** A FileInfo record all of whose cells are strings: it has an anatomical
    part name, a size, a checksum and a GCP URI. *)
Definition file_complete (f : file_info) : bool :=
  negb (is_none (anatomical_part_name f)) && negb (is_none (file_size f))
  && negb (is_none (md5_checksum f)) && negb (is_none (GS_URI f)).

Definition or_empty (o : option string) : string :=
  match o with
  | Some s => s
  | None => ""
  end.

(** The seven file cells of a complete record, as strings. *)
Definition file_strings (f : file_info) : list string :=
  [or_empty (anatomical_part_name f); anatomical_part_id f; datatype f;
   or_empty (file_size f); or_empty (md5_checksum f); S3_URI f; or_empty (GS_URI f)].

(** The leading cells of a subject's rows, as strings. *)
Definition leading_strings (T : tables) (pn dataset_id group_name subject_name : term)
    (subject_chars : sdict characteristic) : list string :=
  [str pn; str dataset_id; str group_name; str subject_name]
    ++ map (char_string subject_chars) (sorted_char_names T).

(** The GTEx run with a file Dataset that has no GCP distribution. *)
Definition g_no_gcp : graph :=
  g_scenario_a
  ++ [ is_a (BNode "f1") (DATS_DATASET_TERM ru0);
       (BNode "f1", SDO_DISTRIBUTIONS_TERM ru0, URIRef "s3://bucket/wgs/x.cram");
       (URIRef "s3://bucket/wgs/x.cram", SDO_SIZE_TERM ru0, lit "100");
       is_a (URIRef "s3://bucket/wgs/x.cram") (SDO_DATA_DOWNLOAD_TERM ru0);
       (BNode "f1", PRODUCED_BY_TERM ru0, BNode "f1_acq");
       is_a (BNode "f1_acq") (DATS_DATA_ACQUISITION_TERM ru0);
       (BNode "f1_acq", HAS_INPUT_TERM ru0, BNode "f1_extract");
       (BNode "f1_extract", DERIVES_FROM_TERM ru0, BNode "f1_sample");
       (BNode "f1_sample", DERIVES_FROM_TERM ru0, BNode "s1");
       (BNode "f1_sample", DERIVES_FROM_TERM ru0, BNode "Blood");
       is_a (BNode "Blood") (SDO_ANATOMICAL_STRUCTURE_TERM ru0);
       (BNode "Blood", NAME_TERM ru0, lit "Blood");
       (BNode "Blood", CENTRAL_ID_TERM ru0, BNode "Blood_id");
       (BNode "Blood_id", CENTRAL_ID_TERM ru0, lit "UBERON:0000178") ].

Definition T_no_gcp : tables := Eval vm_compute in tables_of (build ru0 g_no_gcp).

Definition chars_of (T : tables) (s : term) : sdict characteristic :=
  match tget s (subject_to_chars T) with
  | Some c => c
  | None => []
  end.

(** The GTEx run with a file Dataset whose distributions are both on GCP. *)
Definition g_gs_only : graph := g_gtex_file "gs://bucket/wgs/y.cram".

(** Two stores answer alike the queries [main] makes: the one for all
    Datasets (line 29), and the ones with a subject and a predicate (all the
    others, with or without an object). *)
Definition same_answers (ru : vocab) (g1 g2 : graph) : Prop :=
  triples g1 None (Some (RDF_TYPE_TERM ru)) (Some (DATS_DATASET_TERM ru))
  = triples g2 None (Some (RDF_TYPE_TERM ru)) (Some (DATS_DATASET_TERM ru))
  /\ forall s p, triples g1 (Some s) (Some p) None = triples g2 (Some s) (Some p) None.

(** The triples of [g_chars], the characteristics enumerated before the
    project. *)
Definition g_chars_reordered : graph := skipn 15 g_chars ++ firstn 15 g_chars.

(** Scenario A with two more identifiers behind the central id of the
    Dataset, enumerated [first] then [second]. *)
Definition g_two_ids (first second : string) : graph :=
  g_scenario_a
  ++ [ (BNode "ds_id", SDO_IDENT_TERM ru0, lit first);
       (BNode "ds_id", SDO_IDENT_TERM ru0, lit second) ].

(** [same_answers], decided on the queries that have an answer in one of the
    two stores. *)
Fixpoint triples_eqb (l1 l2 : list triple) : bool :=
  match l1, l2 with
  | [], [] => true
  | a :: l1', b :: l2' => triple_eqb a b && triples_eqb l1' l2'
  | _, _ => false
  end.

Definition same_answers_b (ru : vocab) (g1 g2 : graph) : bool :=
  triples_eqb (triples g1 None (Some (RDF_TYPE_TERM ru)) (Some (DATS_DATASET_TERM ru)))
              (triples g2 None (Some (RDF_TYPE_TERM ru)) (Some (DATS_DATASET_TERM ru)))
  && forallb (fun t => triples_eqb (triples g1 (Some (subj t)) (Some (pred t)) None)
                                   (triples g2 (Some (subj t)) (Some (pred t)) None))
       (g1 ++ g2).

(** The GTEx run with a file whose S3 URI has neither path fragment. *)
Definition g_unmatched : graph := g_gtex_file "s3://bucket/other/x.cram".

(** Scenario A with a third subject whose name is a URIRef. *)
Definition g_uri_name : graph :=
  g_scenario_a
  ++ [ (BNode "grp", HAS_MEMBER_TERM ru0, BNode "s3");
       is_a (BNode "s3") (DATS_MATERIAL_TERM ru0);
       (BNode "s3", NAME_TERM ru0, URIRef "Z9") ].

(** The same run, the GCP copy reporting another size than the S3 object. *)
Definition g_unmatched_two_sizes : graph :=
  g_unmatched ++ [ (URIRef "gs://bucket/x.cram", SDO_SIZE_TERM ru0, lit "200") ].

(* ================================================================== *)
(** * Properties *)
(* ================================================================== *)

Unset Implicit Arguments.

(** ** Equality tests, dictionaries, loops *)

Lemma option_eqb_string_eq (a b : option string) :
  option_eqb String.eqb a b = true <-> a = b.
Proof.
  destruct a as [x|], b as [y|]; simpl; split; intro H;
    try discriminate; try reflexivity.
  - apply String.eqb_eq in H. now subst.
  - injection H as ->. apply String.eqb_refl.
Qed.

Lemma term_eqb_eq (a b : term) : term_eqb a b = true <-> a = b.
Proof.
  destruct a, b; simpl; split; intro H; try discriminate.
  - apply String.eqb_eq in H. now subst.
  - injection H as ->. apply String.eqb_refl.
  - apply String.eqb_eq in H. now subst.
  - injection H as ->. apply String.eqb_refl.
  - apply andb_true_iff in H as [H1 H2].
    apply String.eqb_eq in H1. apply option_eqb_string_eq in H2. now subst.
  - injection H as -> ->. apply andb_true_iff. split.
    + apply String.eqb_refl.
    + now apply option_eqb_string_eq.
Qed.

Lemma term_eqb_refl (a : term) : term_eqb a a = true.
Proof. now apply term_eqb_eq. Qed.

Lemma term_eqb_neq (a b : term) : a <> b -> term_eqb a b = false.
Proof.
  intro H. destruct (term_eqb a b) eqn:E; [|reflexivity].
  apply term_eqb_eq in E. contradiction.
Qed.

Section DictFacts.
Variables K V : Type.
Variable eqb : K -> K -> bool.
Hypothesis eqb_eq : forall a b, eqb a b = true <-> a = b.

Lemma get_set_same (k : K) (v : V) (d : PyDict.t K V) :
  PyDict.get eqb k (PyDict.set eqb k v d) = Some v.
Proof.
  induction d as [|[k' v'] d IH]; simpl.
  - replace (eqb k k) with true; [reflexivity|]. symmetry. now apply eqb_eq.
  - destruct (eqb k k') eqn:E; simpl; rewrite E; [reflexivity|exact IH].
Qed.

Lemma get_set_other (k k0 : K) (v : V) (d : PyDict.t K V) :
  k <> k0 -> PyDict.get eqb k0 (PyDict.set eqb k v d) = PyDict.get eqb k0 d.
Proof.
  intro Hne. induction d as [|[k' v'] d IH]; simpl.
  - destruct (eqb k0 k) eqn:E; [|reflexivity].
    apply eqb_eq in E. congruence.
  - destruct (eqb k k') eqn:E; simpl.
    + apply eqb_eq in E. subst k'.
      destruct (eqb k0 k) eqn:E0; [|reflexivity].
      apply eqb_eq in E0. congruence.
    + destruct (eqb k0 k'); [reflexivity|exact IH].
Qed.

Lemma get_in_keys (k : K) (d : PyDict.t K V) :
  In k (PyDict.keys d) -> exists v, PyDict.get eqb k d = Some v.
Proof.
  induction d as [|[k' v'] d IH]; simpl; [tauto|].
  intros [H|H].
  - subst k'. replace (eqb k k) with true; [eauto|]. symmetry. now apply eqb_eq.
  - destruct (eqb k k'); [eauto|]. now apply IH.
Qed.

Lemma get_some_in_keys (k : K) (v : V) (d : PyDict.t K V) :
  PyDict.get eqb k d = Some v -> In k (PyDict.keys d).
Proof.
  induction d as [|[k' v'] d IH]; simpl; [discriminate|].
  destruct (eqb k k') eqn:E.
  - apply eqb_eq in E. subst. now left.
  - intro H. right. now apply IH.
Qed.

Lemma keys_set (k : K) (v : V) (d : PyDict.t K V) :
  forall x, In x (PyDict.keys (PyDict.set eqb k v d)) <-> x = k \/ In x (PyDict.keys d).
Proof.
  intro x. induction d as [|[k' v'] d IH]; simpl.
  - intuition.
  - destruct (eqb k k') eqn:E; simpl.
    + apply eqb_eq in E. subst k'. intuition.
    + rewrite IH. intuition.
Qed.

Lemma keys_set_NoDup (k : K) (v : V) (d : PyDict.t K V) :
  NoDup (PyDict.keys d) -> NoDup (PyDict.keys (PyDict.set eqb k v d)).
Proof.
  induction d as [|[k' v'] d IH]; simpl; intro H.
  - constructor; [intros []|constructor].
  - inversion H as [|? ? Hn Hd]; subst.
    destruct (eqb k k') eqn:E; simpl.
    + now constructor.
    + constructor; [|now apply IH].
      intro Hin. apply keys_set in Hin as [->|Hin]; [|contradiction].
      assert (eqb k k = true) by now apply eqb_eq. congruence.
Qed.
End DictFacts.

Lemma tget_tset_same {V} (k : term) (v : V) d : tget k (tset k v d) = Some v.
Proof. apply get_set_same, term_eqb_eq. Qed.

Lemma tget_tset_other {V} (k k0 : term) (v : V) d :
  k <> k0 -> tget k0 (tset k v d) = tget k0 d.
Proof. apply get_set_other, term_eqb_eq. Qed.

Lemma tget_tset {V} (k k0 : term) (v : V) d :
  tget k0 (tset k v d) = if term_eqb k k0 then Some v else tget k0 d.
Proof.
  destruct (term_eqb k k0) eqn:E.
  - apply term_eqb_eq in E. subst. apply tget_tset_same.
  - apply tget_tset_other. intro H. subst. rewrite term_eqb_refl in E. discriminate.
Qed.

Lemma sget_sset {V} (k k0 : string) (v : V) d :
  sget k0 (sset k v d) = if String.eqb k k0 then Some v else sget k0 d.
Proof.
  destruct (String.eqb k k0) eqn:E.
  - apply String.eqb_eq in E. subst. apply get_set_same, String.eqb_eq.
  - apply get_set_other; [apply String.eqb_eq|].
    intro H. subst. rewrite String.eqb_refl in E. discriminate.
Qed.

Lemma tmem_true {V} (k : term) (d : tdict V) :
  tmem k d = true <-> exists v, tget k d = Some v.
Proof.
  unfold tmem, PyDict.mem, tget. destruct (PyDict.get term_eqb k d); split;
    intro H; eauto; try discriminate. now destruct H.
Qed.

Lemma tmem_false {V} (k : term) (d : tdict V) :
  tmem k d = false <-> tget k d = None.
Proof.
  unfold tmem, PyDict.mem, tget. destruct (PyDict.get term_eqb k d); split;
    intro H; congruence.
Qed.

Lemma index_ok {V} (d : tdict V) (k : term) (v : V) :
  index d k = Ok v <-> tget k d = Some v.
Proof.
  unfold index. destruct (tget k d); split; intro H; congruence.
Qed.

(** Loops: invariants, and where an abort comes from. *)
Lemma for_each_invariant {A S} (P : S -> Prop) (body : S -> A -> result S) l :
  (forall st x st', In x l -> P st -> body st x = Ok st' -> P st') ->
  forall st st', P st -> for_each body l st = Ok st' -> P st'.
Proof.
  induction l as [|x xs IH]; simpl; intros Hb st st' HP H.
  - now injection H as <-.
  - destruct (body st x) as [st1|e] eqn:E; simpl in H; [|discriminate].
    apply (IH (fun st x st' Hin => Hb st x st' (or_intror Hin)) st1 st');
      [|exact H].
    apply (Hb st x st1); auto.
Qed.

Lemma for_each_app {A S} (body : S -> A -> result S) l1 l2 st :
  for_each body (l1 ++ l2) st = (st' <- for_each body l1 st ;; for_each body l2 st').
Proof.
  revert st. induction l1 as [|x xs IH]; simpl; intro st; [reflexivity|].
  destruct (body st x); simpl; [apply IH|reflexivity].
Qed.

Lemma for_each_aborts_at {A S} (body : S -> A -> result S) l x :
  In x l -> (forall st, exists e, body st x = Abort e) ->
  forall st, exists e, for_each body l st = Abort e.
Proof.
  intros Hin Hx. induction l as [|y ys IH]; simpl in *; [tauto|]. intro st.
  destruct (body st y) as [st1|e] eqn:E; simpl; [|eauto].
  destruct Hin as [->|Hin]; [|now apply IH].
  destruct (Hx st) as [e He]. congruence.
Qed.

Lemma for_each_abort_from {A S} (body : S -> A -> result S) l st e :
  for_each body l st = Abort e ->
  exists x st1, In x l /\ body st1 x = Abort e.
Proof.
  revert st. induction l as [|y ys IH]; simpl; intros st H; [discriminate|].
  destruct (body st y) as [st1|e1] eqn:E; simpl in H.
  - destruct (IH _ H) as (x & st2 & Hi & Hb). exists x, st2. auto.
  - injection H as ->. exists y, st. auto.
Qed.

Lemma fold_left_invariant {A S} (P : S -> Prop) (f : S -> A -> S) l :
  (forall st x, In x l -> P st -> P (f st x)) ->
  forall st, P st -> P (fold_left f l st).
Proof.
  induction l as [|x xs IH]; simpl; intros Hf st HP; [exact HP|].
  apply IH; [intros; apply Hf; auto|]. apply Hf; auto.
Qed.

Lemma emit_each_rows {A} (body : A -> (list (list string) * option abort)) l r :
  In r (fst (emit_each body l)) -> exists x, In x l /\ In r (fst (body x)).
Proof.
  induction l as [|x xs IH]; simpl; [tauto|].
  destruct (body x) as [rows [e|]] eqn:E; simpl; intro H.
  - exists x. rewrite E. auto.
  - apply in_app_or in H as [H|H].
    + exists x. rewrite E. auto.
    + destruct (IH H) as (y & Hy & Hr). eauto.
Qed.

Lemma emit_each_abort {A} (body : A -> (list (list string) * option abort)) l e :
  snd (emit_each body l) = Some e -> exists x, In x l /\ snd (body x) = Some e.
Proof.
  induction l as [|x xs IH]; simpl; [discriminate|].
  destruct (body x) as [rows [e'|]] eqn:E; simpl; intro H.
  - exists x. rewrite E. auto.
  - destruct (IH H) as (y & Hy & Hr). eauto.
Qed.

(** ** The top-level Dataset check *)

Lemma title_matched_length ru g d (tts : list term) :
  existsb
    (fun tt => negb (Nat.eqb (List.length (triples g (Some d) (Some (TITLE_TERM ru)) (Some tt))) 0))
    tts
  = negb (Nat.eqb
            (List.length
               (flat_map (fun tt => map (fun _ : triple => (d, tt))
                                      (triples g (Some d) (Some (TITLE_TERM ru)) (Some tt)))
                  tts)) 0).
Proof.
  induction tts as [|tt tts IH]; simpl; [reflexivity|].
  rewrite IH, length_app, length_map.
  destruct (List.length (triples g (Some d) (Some (TITLE_TERM ru)) (Some tt)));
    simpl; reflexivity.
Qed.

Lemma filter_flat_map_count {A B} (p : A -> bool) (f : A -> list B) (l : list A) :
  (forall x, p x = negb (Nat.eqb (List.length (f x)) 0)) ->
  List.length (filter p l) <= List.length (flat_map f l)
  /\ (List.length (filter p l) = 0 -> List.length (flat_map f l) = 0).
Proof.
  intro Hp. induction l as [|d l [IH1 IH2]]; [split; auto|].
  cbn [filter flat_map]. rewrite length_app, Hp.
  destruct (List.length (f d)) as [|n]; cbn [Nat.eqb negb List.length].
  - split; auto.
  - split; [lia|discriminate].
Qed.

Lemma top_level_matches_count ru g (l : list term) :
  List.length (filter (title_matched ru g) l) <= List.length (top_level_matches ru g l)
  /\ (List.length (filter (title_matched ru g) l) = 0 ->
      List.length (top_level_matches ru g l) = 0).
Proof.
  apply filter_flat_map_count. intro d. apply title_matched_length.
Qed.

(** C1.  Whenever the number of Datasets carrying one of the two known
    titles is not exactly one, [main] ends with the fatal diagnostic
    "found N top-level DATS Datasets" (N the number of title matches, which
    is 0 when no Dataset matches and at least the number of matching
    Datasets otherwise), exits with status 1, and has printed nothing: no
    header and no data row. *)
Theorem top_level_count_is_checked (ru : vocab) (term_ltb : term -> term -> bool) (g : graph) :
  top_level_count ru g <> 1 ->
  exists n,
    main ru term_ltb g = ([], Some (Fatal ("found " ++ str_nat n ++ " top-level DATS Datasets")))
    /\ n = List.length (top_level_matches ru g (find_all_datasets ru g))
    /\ top_level_count ru g <= n
    /\ (top_level_count ru g = 0 -> n = 0)
    /\ stdout ru term_ltb g = []
    /\ exit_status ru term_ltb g = 1.
Proof.
  intro H. unfold top_level_count in *.
  destruct (top_level_matches_count ru g (find_all_datasets ru g)) as [Hle H0].
  exists (List.length (top_level_matches ru g (find_all_datasets ru g))).
  assert (Hm : main ru term_ltb g
               = ([], Some (Fatal ("found "
                    ++ str_nat (List.length (top_level_matches ru g (find_all_datasets ru g)))
                    ++ " top-level DATS Datasets")))).
  { unfold main, build. rewrite length_map.
    destruct (Nat.eqb (List.length (top_level_matches ru g (find_all_datasets ru g))) 1) eqn:E.
    - apply Nat.eqb_eq in E. exfalso.
      destruct (List.length (filter (title_matched ru g) (find_all_datasets ru g))) as [|[|k]].
      + specialize (H0 eq_refl). lia.
      + now apply H.
      + lia.
    - reflexivity. }
  unfold stdout, exit_status. rewrite Hm. simpl. repeat split; auto.
Qed.

Lemma top_level_count_is_checked_witness :
  top_level_count ru0 [] <> 1
  /\ exists n,
    main ru0 rdflib_ltb []
      = ([], Some (Fatal ("found " ++ str_nat n ++ " top-level DATS Datasets")))
    /\ n = List.length (top_level_matches ru0 [] (find_all_datasets ru0 []))
    /\ top_level_count ru0 [] <= n
    /\ (top_level_count ru0 [] = 0 -> n = 0)
    /\ stdout ru0 rdflib_ltb [] = []
    /\ exit_status ru0 rdflib_ltb [] = 1.
Proof.
  assert (H : top_level_count ru0 [] <> 1) by (vm_compute; discriminate).
  split; [exact H|]. exact (top_level_count_is_checked ru0 rdflib_ltb [] H).
Defined.

(** ** The sort: a stable, ascending rearrangement *)

Section SortFacts.
Variables A K : Type.
Variable ltb : K -> K -> bool.
Variable le : K -> K -> Prop.
Variable keq : K -> K -> bool.

Hypothesis le_trans : forall a b c, le a b -> le b c -> le a c.
Hypothesis keq_ltb : forall a b k, keq a k = true -> keq b k = true -> ltb a b = false.

Lemma insert_keyed_perm (x : K * A) s : Permutation (x :: s) (insert_keyed ltb x s).
Proof.
  induction s as [|y ys IH]; simpl; [apply Permutation_refl|].
  destruct (ltb (fst y) (fst x)); [|apply Permutation_refl].
  eapply perm_trans; [apply perm_swap|]. now apply perm_skip.
Qed.

Lemma sort_keyed_perm (l : list (K * A)) : Permutation l (sort_keyed ltb l).
Proof.
  induction l as [|x xs IH]; simpl; [constructor|].
  eapply perm_trans; [apply perm_skip, IH|apply insert_keyed_perm].
Qed.

Lemma insert_keyed_sorted (x : K * A) s :
  (forall y, In y s -> ltb (fst y) (fst x) = true -> le (fst y) (fst x)) ->
  (forall y, In y s -> ltb (fst y) (fst x) = false -> le (fst x) (fst y)) ->
  StronglySorted (fun a b => le (fst a) (fst b)) s ->
  StronglySorted (fun a b => le (fst a) (fst b)) (insert_keyed ltb x s).
Proof.
  intros Hlt Hge Hs. induction Hs as [|y ys Hys IH Hall]; simpl.
  - constructor; constructor.
  - destruct (ltb (fst y) (fst x)) eqn:E.
    + constructor.
      * apply IH; intros; [apply Hlt|apply Hge]; simpl; auto.
      * apply Forall_forall. intros z Hz.
        apply (Permutation_in _ (Permutation_sym (insert_keyed_perm x ys))) in Hz.
        destruct Hz as [<-|Hz].
        -- apply Hlt; simpl; auto.
        -- rewrite Forall_forall in Hall. now apply Hall.
    + constructor; [now constructor|].
      assert (Hxy : le (fst x) (fst y)) by (apply Hge; simpl; auto).
      constructor; [exact Hxy|].
      rewrite Forall_forall in *. intros z Hz. eapply le_trans; eauto.
Qed.

Lemma sort_keyed_sorted (l : list (K * A)) :
  (forall x y, In x l -> In y l -> ltb (fst y) (fst x) = true -> le (fst y) (fst x)) ->
  (forall x y, In x l -> In y l -> ltb (fst y) (fst x) = false -> le (fst x) (fst y)) ->
  StronglySorted (fun a b => le (fst a) (fst b)) (sort_keyed ltb l).
Proof.
  induction l as [|x xs IH]; simpl; intros Hlt Hge; [constructor|].
  apply insert_keyed_sorted.
  - intros y Hy. apply Hlt; auto.
    right. exact (Permutation_in _ (Permutation_sym (sort_keyed_perm xs)) Hy).
  - intros y Hy. apply Hge; auto.
    right. exact (Permutation_in _ (Permutation_sym (sort_keyed_perm xs)) Hy).
  - apply IH; intros; [apply Hlt|apply Hge]; auto.
Qed.

Lemma insert_keyed_filter (x : K * A) s k :
  filter (fun y => keq (fst y) k) (insert_keyed ltb x s)
  = if keq (fst x) k then x :: filter (fun y => keq (fst y) k) s
    else filter (fun y => keq (fst y) k) s.
Proof.
  induction s as [|y ys IH]; simpl; [reflexivity|].
  destruct (ltb (fst y) (fst x)) eqn:E; simpl.
  - rewrite IH. destruct (keq (fst y) k) eqn:Ey, (keq (fst x) k) eqn:Ex; try reflexivity.
    rewrite (keq_ltb _ _ _ Ey Ex) in E. discriminate.
  - reflexivity.
Qed.

(** Elements with the same key keep their relative order. *)
Lemma sort_keyed_stable (l : list (K * A)) k :
  filter (fun y => keq (fst y) k) (sort_keyed ltb l) = filter (fun y => keq (fst y) k) l.
Proof.
  induction l as [|x xs IH]; simpl; [reflexivity|].
  rewrite insert_keyed_filter, IH. reflexivity.
Qed.

(** The same three facts for [sort_by], with the key read off by a total
    function [kf] that agrees with the key function of the sort. *)
Variable key : A -> result K.
Variable kf : A -> K.

Lemma decorate_ok (l : list A) ks :
  (forall x k, In x l -> key x = Ok k -> k = kf x) ->
  decorate key l = Ok ks -> ks = map (fun x => (kf x, x)) l.
Proof.
  revert ks. induction l as [|x xs IH]; simpl; intros ks Hk H.
  - now injection H as <-.
  - destruct (key x) as [k|] eqn:Ek; simpl in H; [|discriminate].
    destruct (decorate key xs) as [ks'|] eqn:Ed; simpl in H; [|discriminate].
    injection H as <-. rewrite (IH ks'); auto.
    now rewrite (Hk x k (or_introl eq_refl) Ek).
Qed.

Lemma decorate_total (l : list A) :
  (forall x, In x l -> exists k, key x = Ok k) -> exists ks, decorate key l = Ok ks.
Proof.
  induction l as [|x xs IH]; simpl; intro H; [eauto|].
  destruct (H x (or_introl eq_refl)) as [k ->]. simpl.
  destruct IH as [ks ->]; [auto|]. simpl. eauto.
Qed.

Lemma decorate_abort (l : list A) e :
  decorate key l = Abort e -> exists x, In x l /\ key x = Abort e.
Proof.
  induction l as [|x xs IH]; simpl; intro H; [discriminate|].
  destruct (key x) as [k|e'] eqn:Ek; simpl in H.
  - destruct (decorate key xs) as [ks'|e''] eqn:Ed; simpl in H; [discriminate|].
    injection H as ->. destruct (IH eq_refl) as (y & Hy & Hk). eauto.
  - injection H as ->. eauto.
Qed.

Lemma sort_by_facts (l l' : list A) :
  (forall x k, In x l -> key x = Ok k -> k = kf x) ->
  (forall x y, In x l -> In y l -> ltb (kf y) (kf x) = true -> le (kf y) (kf x)) ->
  (forall x y, In x l -> In y l -> ltb (kf y) (kf x) = false -> le (kf x) (kf y)) ->
  sort_by ltb key l = Ok l' ->
  Permutation l l'
  /\ StronglySorted (fun a b => le (kf a) (kf b)) l'
  /\ forall k, filter (fun x => keq (kf x) k) l' = filter (fun x => keq (kf x) k) l.
Proof.
  intros Hk Hlt Hge H. unfold sort_by in H.
  destruct (decorate key l) as [ks|] eqn:Ed; simpl in H; [|discriminate].
  injection H as <-. apply decorate_ok in Ed; [|exact Hk]. subst ks.
  set (dl := map (fun x => (kf x, x)) l).
  assert (Hdl : forall y, In y dl -> fst y = kf (snd y) /\ In (snd y) l).
  { intros y Hy. apply in_map_iff in Hy as (x & <- & Hx). simpl. auto. }
  assert (Hsl : forall y, In y (sort_keyed ltb dl) -> fst y = kf (snd y) /\ In (snd y) l).
  { intros y Hy. apply Hdl.
    exact (Permutation_in _ (Permutation_sym (sort_keyed_perm dl)) Hy). }
  split; [|split].
  - replace l with (map snd dl).
    + apply Permutation_map, sort_keyed_perm.
    + unfold dl. rewrite map_map. simpl. apply map_id.
  - assert (Hs : StronglySorted (fun a b => le (fst a) (fst b)) (sort_keyed ltb dl)).
    { apply sort_keyed_sorted; intros x y Hx Hy;
        destruct (Hdl x Hx) as [-> ?], (Hdl y Hy) as [-> ?]; auto. }
    revert Hs Hsl. generalize (sort_keyed ltb dl). intros s Hs.
    induction Hs as [|y ys Hys IH Hall]; simpl; intro Hsl; [constructor|].
    constructor; [apply IH; intros; apply Hsl; simpl; auto|].
    rewrite Forall_forall in *. intros z Hz.
    apply in_map_iff in Hz as (w & <- & Hw).
    destruct (Hsl y (or_introl eq_refl)) as [<- _].
    destruct (Hsl w (or_intror Hw)) as [<- _]. now apply Hall.
  - intro k.
    assert (Hf : forall s : list (K * A), (forall y, In y s -> fst y = kf (snd y)) ->
              filter (fun x => keq (kf x) k) (map snd s)
              = map snd (filter (fun y => keq (fst y) k) s)).
    { induction s as [|y ys IH]; simpl; intro Hy; [reflexivity|].
      rewrite <- (Hy y (or_introl eq_refl)).
      destruct (keq (fst y) k); simpl; rewrite IH; auto. }
    rewrite Hf; [|intros; now apply Hsl].
    rewrite sort_keyed_stable. rewrite <- Hf; [|intros; now apply Hdl].
    unfold dl. rewrite map_map. simpl. now rewrite map_id.
Qed.

Lemma sort_by_total (l : list A) :
  (forall x, In x l -> exists k, key x = Ok k) -> exists l', sort_by ltb key l = Ok l'.
Proof.
  intro H. unfold sort_by. destruct (decorate_total l H) as [ks ->]. simpl. eauto.
Qed.

Lemma sort_by_abort (l : list A) e :
  sort_by ltb key l = Abort e -> exists x, In x l /\ key x = Abort e.
Proof.
  unfold sort_by. destruct (decorate key l) as [ks|e'] eqn:Ed; simpl; [discriminate|].
  intro H. injection H as ->. now apply decorate_abort.
Qed.

(** Sorting a list that is already in order leaves it as it is: the script
    sorts the lists it holds in its dictionaries in place, and a list that
    is visited again is sorted again, with the same result. *)
Lemma sort_keyed_sorted_id (l : list (K * A)) :
  StronglySorted (fun a b => ltb (fst b) (fst a) = false) l -> sort_keyed ltb l = l.
Proof.
  induction 1 as [|y ys Hys IH Hall]; simpl; [reflexivity|].
  rewrite IH. destruct ys as [|z zs]; simpl; [reflexivity|].
  inversion Hall as [|? ? Hz _]; subst. now rewrite Hz.
Qed.

Lemma decorate_keys (l : list A) ks :
  decorate key l = Ok ks -> forall x, In x l -> exists k, key x = Ok k.
Proof.
  revert ks. induction l as [|y ys IH]; simpl; intros ks E x Hx; [tauto|].
  destruct (key y) as [k|] eqn:Ek; simpl in E; [|discriminate].
  destruct (decorate key ys) as [ks'|] eqn:Ed; simpl in E; [|discriminate].
  destruct Hx as [<-|Hx]; eauto.
Qed.

Lemma sort_by_idempotent (l l' : list A) :
  (forall x k, In x l -> key x = Ok k -> k = kf x) ->
  (forall x y, In x l -> In y l -> ltb (kf y) (kf x) = true -> le (kf y) (kf x)) ->
  (forall x y, In x l -> In y l -> ltb (kf y) (kf x) = false -> le (kf x) (kf y)) ->
  (forall a b, le a b -> ltb b a = false) ->
  sort_by ltb key l = Ok l' -> sort_by ltb key l' = Ok l'.
Proof.
  intros Hk Hlt Hge Hrev H.
  destruct (sort_by_facts l l' Hk Hlt Hge H) as (P & S & _).
  assert (Hkeys : forall x, In x l' -> key x = Ok (kf x)).
  { intros x Hx. apply (Permutation_in _ (Permutation_sym P)) in Hx.
    unfold sort_by in H. destruct (decorate key l) as [ks|] eqn:Ed; [|discriminate].
    destruct (decorate_keys l ks Ed x Hx) as [k Ek]. now rewrite Ek, (Hk x k Hx Ek). }
  assert (Hd : decorate key l' = Ok (map (fun x => (kf x, x)) l')).
  { clear S P H. induction l' as [|x xs IH]; simpl; [reflexivity|].
    rewrite (Hkeys x (or_introl eq_refl)). simpl.
    rewrite IH; [reflexivity|]. intros; apply Hkeys; now right. }
  unfold sort_by. rewrite Hd. simpl. rewrite sort_keyed_sorted_id.
  - rewrite map_map. simpl. now rewrite map_id.
  - clear Hd Hkeys P H. induction S as [|y ys Hys IH Hall]; simpl; constructor; auto.
    rewrite Forall_forall in *. intros z Hz.
    apply in_map_iff in Hz as (w & <- & Hw). simpl. apply Hrev. now apply Hall.
Qed.
End SortFacts.

(** ** The order of strings *)

Lemma string_ltb_lt (a b : string) : String.ltb a b = true <-> String.compare a b = Lt.
Proof. unfold String.ltb. destruct (String.compare a b); split; congruence. Qed.

Lemma string_ltb_irrefl (a : string) : String.ltb a a = false.
Proof.
  unfold String.ltb.
  replace (String.compare a a) with Eq; [reflexivity|].
  symmetry. now apply OrderedTypeEx.String_as_OT.cmp_eq.
Qed.

Lemma string_ltb_trans (a b c : string) :
  String.ltb a b = true -> String.ltb b c = true -> String.ltb a c = true.
Proof.
  rewrite !string_ltb_lt. intros H1 H2.
  apply OrderedTypeEx.String_as_OT.cmp_lt in H1, H2.
  apply OrderedTypeEx.String_as_OT.cmp_lt.
  eapply OrderedTypeEx.String_as_OT.lt_trans; eauto.
Qed.

Lemma string_leb_cases (a b : string) :
  String.leb a b = true <-> String.ltb a b = true \/ a = b.
Proof.
  unfold String.leb, String.ltb. destruct (String.compare a b) eqn:E.
  - split; [|reflexivity]. intros _. right.
    now apply OrderedTypeEx.String_as_OT.cmp_eq.
  - split; auto.
  - split; [discriminate|]. intros [H|H]; [discriminate|]. subst.
    assert (String.compare b b = Eq) by now apply OrderedTypeEx.String_as_OT.cmp_eq.
    congruence.
Qed.

Lemma string_ltb_false_leb (a b : string) : String.ltb b a = false -> String.leb a b = true.
Proof.
  unfold String.ltb, String.leb. rewrite (String.compare_antisym b a).
  destruct (String.compare a b); simpl; congruence.
Qed.

Lemma string_ltb_leb (a b : string) : String.ltb a b = true -> String.leb a b = true.
Proof. intro H. apply string_leb_cases. now left. Qed.

Lemma string_leb_trans (a b c : string) :
  String.leb a b = true -> String.leb b c = true -> String.leb a c = true.
Proof.
  rewrite !string_leb_cases. intros [H1| ->] [H2| ->]; auto.
  left. eapply string_ltb_trans; eauto.
Qed.

Lemma string_ltb_tie (a b : string) :
  String.ltb a b = false -> String.ltb b a = false -> a = b.
Proof.
  intros H1 H2. apply string_ltb_false_leb in H1, H2.
  now apply String.leb_antisym.
Qed.

Lemma string_ltb_asym (a b : string) : String.ltb a b = true -> String.ltb b a = false.
Proof.
  unfold String.ltb. rewrite (String.compare_antisym b a).
  destruct (String.compare a b); simpl; congruence.
Qed.

Lemma string_leb_ltb_false (a b : string) : String.leb a b = true -> String.ltb b a = false.
Proof.
  unfold String.leb, String.ltb. rewrite (String.compare_antisym b a).
  destruct (String.compare a b); simpl; congruence.
Qed.

Lemma swo_asym (ltb : term -> term -> bool) (a b : term) :
  strict_weak_order ltb -> ltb a b = true -> ltb b a = false.
Proof.
  intros (Hirr & Htr & _) H. destruct (ltb b a) eqn:E; [|reflexivity].
  rewrite <- (Hirr a). symmetry. exact (Htr a b a H E).
Qed.

Lemma term_le_trans (ltb : term -> term -> bool) (a b c : term) :
  strict_weak_order ltb -> term_le ltb a b -> term_le ltb b c -> term_le ltb a c.
Proof. intros (_ & _ & Hneg) H1 H2. exact (Hneg c b a H2 H1). Qed.

Lemma term_tie_ltb (ltb : term -> term -> bool) (a b k : term) :
  strict_weak_order ltb -> term_tie ltb a k = true -> term_tie ltb b k = true -> ltb a b = false.
Proof.
  intros (_ & _ & Hneg) Ha Hb. unfold term_tie in *.
  apply andb_true_iff in Ha as [Ha _]. apply andb_true_iff in Hb as [_ Hb].
  apply negb_true_iff in Ha, Hb. exact (Hneg a k b Ha Hb).
Qed.

(** ** The comparison of the sample runs is a strict weak order *)

Section Lex.
Variables K1 K2 : Type.
Variables eq1 lt1 : K1 -> K1 -> bool.
Variable lt2 : K2 -> K2 -> bool.
Hypothesis eq1_eq : forall a b, eq1 a b = true <-> a = b.
Hypothesis lt1_irrefl : forall a, lt1 a a = false.
Hypothesis lt1_trans : forall a b c, lt1 a b = true -> lt1 b c = true -> lt1 a c = true.
Hypothesis lt1_total : forall a b, lt1 a b = false -> lt1 b a = false -> a = b.
Hypothesis lt2_irrefl : forall a, lt2 a a = false.
Hypothesis lt2_trans : forall a b c, lt2 a b = true -> lt2 b c = true -> lt2 a c = true.
Hypothesis lt2_total : forall a b, lt2 a b = false -> lt2 b a = false -> a = b.

Lemma lex_irrefl (a : K1 * K2) : lex eq1 lt1 lt2 a a = false.
Proof. unfold lex. now rewrite (proj2 (eq1_eq (fst a) (fst a)) eq_refl). Qed.

Lemma lex_trans (a b c : K1 * K2) :
  lex eq1 lt1 lt2 a b = true -> lex eq1 lt1 lt2 b c = true -> lex eq1 lt1 lt2 a c = true.
Proof.
  destruct a as [a1 a2], b as [b1 b2], c as [c1 c2]. unfold lex. simpl.
  destruct (eq1 a1 b1) eqn:E1.
  - apply eq1_eq in E1. subst b1. destruct (eq1 a1 c1); [apply lt2_trans|auto].
  - destruct (eq1 b1 c1) eqn:E2.
    + apply eq1_eq in E2. subst c1. rewrite E1. auto.
    + intros H1 H2. pose proof (lt1_trans _ _ _ H1 H2) as H3.
      destruct (eq1 a1 c1) eqn:E3; [|exact H3].
      apply eq1_eq in E3. subst c1. now rewrite lt1_irrefl in H3.
Qed.

Lemma lex_total (a b : K1 * K2) :
  lex eq1 lt1 lt2 a b = false -> lex eq1 lt1 lt2 b a = false -> a = b.
Proof.
  destruct a as [a1 a2], b as [b1 b2]. unfold lex. simpl.
  destruct (eq1 a1 b1) eqn:E1.
  - apply eq1_eq in E1. subst b1. rewrite (proj2 (eq1_eq a1 a1) eq_refl).
    intros H1 H2. now rewrite (lt2_total _ _ H1 H2).
  - destruct (eq1 b1 a1) eqn:E2.
    + apply eq1_eq in E2. subst b1. rewrite (proj2 (eq1_eq a1 a1) eq_refl) in E1.
      discriminate.
    + intros H1 H2. rewrite (lt1_total _ _ H1 H2) in E1.
      rewrite (proj2 (eq1_eq b1 b1) eq_refl) in E1. discriminate.
Qed.
End Lex.

Lemma total_order_swo {K} (lt : K -> K -> bool) (key : term -> K) :
  (forall a, lt a a = false) ->
  (forall a b c, lt a b = true -> lt b c = true -> lt a c = true) ->
  (forall a b, lt a b = false -> lt b a = false -> a = b) ->
  strict_weak_order (fun a b => lt (key a) (key b)).
Proof.
  intros Hirr Htr Htot. split; [|split].
  - intro a. apply Hirr.
  - intros a b c. apply Htr.
  - intros a b c H1 H2. destruct (lt (key a) (key c)) eqn:E; [|reflexivity].
    destruct (lt (key b) (key a)) eqn:E2.
    + rewrite (Htr _ _ _ E2 E) in H2. discriminate.
    + rewrite (Htot _ _ H1 E2) in E. rewrite E in H2. discriminate.
Qed.

Lemma rdflib_ltb_key (a b : term) :
  rdflib_ltb a b
  = lex Nat.eqb Nat.ltb (lex String.eqb String.ltb String.ltb) (term_key a) (term_key b).
Proof. destruct a, b; reflexivity. Qed.

Lemma rdflib_ltb_swo : strict_weak_order rdflib_ltb.
Proof.
  assert (S1 : forall a : string * string, lex String.eqb String.ltb String.ltb a a = false)
    by (apply lex_irrefl; [apply String.eqb_eq|apply string_ltb_irrefl]).
  assert (S2 : forall a b c : string * string,
             lex String.eqb String.ltb String.ltb a b = true ->
             lex String.eqb String.ltb String.ltb b c = true ->
             lex String.eqb String.ltb String.ltb a c = true)
    by (apply lex_trans;
        [apply String.eqb_eq|apply string_ltb_irrefl|apply string_ltb_trans
        |apply string_ltb_trans]).
  assert (S3 : forall a b : string * string,
             lex String.eqb String.ltb String.ltb a b = false ->
             lex String.eqb String.ltb String.ltb b a = false -> a = b)
    by (apply lex_total; [apply String.eqb_eq|apply string_ltb_tie|apply string_ltb_tie]).
  assert (N1 : forall a, Nat.ltb a a = false) by apply Nat.ltb_irrefl.
  assert (N2 : forall a b c, Nat.ltb a b = true -> Nat.ltb b c = true -> Nat.ltb a c = true)
    by (intros a b c; rewrite !Nat.ltb_lt; lia).
  assert (N3 : forall a b, Nat.ltb a b = false -> Nat.ltb b a = false -> a = b)
    by (intros a b; rewrite !Nat.ltb_ge; lia).
  destruct (total_order_swo
              (lex Nat.eqb Nat.ltb (lex String.eqb String.ltb String.ltb)) term_key)
    as (W1 & W2 & W3).
  - apply lex_irrefl; [apply Nat.eqb_eq|exact S1].
  - apply lex_trans; [apply Nat.eqb_eq|exact N1|exact N2|exact S2].
  - apply lex_total; [apply Nat.eqb_eq|exact N3|exact S3].
  - split; [|split].
    + intro a. rewrite rdflib_ltb_key. apply W1.
    + intros a b c. rewrite !rdflib_ltb_key. apply W2.
    + intros a b c. rewrite !rdflib_ltb_key. apply W3.
Qed.

Lemma file_key_le_trans (a b c : file_key) :
  file_key_le a b -> file_key_le b c -> file_key_le a c.
Proof.
  destruct a as [[a1 a2] a3], b as [[b1 b2] b3], c as [[c1 c2] c3].
  unfold file_key_le; simpl.
  intros [H1|[-> H1]] [H2|[-> H2]].
  - left. destruct a1, b1, c1; simpl in *; try tauto. eapply string_ltb_trans; eauto.
  - now left.
  - now left.
  - right. split; [reflexivity|].
    destruct H1 as [H1|[-> H1]], H2 as [H2|[-> H2]]; auto.
    + left. eapply string_ltb_trans; eauto.
    + right. split; [reflexivity|]. eapply string_leb_trans; eauto.
Qed.

Lemma file_key_eqb_eq (a b : file_key) : file_key_eqb a b = true <-> a = b.
Proof.
  destruct a as [[a1 a2] a3], b as [[b1 b2] b3]. unfold file_key_eqb. simpl.
  rewrite !andb_true_iff, option_eqb_string_eq, !String.eqb_eq.
  split; [intros [[-> ->] ->]; reflexivity|intro H; injection H; auto].
Qed.

Lemma file_key_ltb_irrefl (a : file_key) : file_key_ltb a a = false.
Proof.
  destruct a as [[a1 a2] a3]. simpl.
  replace (option_eqb String.eqb a1 a1) with true
    by (symmetry; now apply option_eqb_string_eq).
  rewrite String.eqb_refl. apply string_ltb_irrefl.
Qed.

Lemma file_key_ltb_le (a b : file_key) : file_key_ltb a b = true -> file_key_le a b.
Proof.
  destruct a as [[a1 a2] a3], b as [[b1 b2] b3]. unfold file_key_le. simpl.
  destruct (option_eqb String.eqb a1 b1) eqn:E1.
  - apply option_eqb_string_eq in E1. subst b1. intro H. right. split; [reflexivity|].
    destruct (String.eqb a2 b2) eqn:E2.
    + apply String.eqb_eq in E2. subst. right. split; [reflexivity|].
      now apply string_ltb_leb.
    + now left.
  - intro H. left. destruct a1, b1; simpl in *; congruence.
Qed.

(** Between keys whose names are both strings or both [None], a key that
    is not smaller is at least as large. *)
Lemma file_key_ltb_false_le (a b : file_key) :
  is_none (fst (fst a)) = is_none (fst (fst b)) ->
  file_key_ltb b a = false -> file_key_le a b.
Proof.
  destruct a as [[a1 a2] a3], b as [[b1 b2] b3]. unfold file_key_le. simpl.
  intros Hn H.
  destruct (option_eqb String.eqb b1 a1) eqn:E1.
  - apply option_eqb_string_eq in E1. subst b1. right. split; [reflexivity|].
    destruct (String.eqb b2 a2) eqn:E2.
    + apply String.eqb_eq in E2. subst. right. split; [reflexivity|].
      now apply string_ltb_false_leb.
    + left. destruct (String.ltb a2 b2) eqn:E3; [reflexivity|].
      rewrite (string_ltb_tie _ _ E3 H), String.eqb_refl in E2. discriminate.
  - left. destruct a1 as [x|], b1 as [y|]; simpl in *; try discriminate.
    destruct (String.ltb x y) eqn:E3; [reflexivity|].
    rewrite (string_ltb_tie _ _ E3 H), String.eqb_refl in E1. discriminate.
Qed.

(** ** What a successful [build] has computed *)

Lemma build_ok (ru : vocab) (g : graph) (T : tables) :
  build ru g = Ok T ->
  let all_datasets := find_all_datasets ru g in
  let ids := collect_dataset_ids ru g all_datasets in
  let tl := top_level_matches ru g all_datasets in
  let studies := link_studies ru g (snd ids) in
  let gr := link_groups ru g (PyDict.values studies) in
  let su := link_subjects ru g (PyDict.keys (snd gr)) in
  let ch := collect_chars ru g (PyDict.keys (snd su)) in
  List.length tl = 1
  /\ for_each (link_dataset_files ru g (last_opt (map snd tl))) all_datasets []
     = Ok (subject_to_files T)
  /\ project_name T = last_opt (map snd tl)
  /\ dataset_ids T = fst ids
  /\ datasets T = filter (fun d => tmem d studies) (snd ids)
  /\ ds_to_study T = studies
  /\ study_to_groups T = fst gr
  /\ study_group_to_name T = snd gr
  /\ study_group_to_subjects T = fst su
  /\ subject_to_name T = snd su
  /\ subject_to_chars T = fst ch
  /\ sorted_char_names T = sorted_strings (PyDict.keys (snd ch)).
Proof.
  unfold build. rewrite length_map.
  destruct (Nat.eqb (List.length (top_level_matches ru g (find_all_datasets ru g))) 1) eqn:E;
    simpl; [|discriminate].
  apply Nat.eqb_eq in E.
  destruct (for_each (link_dataset_files ru g
              (last_opt (map snd (top_level_matches ru g (find_all_datasets ru g)))))
              (find_all_datasets ru g) []) as [files|e] eqn:F; simpl; [|discriminate].
  intro H. injection H as <-. simpl. repeat split; auto.
Qed.

(** The project name of a run that passes the top-level check is one of
    the two title literals. *)
Lemma build_project (ru : vocab) (g : graph) (T : tables) :
  build ru g = Ok T -> exists pn, project_name T = Some pn /\ In pn (title_terms ru).
Proof.
  intro H. apply build_ok in H as (Hl & _ & Hp & _). rewrite Hp.
  remember (top_level_matches ru g (find_all_datasets ru g)) as tl eqn:Htl.
  destruct tl as [|[d tt] [|? ?]]; try discriminate.
  exists tt. split; [reflexivity|].
  assert (Hin : In (d, tt) (top_level_matches ru g (find_all_datasets ru g)))
    by (rewrite <- Htl; now left).
  unfold top_level_matches in Hin.
  apply in_flat_map in Hin as (d' & _ & Hin).
  apply in_flat_map in Hin as (tt' & Htt & Hin).
  apply in_map_iff in Hin as (? & Heq & _). injection Heq as _ <-. exact Htt.
Qed.


Lemma tget_keys {V} (k : term) (d : tdict V) :
  In k (PyDict.keys d) <-> exists v, tget k d = Some v.
Proof.
  split.
  - apply get_in_keys, term_eqb_eq.
  - intros [v Hv]. eapply get_some_in_keys; [apply term_eqb_eq|exact Hv].
Qed.

Lemma sset_keys_NoDup {V} (k : string) (v : V) (d : sdict V) :
  NoDup (PyDict.keys d) -> NoDup (PyDict.keys (sset k v d)).
Proof. apply keys_set_NoDup, String.eqb_eq. Qed.

Lemma tset_keys_NoDup {V} (k : term) (v : V) (d : tdict V) :
  NoDup (PyDict.keys d) -> NoDup (PyDict.keys (tset k v d)).
Proof. apply keys_set_NoDup, term_eqb_eq. Qed.

Lemma tset_keys {V} (k : term) (v : V) (d : tdict V) x :
  In x (PyDict.keys (tset k v d)) <-> x = k \/ In x (PyDict.keys d).
Proof. apply keys_set, term_eqb_eq. Qed.

Lemma sset_keys {V} (k : string) (v : V) (d : sdict V) x :
  In x (PyDict.keys (sset k v d)) <-> x = k \/ In x (PyDict.keys d).
Proof. apply keys_set, String.eqb_eq. Qed.

(** *** Characteristics *)

(** The characteristics of one subject: a name is in the subject's
    dictionary exactly when one of its quality nodes was kept under that
    name, and the global name set gains exactly those names. *)
Lemma chars_of_subject_spec (ru : vocab) (g : graph) (s : term) (acn : sdict bool) :
  let r := chars_of_subject ru g s acn in
  (forall k, In k (PyDict.keys (fst r)) <->
             exists o c, In o (objects g s (HAS_QUALITY_TERM ru))
                         /\ characteristic_of ru g o = Some c /\ name c = k)
  /\ (forall k, In k (PyDict.keys (snd r)) <->
                In k (PyDict.keys acn) \/ In k (PyDict.keys (fst r)))
  /\ (NoDup (PyDict.keys acn) -> NoDup (PyDict.keys (snd r))).
Proof.
  unfold chars_of_subject.
  set (f := fun (st : sdict characteristic * sdict bool) o =>
              match characteristic_of ru g o with
              | None => st
              | Some c => (sset (name c) c (fst st), sset (name c) true (snd st))
              end).
  assert (G : forall l chars0 acn0,
             let r := fold_left f l (chars0, acn0) in
             (forall k, In k (PyDict.keys (fst r)) <->
                        In k (PyDict.keys chars0)
                        \/ exists o c, In o l /\ characteristic_of ru g o = Some c /\ name c = k)
             /\ (forall k, In k (PyDict.keys (snd r)) <->
                           In k (PyDict.keys acn0)
                           \/ exists o c, In o l /\ characteristic_of ru g o = Some c /\ name c = k)
             /\ (NoDup (PyDict.keys acn0) -> NoDup (PyDict.keys (snd r)))).
  { induction l as [|o l IH]; intros chars0 acn0; simpl.
    - repeat split; auto; intros [H|(o & c & [] & _)]; auto.
    - unfold f at 2 4 6. destruct (characteristic_of ru g o) as [c|] eqn:E; simpl.
      + destruct (IH (sset (name c) c chars0) (sset (name c) true acn0)) as (I1 & I2 & I3).
        split; [|split].
        * intro k. rewrite I1, sset_keys. split.
          -- intros [[->|H]|(o' & c' & Ho & Hc & Hn)]; eauto 8.
          -- intros [H|(o' & c' & [<-|Ho] & Hc & Hn)]; eauto 8.
             rewrite E in Hc. injection Hc as <-. auto.
        * intro k. rewrite I2, sset_keys. split.
          -- intros [[->|H]|(o' & c' & Ho & Hc & Hn)]; eauto 8.
          -- intros [H|(o' & c' & [<-|Ho] & Hc & Hn)]; eauto 8.
             rewrite E in Hc. injection Hc as <-. auto.
        * intro Hnd. apply I3. now apply sset_keys_NoDup.
      + destruct (IH chars0 acn0) as (I1 & I2 & I3).
        split; [|split]; auto.
        * intro k. rewrite I1. split.
          -- intros [H|(o' & c' & Ho & Hc & Hn)]; eauto 8.
          -- intros [H|(o' & c' & [<-|Ho] & Hc & Hn)]; eauto 8. congruence.
        * intro k. rewrite I2. split.
          -- intros [H|(o' & c' & Ho & Hc & Hn)]; eauto 8.
          -- intros [H|(o' & c' & [<-|Ho] & Hc & Hn)]; eauto 8. congruence. }
  destruct (G (objects g s (HAS_QUALITY_TERM ru)) [] acn) as (G1 & G2 & G3).
  simpl. split; [|split]; auto.
  - intro k. rewrite G1. simpl. split; [intros [[]|H]; auto|auto].
  - intro k. rewrite G2, G1. simpl. tauto.
Qed.

Lemma chars_of_subject_keys (ru : vocab) (g : graph) (s : term) (acn : sdict bool) k :
  In k (PyDict.keys (fst (chars_of_subject ru g s acn))) <-> has_char ru g s k.
Proof. apply (chars_of_subject_spec ru g s acn). Qed.

Lemma collect_chars_spec (ru : vocab) (g : graph) (subjects : list term) :
  let r := collect_chars ru g subjects in
  (forall s chars, tget s (fst r) = Some chars ->
                   In s subjects /\ forall k, In k (PyDict.keys chars) <-> has_char ru g s k)
  /\ (forall s, In s subjects -> exists chars, tget s (fst r) = Some chars)
  /\ (forall k, In k (PyDict.keys (snd r)) <-> exists s, In s subjects /\ has_char ru g s k)
  /\ NoDup (PyDict.keys (snd r)).
Proof.
  unfold collect_chars.
  set (F := fun (st : tdict (sdict characteristic) * sdict bool) s =>
              let r := chars_of_subject ru g s (snd st) in
              (tset s (fst r) (fst st), snd r)).
  assert (G : forall l dict0 acn0,
             let r := fold_left F l (dict0, acn0) in
             (forall s chars, tget s (fst r) = Some chars ->
                tget s dict0 = Some chars
                \/ (In s l /\ forall k, In k (PyDict.keys chars) <-> has_char ru g s k))
             /\ (forall s, In s l \/ (exists c, tget s dict0 = Some c) ->
                           exists chars, tget s (fst r) = Some chars)
             /\ (forall k, In k (PyDict.keys (snd r)) <->
                           In k (PyDict.keys acn0) \/ exists s, In s l /\ has_char ru g s k)
             /\ (NoDup (PyDict.keys acn0) -> NoDup (PyDict.keys (snd r)))).
  { induction l as [|x l IH]; intros dict0 acn0; simpl.
    - repeat split; auto.
      + intros; tauto.
      + intros [H|(s & [] & _)]; auto.
    - unfold F at 2 4 6 8. cbn [fst snd].
      destruct (chars_of_subject_spec ru g x acn0) as (C1 & C2 & C3). simpl in C1, C2, C3.
      destruct (IH (tset x (fst (chars_of_subject ru g x acn0)) dict0)
                  (snd (chars_of_subject ru g x acn0))) as (I1 & I2 & I3 & I4).
      split; [|split; [|split]].
      + intros s chars H. apply I1 in H as [H|[Hin Hk]]; [|auto].
        rewrite tget_tset in H. destruct (term_eqb x s) eqn:E; [|auto].
        apply term_eqb_eq in E. subst s. injection H as <-. right. split; auto.
      + intros s H. apply I2. destruct H as [ [ <- | H ] | [c H] ]; auto.
        * right. rewrite tget_tset_same. eauto.
        * right. rewrite tget_tset. destruct (term_eqb x s); eauto.
      + intro k. rewrite I3, C2, C1. unfold has_char. split.
        * intros [[H|H]|(s & Hs & H)]; eauto 8.
        * intros [H|(s & [<-|Hs] & H)]; eauto 8.
      + intro Hnd. auto. }
  destruct (G subjects [] []) as (G1 & G2 & G3 & G4). simpl.
  split; [|split; [|split]].
  - intros s chars H. apply G1 in H as [H|H]; [discriminate|exact H].
  - intros s H. apply G2. auto.
  - intro k. rewrite G3. simpl. tauto.
  - apply G4. constructor.
Qed.

(** *** Names, groups, subjects *)

(** A loop that assigns [m[o] = o3] for each [o3] leaves the last one. *)
Lemma tget_fold_tset (o : term) (os : list term) (m : tdict term) (k : term) :
  tget k (fold_left (fun m o3 => tset o o3 m) os m)
  = if term_eqb o k
    then match rev os with v :: _ => Some v | [] => tget k m end
    else tget k m.
Proof.
  induction os as [|x os IH] using rev_ind; simpl.
  - now destruct (term_eqb o k).
  - rewrite fold_left_app, rev_app_distr. simpl. rewrite tget_tset, IH.
    now destruct (term_eqb o k).
Qed.

Lemma tget_fold_tset_mono (o : term) (os : list term) (m : tdict term) (k : term) :
  (exists v, tget k m = Some v) ->
  exists v, tget k (fold_left (fun m o3 => tset o o3 m) os m) = Some v.
Proof.
  intros [v Hv]. rewrite tget_fold_tset.
  destruct (term_eqb o k); [|eauto]. destruct (rev os); eauto.
Qed.

Lemma tget_fold_tset_from (o : term) (os : list term) (m : tdict term) (k v : term) :
  tget k (fold_left (fun m o3 => tset o o3 m) os m) = Some v ->
  tget k m = Some v \/ (k = o /\ In v os).
Proof.
  rewrite tget_fold_tset. destruct (term_eqb o k) eqn:E; [|auto].
  apply term_eqb_eq in E. subst k.
  destruct (rev os) as [|w ws] eqn:R; [auto|].
  intro H. injection H as ->. right. split; [reflexivity|].
  apply in_rev. rewrite R. now left.
Qed.

(** Every Dataset kept in [datasets] has an identifier. *)
Lemma collect_dataset_ids_spec (ru : vocab) (g : graph) (all_datasets : list term) d :
  In d (snd (collect_dataset_ids ru g all_datasets)) ->
  exists v, tget d (fst (collect_dataset_ids ru g all_datasets)) = Some v.
Proof.
  unfold collect_dataset_ids. revert d.
  apply (fold_left_invariant
           (fun st : tdict term * list term =>
              forall d, In d (snd st) -> exists v, tget d (fst st) = Some v)).
  - intros [ids ds] x _ IH d. simpl.
    destruct (tmem x (fold_left (fun m o2 => tset x o2 m)
                        (chain g x (CENTRAL_ID_TERM ru) (SDO_IDENT_TERM ru)) ids)) eqn:E.
    + intro H. apply in_app_or in H as [H|[<-|[]]].
      * apply tget_fold_tset_mono. now apply IH.
      * now apply tmem_true.
    + intro H. apply tget_fold_tset_mono. now apply IH.
  - simpl. tauto.
Qed.

Lemma tget_in_values {V} (k : term) (v : V) (d : tdict V) :
  tget k d = Some v -> In v (PyDict.values d).
Proof.
  unfold tget. induction d as [|[k' v'] d IH]; simpl; [discriminate|].
  destruct (term_eqb k k'); intro H; [injection H as ->; now left|right; auto].
Qed.

(** The groups of one study all have a name afterwards, and no name is
    lost. *)
Lemma groups_of_study_spec (ru : vocab) (g : graph) (s : term) (names : tdict term) :
  let r := groups_of_study ru g s names in
  (forall o, In o (fst r) -> exists n, tget o (snd r) = Some n)
  /\ (forall o, (exists n, tget o names = Some n) -> exists n, tget o (snd r) = Some n).
Proof.
  unfold groups_of_study.
  set (P := fun st : list term * tdict term =>
              (forall o, In o (fst st) -> exists n, tget o (snd st) = Some n)
              /\ (forall o, (exists n, tget o names = Some n) ->
                            exists n, tget o (snd st) = Some n)).
  apply (fold_left_invariant P).
  - intros st o _ HP. apply (fold_left_invariant P); [|exact HP].
    clear st HP. intros [grps nm] _ _ [H1 H2]. unfold P. simpl. split.
    + intros k Hk.
      destruct (Nat.eqb (List.length (objects g o (NAME_TERM ru))) 1) eqn:E.
      * apply in_app_or in Hk as [Hk|[<-|[]]].
        -- apply tget_fold_tset_mono. now apply H1.
        -- apply Nat.eqb_eq in E. rewrite tget_fold_tset, term_eqb_refl.
           destruct (objects g o (NAME_TERM ru)) as [|x [|? ?]]; try discriminate.
           simpl. eauto.
      * apply tget_fold_tset_mono. now apply H1.
    + intros k Hk. apply tget_fold_tset_mono. now apply H2.
  - unfold P. simpl. split; [tauto|auto].
Qed.

(** Every study has its list of groups, and every group in a list has a
    name. *)
Lemma link_groups_spec (ru : vocab) (g : graph) (studies : list term) :
  let r := link_groups ru g studies in
  (forall s, In s studies -> exists l, tget s (fst r) = Some l)
  /\ (forall s l o, tget s (fst r) = Some l -> In o l -> exists n, tget o (snd r) = Some n).
Proof.
  unfold link_groups.
  set (F := fun (st : tdict (list term) * tdict term) s =>
              let r := groups_of_study ru g s (snd st) in
              (tset s (fst r) (fst st), snd r)).
  assert (G : forall l stg names,
             (forall s l o, tget s stg = Some l -> In o l -> exists n, tget o names = Some n) ->
             let r := fold_left F l (stg, names) in
             (forall s, In s l \/ (exists x, tget s stg = Some x) ->
                        exists x, tget s (fst r) = Some x)
             /\ (forall s l o, tget s (fst r) = Some l -> In o l ->
                               exists n, tget o (snd r) = Some n)).
  { induction l as [|x l IH]; intros stg names Hinv; simpl.
    - split; [intros s [[]|H]; auto|exact Hinv].
    - unfold F at 2 4. cbn [fst snd].
      destruct (groups_of_study_spec ru g x names) as [S1 S2]. simpl in S1, S2.
      destruct (IH (tset x (fst (groups_of_study ru g x names)) stg)
                  (snd (groups_of_study ru g x names))) as [I1 I2].
      + intros s l0 o H Hin. rewrite tget_tset in H.
        destruct (term_eqb x s); [injection H as <-; auto|].
        apply S2. eapply Hinv; eauto.
      + split; [|exact I2].
        intros s H. apply I1. destruct H as [ [ <- | H ] | [c H] ]; auto.
        * right. rewrite tget_tset_same. eauto.
        * right. rewrite tget_tset. destruct (term_eqb x s); eauto. }
  destruct (G studies [] []) as [G1 G2]; [discriminate|].
  split; [intros; apply G1; auto|exact G2].
Qed.

Lemma subjects_of_group_fst (ru : vocab) (g : graph) (sg : term) (names : tdict term) :
  fst (subjects_of_group ru g sg names) = members ru g sg.
Proof.
  unfold subjects_of_group, members.
  set (inner := fun o (st : list term * tdict term) (_ : triple) =>
                  (fst st ++ [o],
                   fold_left (fun m o3 => tset o o3 m) (objects g o (NAME_TERM ru)) (snd st))).
  assert (Hin : forall o ts acc nm,
             fst (fold_left (inner o) ts (acc, nm)) = acc ++ map (fun _ : triple => o) ts).
  { intros o ts. induction ts as [|t ts IHt]; intros acc nm; simpl.
    - now rewrite app_nil_r.
    - unfold inner at 2. simpl. rewrite IHt. now rewrite <- app_assoc. }
  assert (G : forall os acc nm,
             fst (fold_left (fun st o => fold_left (inner o)
                                           (typed ru g o (DATS_MATERIAL_TERM ru)) st)
                    os (acc, nm))
             = acc ++ flat_map (fun o => map (fun _ : triple => o)
                                           (typed ru g o (DATS_MATERIAL_TERM ru))) os).
  { induction os as [|o os IH]; intros acc nm; simpl.
    - now rewrite app_nil_r.
    - destruct (fold_left (inner o) (typed ru g o (DATS_MATERIAL_TERM ru)) (acc, nm))
        as [acc' nm'] eqn:E.
      rewrite IH. pose proof (Hin o (typed ru g o (DATS_MATERIAL_TERM ru)) acc nm) as H.
      rewrite E in H. simpl in H. subst acc'. now rewrite <- app_assoc. }
  apply (G (objects g sg (HAS_MEMBER_TERM ru)) [] names).
Qed.

(** A subject gets a name only from one of its own name triples. *)
Lemma subjects_of_group_names (ru : vocab) (g : graph) (sg : term) (names : tdict term) :
  (forall k n, tget k names = Some n -> In n (objects g k (NAME_TERM ru))) ->
  forall k n, tget k (snd (subjects_of_group ru g sg names)) = Some n ->
              In n (objects g k (NAME_TERM ru)).
Proof.
  intro H0. unfold subjects_of_group.
  set (P := fun st : list term * tdict term =>
              forall k n, tget k (snd st) = Some n -> In n (objects g k (NAME_TERM ru))).
  apply (fold_left_invariant P); [|exact H0].
  intros st o _ HP. apply (fold_left_invariant P); [|exact HP].
  clear. intros [acc nm] _ _ HP k n. simpl. intro H.
  apply tget_fold_tset_from in H as [H|[-> H]]; [now apply HP|exact H].
Qed.

(** Every group with a name has its list of members, and a subject has a
    name only if the graph has a name triple for it. *)
Lemma link_subjects_spec (ru : vocab) (g : graph) (groups : list term) :
  let r := link_subjects ru g groups in
  (forall sg, In sg groups -> tget sg (fst r) = Some (members ru g sg))
  /\ (forall k n, tget k (snd r) = Some n -> In n (objects g k (NAME_TERM ru))).
Proof.
  unfold link_subjects.
  set (F := fun (st : tdict (list term) * tdict term) sg =>
              let r := subjects_of_group ru g sg (snd st) in
              (tset sg (fst r) (fst st), snd r)).
  assert (G : forall l m names,
             (forall k n, tget k names = Some n -> In n (objects g k (NAME_TERM ru))) ->
             let r := fold_left F l (m, names) in
             (forall sg, In sg l \/ tget sg m = Some (members ru g sg) ->
                         tget sg (fst r) = Some (members ru g sg))
             /\ (forall k n, tget k (snd r) = Some n -> In n (objects g k (NAME_TERM ru)))).
  { induction l as [|x l IH]; intros m names Hinv; simpl.
    - split; [intros sg [[]|H]; auto|exact Hinv].
    - unfold F at 2 4. cbn [fst snd].
      destruct (IH (tset x (fst (subjects_of_group ru g x names)) m)
                  (snd (subjects_of_group ru g x names))) as [I1 I2].
      + now apply subjects_of_group_names.
      + split; [|exact I2].
        intros sg H. apply I1. rewrite tget_tset, subjects_of_group_fst.
        destruct (term_eqb x sg) eqn:E.
        * apply term_eqb_eq in E. subst. auto.
        * destruct H as [ [ <- | H ] | H ]; auto.
          rewrite term_eqb_refl in E. discriminate. }
  destruct (G groups [] []) as [G1 G2]; [discriminate|].
  split; [intros; apply G1; auto|exact G2].
Qed.

Lemma sort_by_ok_keys {A K} (ltb : K -> K -> bool) (key : A -> result K) (l l' : list A) :
  sort_by ltb key l = Ok l' -> forall x, In x l -> exists k, key x = Ok k.
Proof.
  unfold sort_by. destruct (decorate key l) as [ks|] eqn:E; simpl; [|discriminate].
  intros _. clear l'. revert ks E.
  induction l as [|y ys IH]; simpl; intros ks E x Hx; [tauto|].
  destruct (key y) as [k|] eqn:Ek; simpl in E; [|discriminate].
  destruct (decorate key ys) as [ks'|] eqn:Ed; simpl in E; [|discriminate].
  destruct Hx as [<-|Hx]; eauto.
Qed.

Lemma index_abort {V} (d : tdict V) (k : term) e :
  index d k = Abort e -> e = KeyError k /\ tget k d = None.
Proof.
  unfold index. destruct (tget k d); intro H; [discriminate|].
  injection H as <-. auto.
Qed.

(** ** Subjects without a name *)

(** C9.  A member of a study group that is typed Material and has no name
    triple is in the group's subject list and not in the subject-name map;
    rendering the group then raises [KeyError] in the sort of its subjects
    (the key function indexes the name map), before any row of the group is
    printed. *)
Theorem nameless_member_breaks_group
    (ru : vocab) (term_ltb : term -> term -> bool)
      (g : graph) (T : tables) (dataset_id sg group_name o : term) :
  build ru g = Ok T ->
  tget sg (study_group_to_name T) = Some group_name ->
  In o (objects g sg (HAS_MEMBER_TERM ru)) ->
  typed ru g o (DATS_MATERIAL_TERM ru) <> [] ->
  objects g o (NAME_TERM ru) = [] ->
  (exists subjects, tget sg (study_group_to_subjects T) = Some subjects /\ In o subjects)
  /\ tget o (subject_to_name T) = None
  /\ exists o', render_group term_ltb T (col_headings T) dataset_id sg = ([], Some (KeyError o'))
                /\ tget o' (subject_to_name T) = None.
Proof.
  intros Hb Hsg Hmem Hty Hnn.
  apply build_ok in Hb as (_ & _ & _ & _ & _ & _ & _ & Hgn & Hsu & Hsn & _).
  cbv zeta in *.
  set (gr := link_groups ru g _) in *.
  destruct (link_subjects_spec ru g (PyDict.keys (snd gr))) as [L1 L2].
  cbv zeta in L1, L2.
  assert (Hin : In o (members ru g sg)).
  { unfold members. apply in_flat_map. exists o. split; [exact Hmem|].
    destruct (typed ru g o (DATS_MATERIAL_TERM ru)); [congruence|now left]. }
  assert (Hsubj : tget sg (study_group_to_subjects T) = Some (members ru g sg)).
  { rewrite Hsu. apply L1. apply tget_keys. rewrite <- Hgn. eauto. }
  assert (Hnone : tget o (subject_to_name T) = None).
  { destruct (tget o (subject_to_name T)) as [n|] eqn:E; [|reflexivity].
    rewrite Hsn in E. apply L2 in E. rewrite Hnn in E. destruct E. }
  split; [eauto|]. split; [exact Hnone|].
  unfold render_group, try_then.
  replace (index (study_group_to_name T) sg) with (Ok group_name)
    by (symmetry; now apply index_ok).
  replace (index (study_group_to_subjects T) sg) with (Ok (members ru g sg))
    by (symmetry; now apply index_ok).
  destruct (sort_by term_ltb (index (subject_to_name T)) (members ru g sg)) as [ss|e] eqn:E.
  - destruct (sort_by_ok_keys _ _ _ _ E o Hin) as [k Hk].
    apply index_ok in Hk. congruence.
  - apply sort_by_abort in E as (x & Hx & Hk).
    apply index_abort in Hk as [-> Hk]. eauto.
Qed.

Lemma nameless_member_breaks_group_witness :
  (exists subjects, tget (BNode "grp") (study_group_to_subjects T_nameless) = Some subjects
                    /\ In (BNode "s3") subjects)
  /\ tget (BNode "s3") (subject_to_name T_nameless) = None
  /\ exists o', render_group rdflib_ltb T_nameless (col_headings T_nameless)
    (lit "phs000424") (BNode "grp")
                = ([], Some (KeyError o'))
                /\ tget o' (subject_to_name T_nameless) = None.
Proof.
  apply (nameless_member_breaks_group ru0 rdflib_ltb g_nameless T_nameless
           (lit "phs000424") (BNode "grp") (lit "Group1") (BNode "s3")).
  - vm_compute. reflexivity.
  - vm_compute. reflexivity.
  - vm_compute. auto.
  - vm_compute. discriminate.
  - vm_compute. reflexivity.
Defined.

(** ** The file records *)

Lemma seq_datatype_ok (project : option term) (s3 : option string) (dt : string * string) :
  seq_datatype project s3 = Ok dt ->
  s3 = Some (snd dt) /\ seq_datatype project (Some (snd dt)) = Ok dt.
Proof.
  unfold seq_datatype. destruct project as [pn|]; [|discriminate].
  destruct (contains "GTEx" (str pn)); destruct s3 as [u|]; try discriminate.
  destruct (contains "/wgs/" u) eqn:W.
  - intro H. injection H as <-. simpl. rewrite W. auto.
  - destruct (contains "/rnaseq/" u) eqn:R; [|discriminate].
    intro H. injection H as <-. simpl. rewrite W, R. auto.
Qed.

Lemma link_file_classified project dist md5 parts files o3 files' :
  files_classified project files ->
  link_file project dist md5 parts files o3 = Ok files' ->
  files_classified project files'.
Proof.
  intros Hinv H. unfold link_file in H.
  destruct parts as [|part [|? ?]]; try discriminate.
  destruct (seq_datatype project (d_s3_URI dist)) as [dt|] eqn:Hdt; simpl in H; [|discriminate].
  apply seq_datatype_ok in Hdt as [_ Hdt].
  set (files0 := if tmem o3 files then files else tset o3 [] files) in *.
  destruct (index files0 o3) as [l|] eqn:Hl; simpl in H; [|discriminate].
  injection H as <-. apply index_ok in Hl.
  assert (Hl' : forall f, In f l ->
                  seq_datatype project (Some (S3_URI f)) = Ok (datatype f, S3_URI f)).
  { unfold files0 in Hl. destruct (tmem o3 files) eqn:M.
    - apply (Hinv o3 l Hl).
    - rewrite tget_tset_same in Hl. injection Hl as <-. intros f []. }
  intros k l0 Hk. rewrite tget_tset in Hk. destruct (term_eqb o3 k) eqn:E.
  - injection Hk as <-. split; [now destruct l|].
    intros f Hf. apply in_app_or in Hf as [Hf|[<-|[]]]; [now apply Hl'|].
    simpl. now destruct dt.
  - apply (Hinv k). rewrite <- Hk. unfold files0.
    destruct (tmem o3 files); [reflexivity|].
    rewrite tget_tset, E. reflexivity.
Qed.

Lemma link_dataset_files_classified ru g project files d files' :
  files_classified project files ->
  link_dataset_files ru g project files d = Ok files' ->
  files_classified project files'.
Proof.
  intros Hinv H. unfold link_dataset_files in H.
  destruct (link_distributions ru g d) as [dist|]; simpl in H; [|discriminate].
  destruct (data_acquisitions ru g d) as [|acq [|? ?]];
    try (injection H as <-; exact Hinv).
  revert H. apply for_each_invariant; [|exact Hinv].
  intros st x st' _ Hst. apply for_each_invariant; [|exact Hst].
  clear. intros st o2 st' _ Hst H.
  destruct (anatomical_parts_of ru g o2) as [parts|]; simpl in H; [|discriminate].
  revert H. apply for_each_invariant; [|exact Hst].
  intros st1 o3 st2 _ H1 H2. eapply link_file_classified; eauto.
Qed.

Lemma build_files_classified (ru : vocab) (g : graph) (T : tables) :
  build ru g = Ok T -> files_classified (project_name T) (subject_to_files T).
Proof.
  intro H. apply build_ok in H as (_ & Hf & Hp & _). rewrite Hp.
  revert Hf. apply for_each_invariant.
  - intros st d st' _. apply link_dataset_files_classified.
  - intros k l Hk. discriminate.
Qed.

(** A subject with a name has its dictionary of characteristics. *)
Lemma build_subject_chars (ru : vocab) (g : graph) (T : tables) (s n : term) :
  build ru g = Ok T -> tget s (subject_to_name T) = Some n ->
  exists chars, tget s (subject_to_chars T) = Some chars.
Proof.
  intros H Hn. apply build_ok in H as (_ & _ & _ & _ & _ & _ & _ & _ & _ & Hsn & Hsc & _).
  cbv zeta in *. rewrite Hsc.
  apply collect_chars_spec. apply tget_keys. rewrite <- Hsn. eauto.
Qed.

(** ** Rows *)

Lemma all_str_somes (l : list string) : all_str (map Some l) = Ok l.
Proof. induction l as [|x l IH]; simpl; [reflexivity|]. now rewrite IH. Qed.

Lemma char_cells_somes (T : tables) (chars : sdict characteristic) :
  char_cells T chars = map Some (map (char_string chars) (sorted_char_names T)).
Proof.
  unfold char_cells, char_string. rewrite map_map. apply map_ext.
  intro k. now destruct (sget k chars).
Qed.

Lemma col_headings_length (T : tables) :
  List.length (col_headings T) = 4 + List.length (sorted_char_names T) + 7.
Proof. unfold col_headings. rewrite !length_app. simpl. lia. Qed.

Lemma repeat_Some {A} (x : A) n : repeat (Some x) n = map Some (repeat x n).
Proof. induction n; simpl; congruence. Qed.

Lemma skipn_tail_repeat {A} (front : list A) (x : A) (n m : nat) :
  m <= n -> skipn (List.length (front ++ repeat x n) - m) (front ++ repeat x n) = repeat x m.
Proof.
  intro H. remember (n - m) as k eqn:Hk.
  assert (E : n = k + m) by lia. clear Hk H. subst n.
  rewrite repeat_app, app_assoc.
  replace (List.length ((front ++ repeat x k) ++ repeat x m) - m)
    with (List.length (front ++ repeat x k))
    by (rewrite (length_app (front ++ repeat x k)), repeat_length; lia).
  rewrite skipn_app, skipn_all, Nat.sub_diag. reflexivity.
Qed.

(** C2.  A subject (one with a name, as every subject that reaches the
    printing loop has) without any FileInfo record gets exactly one row
    where the loop visits it; the row is as wide as the header, starts with the project, the Dataset
    identifier, the group name and the subject name, and its trailing cells
    are empty strings: the last six, and indeed all seven file columns. *)
Theorem subject_without_files_one_row
    (ru : vocab) (g : graph) (T : tables) (dataset_id group_name s subject_name : term) :
  build ru g = Ok T ->
  tget s (subject_to_name T) = Some subject_name ->
  files_of T s = [] ->
  exists r pn,
    render_subject T (col_headings T) dataset_id group_name s = ([r], None)
    /\ project_name T = Some pn
    /\ List.length r = List.length (col_headings T)
    /\ firstn 4 r = [str pn; str dataset_id; str group_name; str subject_name]
    /\ skipn (List.length r - 6) r = repeat "" 6
    /\ skipn (List.length r - 7) r = repeat "" 7.
Proof.
  intros Hb Hn Hf.
  destruct (build_project ru g T Hb) as (pn & Hpn & _).
  destruct (build_subject_chars ru g T s subject_name Hb Hn) as [chars Hc].
  pose proof (build_files_classified ru g T Hb) as Hinv.
  assert (Hnone : tget s (subject_to_files T) = None).
  { unfold files_of in Hf. destruct (tget s (subject_to_files T)) as [l|] eqn:E; [|reflexivity].
    subst l. destruct (Hinv s [] E) as [Hne _]. congruence. }
  set (front := [str pn; str dataset_id; str group_name; str subject_name]
                  ++ map (char_string chars) (sorted_char_names T)).
  exists (front ++ repeat "" 7), pn.
  assert (Hlen : List.length front = 4 + List.length (sorted_char_names T)).
  { unfold front. rewrite length_app, length_map. reflexivity. }
  split; [|split; [exact Hpn|split; [|split; [|split]]]].
  - unfold render_subject, try_then.
    replace (index (subject_to_name T) s) with (Ok subject_name)
      by (symmetry; now apply index_ok).
    replace (index (subject_to_chars T) s) with (Ok chars)
      by (symmetry; now apply index_ok).
    replace (tmem s (subject_to_files T)) with false
      by (symmetry; now apply tmem_false).
    cbn [negb]. rewrite Hpn, char_cells_somes. cbn [option_map].
    change [Some (str pn); Some (str dataset_id); Some (str group_name);
            Some (str subject_name)]
      with (map Some [str pn; str dataset_id; str group_name; str subject_name]).
    rewrite <- map_app. fold front.
    rewrite length_map, col_headings_length, Hlen.
    replace (4 + List.length (sorted_char_names T) + 7
             - (4 + List.length (sorted_char_names T))) with 7 by lia.
    unfold print_row, try_then.
    rewrite repeat_Some, <- map_app, all_str_somes. reflexivity.
  - rewrite length_app, repeat_length, col_headings_length, Hlen. reflexivity.
  - reflexivity.
  - apply skipn_tail_repeat. lia.
  - apply skipn_tail_repeat. lia.
Qed.

Lemma subject_without_files_one_row_witness :
  exists r pn,
    render_subject T_scenario_a (col_headings T_scenario_a)
      (lit "phs000424") (lit "Group1") (BNode "s1") = ([r], None)
    /\ project_name T_scenario_a = Some pn
    /\ List.length r = List.length (col_headings T_scenario_a)
    /\ firstn 4 r = [str pn; str (lit "phs000424"); str (lit "Group1"); str (lit "S1")]
    /\ skipn (List.length r - 6) r = repeat "" 6
    /\ skipn (List.length r - 7) r = repeat "" 7.
Proof.
  apply (subject_without_files_one_row ru0 g_scenario_a T_scenario_a
           (lit "phs000424") (lit "Group1") (BNode "s1") (lit "S1"));
    vm_compute; reflexivity.
Defined.

(** ** The header and the cells of the characteristics *)

Lemma sort_by_pure {A K} (ltb : K -> K -> bool) (kf : A -> K) (l : list A) :
  sort_by ltb (fun x => Ok (kf x)) l
  = Ok (map snd (sort_keyed ltb (map (fun x => (kf x, x)) l))).
Proof.
  unfold sort_by.
  assert (H : decorate (fun x => Ok (kf x)) l = Ok (map (fun x => (kf x, x)) l)).
  { induction l as [|x l IH]; simpl; [reflexivity|]. now rewrite IH. }
  now rewrite H.
Qed.


Lemma all_str_ok (cells : list (option string)) (r : list string) :
  all_str cells = Ok r -> cells = map Some r.
Proof.
  revert r. induction cells as [|[c|] cs IH]; simpl; intros r H.
  - now injection H as <-.
  - destruct (all_str cs) as [r'|]; simpl in H; [|discriminate].
    injection H as <-. simpl. now rewrite (IH r').
  - discriminate.
Qed.

Lemma print_row_rows (cells : list (option string)) (r : list string) :
  In r (fst (print_row cells)) -> cells = map Some r.
Proof.
  unfold print_row, try_then. destruct (all_str cells) as [r'|] eqn:E; simpl; [|tauto].
  intros [<-|[]]. now apply all_str_ok.
Qed.

(** The shape of every row printed for a subject: four leading cells, one
    cell per characteristic column, seven file cells. *)
Lemma render_subject_row (T : tables) (dataset_id group_name s : term) (r : list string) :
  In r (fst (render_subject T (col_headings T) dataset_id group_name s)) ->
  exists subject_name chars extra,
    tget s (subject_to_name T) = Some subject_name
    /\ tget s (subject_to_chars T) = Some chars
    /\ map Some r = [option_map str (project_name T); Some (str dataset_id);
                     Some (str group_name); Some (str subject_name)]
                      ++ char_cells T chars ++ extra
    /\ List.length extra = 7.
Proof.
  unfold render_subject, try_then.
  destruct (index (subject_to_name T) s) as [sn|] eqn:En; simpl; [|tauto].
  destruct (index (subject_to_chars T) s) as [chars|] eqn:Ec; simpl; [|tauto].
  apply index_ok in En, Ec. intro H. exists sn, chars.
  destruct (tmem s (subject_to_files T)); cbn [negb] in H.
  - destruct (index (subject_to_files T) s) as [fl|]; simpl in H; [|tauto].
    destruct (sort_files fl) as [fs|]; simpl in H; [|tauto].
    apply emit_each_rows in H as (d & _ & H). apply print_row_rows in H.
    exists (file_cells d). rewrite <- H. repeat split; auto.
  - apply print_row_rows in H. rewrite <- H.
    eexists. repeat split; eauto.
    rewrite repeat_length, length_app.
    unfold char_cells. rewrite length_map. simpl. lia.
Qed.


Lemma main_ok (ru : vocab) (term_ltb : term -> term -> bool) (g : graph) (T : tables) :
  build ru g = Ok T ->
  main ru term_ltb g = (col_headings T :: fst (render_rows term_ltb T (col_headings T)),
               snd (render_rows term_ltb T (col_headings T))).
Proof. intro H. unfold main, try_then. now rewrite H. Qed.



(** ** Which quality nodes are kept *)

(** C4, as the code has it.  A quality node is kept exactly when its name
    and its external id each resolve to exactly one value and its value
    resolves to at most one (a node without a value is kept with the value
    "None").  The names in a subject's dictionary are those of its kept
    quality nodes, whatever other nodes were dropped; a name that is in the
    global name set stays there; and the global name set after all subjects
    is the union of the kept names.  Nothing in this part of the run can
    abort: the functions are total. *)
Theorem quality_node_kept_iff
    (ru : vocab) (g : graph) (o s : term) (acn : sdict bool) (subjects : list term) :
  ((exists c, characteristic_of ru g o = Some c) <->
     List.length (objects g o (DATA_ITEM_TERM ru)) <= 1
     /\ List.length (chain g o (NAME_TERM ru) (SDO_VALUE_TERM ru)) = 1
     /\ List.length (chain g o (CENTRAL_ID_TERM ru) (SDO_IDENT_TERM ru)) = 1)
  /\ (forall k, In k (PyDict.keys (fst (chars_of_subject ru g s acn))) <-> has_char ru g s k)
  /\ (forall k, In k (PyDict.keys acn) ->
                In k (PyDict.keys (snd (chars_of_subject ru g s acn))))
  /\ (forall k, In k (PyDict.keys (snd (collect_chars ru g subjects))) <->
                exists s', In s' subjects /\ has_char ru g s' k).
Proof.
  split; [|split; [|split]].
  - unfold characteristic_of.
    destruct (objects g o (DATA_ITEM_TERM ru)) as [|v [|v' vs]];
      destruct (chain g o (NAME_TERM ru) (SDO_VALUE_TERM ru)) as [|n [|n' ns]];
      destruct (chain g o (CENTRAL_ID_TERM ru) (SDO_IDENT_TERM ru)) as [|i [|i' ids]];
      simpl; split;
      try (intros [c H]; discriminate);
      try (intros (H1 & H2 & H3); simpl in *; try discriminate; lia);
      try (intros _; eauto);
      try (intros _; repeat split; lia).
  - apply chars_of_subject_keys.
  - intros k Hk. apply (chars_of_subject_spec ru g s acn). auto.
  - apply (collect_chars_spec ru g subjects).
Qed.

(** The claim as the spec words it asks for exactly one value.  The second
    quality node of [g_chars] has no value at all and is kept. *)
Lemma zero_values_still_kept :
  ~ ((exists c, characteristic_of ru0 g_chars (BNode "q2") = Some c) <->
       List.length (objects g_chars (BNode "q2") (DATA_ITEM_TERM ru0)) = 1
       /\ List.length (chain g_chars (BNode "q2") (NAME_TERM ru0) (SDO_VALUE_TERM ru0)) = 1
       /\ List.length (chain g_chars (BNode "q2") (CENTRAL_ID_TERM ru0) (SDO_IDENT_TERM ru0)) = 1).
Proof.
  intros [H _].
  assert (K : exists c, characteristic_of ru0 g_chars (BNode "q2") = Some c)
    by (vm_compute; eauto).
  destruct (H K) as [H1 _]. vm_compute in H1. discriminate.
Qed.

(** ** The datatype of a file *)

(** The claim as the spec words it gives "RNA-Seq" to every S3 URI that
    contains "/rnaseq/", and the classification error to every run with an
    S3 URI that has neither fragment.  In the first GTEx run the file of "s1"
    has a URI with "/rnaseq/" and the datatype "WGS".  In the second the S3
    URI of the file has neither fragment and the run ends with another
    diagnostic, the one of the size check, which comes first. *)
Lemma rnaseq_uri_classified_wgs :
  (build ru0 g_both_fragments = Ok T_both_fragments
   /\ project_name T_both_fragments = Some gtex_title
   /\ exists f, files_of T_both_fragments (BNode "s1") = [f]
                /\ contains "/rnaseq/" (S3_URI f) = true
                /\ datatype f = "WGS"
                /\ datatype f <> "RNA-Seq")
  /\ (last_opt (filter is_s3 (downloads_of ru0 g_unmatched_two_sizes (BNode "f1")))
      = Some "s3://bucket/other/x.cram"
      /\ contains "/wgs/" "s3://bucket/other/x.cram" = false
      /\ contains "/rnaseq/" "s3://bucket/other/x.cram" = false
      /\ main ru0 rdflib_ltb g_unmatched_two_sizes = ([], Some (Fatal "file size mismatch"))).
Proof.
  split.
  - split; [vm_compute; reflexivity|]. split; [vm_compute; reflexivity|].
    eexists. split; [vm_compute; reflexivity|].
    split; [vm_compute; reflexivity|]. split; [reflexivity|discriminate].
  - repeat split; vm_compute; reflexivity.
Qed.

(** Scenario C: a GTEx file under "/wgs/" is printed with the datatype
    "WGS"; a URI with neither fragment ends the run before the header. *)
Example scenario_c_wgs :
  main ru0 rdflib_ltb (g_gtex_file "s3://bucket/wgs/x.cram")
  = ([ ["Project"; "dbGaP_Study"; "Study_Group"; "Subject_ID";
        "Anatomical_Part"; "Anatomical_Part_ID"; "Datatype"; "File_Size";
        "MD5_Checksum"; "AWS_URI"; "GCP_URI"];
       ["Genotype-Tissue Expression Project (GTEx)"; "phs000424"; "Group1"; "S1";
        "Blood"; "UBERON:0000178"; "WGS"; "100"; "TBD";
        "s3://bucket/wgs/x.cram"; "gs://bucket/x.cram"];
       ["Genotype-Tissue Expression Project (GTEx)"; "phs000424"; "Group1"; "S2";
        ""; ""; ""; ""; ""; ""; ""] ], None).
Proof. vm_compute. reflexivity. Qed.

Example scenario_c_unmatched :
  main ru0 rdflib_ltb (g_gtex_file "s3://bucket/other/x.cram")
  = ([], Some (Fatal "couldn't parse seq type from URI s3://bucket/other/x.cram")).
Proof. vm_compute. reflexivity. Qed.

(** ** Files in a TOPMed run *)

Lemma seq_datatype_topmed (ru : vocab) (s3 : option string) :
  exists e,
    seq_datatype
      (Some (Literal "Trans-Omics for Precision Medicine (TOPMed)" (Some (str (DESCR_TERM ru)))))
      s3 = Abort e.
Proof.
  unfold seq_datatype. cbn [str].
  replace (contains "GTEx" "Trans-Omics for Precision Medicine (TOPMed)") with false
    by (vm_compute; reflexivity).
  destruct s3; eauto.
Qed.

Lemma bind_abort {A B} (r : result A) (k : A -> result B) :
  (forall a, exists e, k a = Abort e) -> exists e, bind r k = Abort e.
Proof. intro H. destruct r as [a|e]; simpl; eauto. Qed.

(** C10.  In a run whose one top-level match is the TOPMed title, a Dataset
    with exactly one DataAcquisition and a chain from an input extract over a
    sample to a subject ends the run: [main] aborts with status 1 before
    anything is printed.  A run that does get to print has no FileInfo record
    at all. *)
Theorem topmed_run_has_no_files (ru : vocab) (term_ltb : term -> term -> bool)
    (g : graph) (d0 : term) :
  top_level_matches ru g (find_all_datasets ru g)
  = [(d0, Literal "Trans-Omics for Precision Medicine (TOPMed)" (Some (str (DESCR_TERM ru))))] ->
  (forall d acq extract sample subject,
     In d (find_all_datasets ru g) ->
     data_acquisitions ru g d = [acq] ->
     In extract (objects g acq (HAS_INPUT_TERM ru)) ->
     In sample (objects g extract (DERIVES_FROM_TERM ru)) ->
     In subject (objects g sample (DERIVES_FROM_TERM ru)) ->
     exists e, main ru term_ltb g = ([], Some e) /\ exit_status ru term_ltb g = 1
       /\ stdout ru term_ltb g = [])
  /\ (forall T, build ru g = Ok T -> subject_to_files T = []).
Proof.
  intro Htl.
  set (topmed := Literal "Trans-Omics for Precision Medicine (TOPMed)"
                   (Some (str (DESCR_TERM ru)))) in *.
  split.
  - intros d acq extract sample subject Hd Hacq He Hs Hsu.
    assert (Hd' : forall files, exists e,
               link_dataset_files ru g (Some topmed) files d = Abort e).
    { intro files. unfold link_dataset_files. apply bind_abort. intro dist.
      rewrite Hacq. apply (for_each_aborts_at _ _ extract He). intro st.
      apply (for_each_aborts_at _ _ sample Hs). intro st'.
      apply bind_abort. intro parts.
      apply (for_each_aborts_at _ _ subject Hsu). intro st''.
      unfold link_file. destruct parts as [|p [|? ?]]; eauto.
      destruct (seq_datatype_topmed ru (d_s3_URI dist)) as [e Hs3].
      fold topmed in Hs3. rewrite Hs3. simpl. eauto. }
    assert (Hab : exists e, build ru g = Abort e).
    { unfold build. cbv zeta. rewrite Htl.
      cbn [map fst snd List.length Nat.eqb negb last_opt fold_left].
      destruct (for_each_aborts_at _ _ d Hd Hd' []) as [e Hfe].
      rewrite Hfe. simpl. eauto. }
    destruct Hab as [e Hab]. exists e.
    unfold stdout, exit_status, main, try_then. rewrite Hab. auto.
  - intros T Hb.
    pose proof (build_files_classified ru g T Hb) as Hinv.
    apply build_ok in Hb as (_ & _ & Hp & _). cbv zeta in Hp. rewrite Htl in Hp.
    cbn [map snd last_opt fold_left] in Hp. rewrite Hp in Hinv.
    destruct (subject_to_files T) as [|[k l] rest] eqn:E; [reflexivity|].
    exfalso. destruct (Hinv k l) as [Hne Hall].
    + unfold tget. simpl. now rewrite term_eqb_refl.
    + destruct l as [|f l]; [congruence|].
      destruct (seq_datatype_topmed ru (Some (S3_URI f))) as [e He].
      pose proof (Hall f (or_introl eq_refl)) as Hf. unfold topmed in Hf.
      rewrite Hf in He. discriminate.
Qed.

Lemma topmed_run_has_no_files_witness :
  (forall d acq extract sample subject,
     In d (find_all_datasets ru0 g_topmed_file) ->
     data_acquisitions ru0 g_topmed_file d = [acq] ->
     In extract (objects g_topmed_file acq (HAS_INPUT_TERM ru0)) ->
     In sample (objects g_topmed_file extract (DERIVES_FROM_TERM ru0)) ->
     In subject (objects g_topmed_file sample (DERIVES_FROM_TERM ru0)) ->
     exists e, main ru0 rdflib_ltb g_topmed_file = ([], Some e)
               /\ exit_status ru0 rdflib_ltb g_topmed_file = 1
                 /\ stdout ru0 rdflib_ltb g_topmed_file = [])
  /\ (forall T, build ru0 g_topmed_file = Ok T -> subject_to_files T = []).
Proof.
  apply (topmed_run_has_no_files ru0 rdflib_ltb g_topmed_file (BNode "ds")).
  vm_compute. reflexivity.
Defined.

Example topmed_file_aborts :
  main ru0 rdflib_ltb g_topmed_file
  = ([], Some (Fatal "couldn't determine seq datatype from URI s3://bucket/wgs/x.cram")).
Proof. vm_compute. reflexivity. Qed.

(** ** The sizes of the distributions *)

Section Sizes.
Variable ru : vocab.
Variable g : graph.

Lemma check_sizes_ok (o : term) (fs fs' : option string) :
  check_sizes ru g o fs = Ok fs' ->
  (forall f, fs = Some f -> fs' = Some f)
  /\ (forall z, In z (objects g o (SDO_SIZE_TERM ru)) -> fs' = Some (str z))
  /\ (fs' = fs \/ exists z, In z (objects g o (SDO_SIZE_TERM ru)) /\ fs' = Some (str z)).
Proof.
  unfold check_sizes. revert fs.
  induction (objects g o (SDO_SIZE_TERM ru)) as [|z zs IH]; simpl; intros fs H.
  - injection H as <-. repeat split; auto. intros z [].
  - destruct fs as [f|]; simpl in H.
    + destruct (String.eqb f (str z)) eqn:E; simpl in H; [|discriminate].
      apply String.eqb_eq in E. destruct (IH _ H) as (I1 & I2 & I3).
      split; [|split].
      * intros f' Hf. injection Hf as <-. auto.
      * intros z' [<-|Hz]; [rewrite <- E; auto|auto].
      * destruct I3 as [I3|(z' & Hz & I3)]; eauto.
    + destruct (IH _ H) as (I1 & I2 & I3).
      split; [|split].
      * discriminate.
      * intros z' [<-|Hz]; auto.
      * right. destruct I3 as [I3|(z' & Hz & I3)]; eauto.
Qed.

Lemma check_sizes_abort (o : term) (fs : option string) (e : abort) :
  check_sizes ru g o fs = Abort e -> e = Fatal "file size mismatch".
Proof.
  unfold check_sizes. intro H. apply for_each_abort_from in H as (z & st & _ & H).
  destruct st as [f|]; [|discriminate].
  destruct (String.eqb f (str z)); [discriminate|]. now injection H.
Qed.

Lemma check_sizes_total (o : term) (fs : option string) :
  (forall z f, In z (objects g o (SDO_SIZE_TERM ru)) -> fs = Some f -> str z = f) ->
  (forall z z', In z (objects g o (SDO_SIZE_TERM ru)) ->
                In z' (objects g o (SDO_SIZE_TERM ru)) -> str z = str z') ->
  exists fs', check_sizes ru g o fs = Ok fs'.
Proof.
  unfold check_sizes. revert fs.
  induction (objects g o (SDO_SIZE_TERM ru)) as [|z zs IH]; simpl; intros fs H1 H2; [eauto|].
  destruct fs as [f|]; simpl.
  - rewrite <- (H1 z f (or_introl eq_refl) eq_refl), String.eqb_refl. simpl.
    apply IH; [|auto]. intros z' f' Hz Hf. injection Hf as <-. auto.
  - apply IH; [|auto]. intros z' f' Hz Hf. injection Hf as <-. auto.
Qed.

Lemma record_download_size (o : term) (st : distributions) :
  d_file_size (record_download o st) = d_file_size st.
Proof.
  unfold record_download.
  destruct (String.prefix "gs://" (str o)); [reflexivity|].
  destruct (String.prefix "s3://" (str o)); reflexivity.
Qed.

Lemma record_downloads_size (o : term) (ts : list triple) (st : distributions) :
  d_file_size (fold_left (fun st _ => record_download o st) ts st) = d_file_size st.
Proof.
  revert st. induction ts as [|t ts IH]; simpl; intro st; [reflexivity|].
  now rewrite IH, record_download_size.
Qed.

Lemma distribution_step_ok (st st' : distributions) (o : term) :
  distribution_step ru g st o = Ok st' ->
  check_sizes ru g o (d_file_size st) = Ok (d_file_size st').
Proof.
  unfold distribution_step.
  destruct (check_sizes ru g o (d_file_size st)) as [fs|]; simpl; [|discriminate].
  intro H. injection H as <-. now rewrite record_downloads_size.
Qed.

Lemma distributions_ok (os : list term) (st st' : distributions) :
  for_each (distribution_step ru g) os st = Ok st' ->
  (forall f, d_file_size st = Some f -> d_file_size st' = Some f)
  /\ (forall o z, In o os -> In z (objects g o (SDO_SIZE_TERM ru)) ->
                  d_file_size st' = Some (str z)).
Proof.
  revert st. induction os as [|o os IH]; simpl; intros st H.
  - injection H as <-. split; [auto|intros o z []].
  - destruct (distribution_step ru g st o) as [st1|] eqn:E; simpl in H; [|discriminate].
    apply distribution_step_ok, check_sizes_ok in E as (C1 & C2 & _).
    destruct (IH _ H) as [I1 I2]. split; [auto|].
    intros o' z [<-|Ho] Hz; eauto.
Qed.

Lemma distributions_abort (os : list term) (st : distributions) (e : abort) :
  for_each (distribution_step ru g) os st = Abort e -> e = Fatal "file size mismatch".
Proof.
  intro H. apply for_each_abort_from in H as (o & st1 & _ & H).
  unfold distribution_step in H.
  destruct (check_sizes ru g o (d_file_size st1)) as [fs|e'] eqn:E; simpl in H;
    [discriminate|].
  injection H as <-. eapply check_sizes_abort; eauto.
Qed.

Lemma distributions_total (os : list term) (st : distributions) :
  (forall o z f, In o os -> In z (objects g o (SDO_SIZE_TERM ru)) ->
                 d_file_size st = Some f -> str z = f) ->
  (forall o o' z z', In o os -> In o' os ->
                     In z (objects g o (SDO_SIZE_TERM ru)) ->
                     In z' (objects g o' (SDO_SIZE_TERM ru)) -> str z = str z') ->
  exists st', for_each (distribution_step ru g) os st = Ok st'.
Proof.
  revert st. induction os as [|o os IH]; simpl; intros st H1 H2; [eauto|].
  destruct (check_sizes_total o (d_file_size st)) as [fs' Hc].
  - intros z f Hz Hf. eapply H1; eauto.
  - intros z z' Hz Hz'. eapply (H2 o o); eauto.
  - assert (Hs : exists st1, distribution_step ru g st o = Ok st1 /\ d_file_size st1 = fs').
    { unfold distribution_step. rewrite Hc. simpl. eexists. split; [reflexivity|].
      now rewrite record_downloads_size. }
    destruct Hs as (st1 & Hs & Hfs). rewrite Hs. simpl.
    apply IH; [|intros o1 o2 z1 z2 Ho1 Ho2; apply H2; auto].
    intros o' z f Ho Hz Hf. rewrite Hfs in Hf.
    apply check_sizes_ok in Hc as (_ & _ & [C|(z0 & Hz0 & C)]).
    + rewrite C in Hf. eapply H1; eauto.
    + rewrite C in Hf. injection Hf as <-. symmetry. eapply (H2 o o'); eauto.
Qed.

Lemma link_distributions_step (d : term) :
  link_distributions ru g d
  = for_each (distribution_step ru g) (objects g d (SDO_DISTRIBUTIONS_TERM ru))
      {| d_file_size := None; d_s3_URI := None; d_gs_URI := None; d_distribs := [] |}.
Proof. reflexivity. Qed.

(** Two different size values under one Dataset end the loop over its
    distributions with the size-mismatch diagnostic. *)
Lemma link_distributions_mismatch (d o1 o2 z1 z2 : term) :
  In o1 (objects g d (SDO_DISTRIBUTIONS_TERM ru)) ->
  In o2 (objects g d (SDO_DISTRIBUTIONS_TERM ru)) ->
  In z1 (objects g o1 (SDO_SIZE_TERM ru)) ->
  In z2 (objects g o2 (SDO_SIZE_TERM ru)) ->
  str z1 <> str z2 ->
  link_distributions ru g d = Abort (Fatal "file size mismatch").
Proof.
  intros Ho1 Ho2 Hz1 Hz2 Hne. rewrite link_distributions_step.
  destruct (for_each (distribution_step ru g) _ _) as [st|e] eqn:E.
  - apply distributions_ok in E as [_ E].
    pose proof (E o1 z1 Ho1 Hz1) as E1. pose proof (E o2 z2 Ho2 Hz2) as E2.
    congruence.
  - apply distributions_abort in E. now subst.
Qed.

(** When all the size values under a Dataset agree, the loop ends
    normally. *)
Lemma link_distributions_agree (d : term) :
  (forall z z', In z (sizes_of ru g d) -> In z' (sizes_of ru g d) -> z = z') ->
  exists st, link_distributions ru g d = Ok st.
Proof.
  intro H. rewrite link_distributions_step. apply distributions_total.
  - discriminate.
  - intros o o' z z' Ho Ho' Hz Hz'. apply H; unfold sizes_of; apply in_flat_map.
    + exists o. split; [exact Ho|now apply in_map].
    + exists o'. split; [exact Ho'|now apply in_map].
Qed.
End Sizes.

(** *** Where an abort of the file-linking loop can come from *)

Lemma anatomical_parts_of_abort (ru : vocab) (g : graph) (o2 : term) (e : abort) :
  anatomical_parts_of ru g o2 = Abort e -> e <> Fatal "file size mismatch".
Proof.
  unfold anatomical_parts_of. intro H.
  apply for_each_abort_from in H as (o3 & st & _ & H).
  apply for_each_abort_from in H as (t & st' & _ & H).
  unfold anatomical_part in H.
  destruct (PyDict.keys _) as [|t1 [|t2 ts]] in H;
    destruct (last_opt _) as [n|] in H; simpl in H;
    try discriminate; injection H as <-; discriminate.
Qed.

Lemma link_file_abort project dist md5 parts files o3 (e : abort) :
  link_file project dist md5 parts files o3 = Abort e -> e <> Fatal "file size mismatch".
Proof.
  unfold link_file.
  destruct parts as [|p [|? ?]]; simpl;
    try (intro H; injection H as <-; discriminate).
  unfold seq_datatype.
  destruct project as [pn|]; simpl; [|intro H; injection H as <-; discriminate].
  destruct (contains "GTEx" (str pn)); destruct (d_s3_URI dist) as [u|]; simpl;
    try (intro H; injection H as <-; discriminate).
  - destruct (contains "/wgs/" u); simpl.
    + destruct (index _ o3) as [l|] eqn:E; simpl; [discriminate|].
      intro H. injection H as <-. apply index_abort in E as [-> _]. discriminate.
    + destruct (contains "/rnaseq/" u); simpl;
        [|intro H; injection H as <-; discriminate].
      destruct (index _ o3) as [l|] eqn:E; simpl; [discriminate|].
      intro H. injection H as <-. apply index_abort in E as [-> _]. discriminate.
Qed.

Lemma link_dataset_files_abort (ru : vocab) (g : graph) project files d (e : abort) :
  (forall z z', In z (sizes_of ru g d) -> In z' (sizes_of ru g d) -> z = z') ->
  link_dataset_files ru g project files d = Abort e -> e <> Fatal "file size mismatch".
Proof.
  intros Hagree H. unfold link_dataset_files in H.
  destruct (link_distributions_agree ru g d Hagree) as [dist Hd]. rewrite Hd in H.
  simpl in H. destruct (data_acquisitions ru g d) as [|acq [|? ?]]; try discriminate.
  apply for_each_abort_from in H as (x & st & _ & H).
  apply for_each_abort_from in H as (o2 & st' & _ & H).
  destruct (anatomical_parts_of ru g o2) as [parts|e'] eqn:E; simpl in H.
  - apply for_each_abort_from in H as (o3 & st'' & _ & H).
    eapply link_file_abort; eauto.
  - injection H as <-. eapply anatomical_parts_of_abort; eauto.
Qed.

(** The printing loop ends early only by an exception. *)
Lemma try_then_abort {A} (r : result A) (k : A -> (list (list string) * option abort)) e :
  snd (try_then r k) = Some e ->
  r = Abort e \/ exists a, r = Ok a /\ snd (k a) = Some e.
Proof.
  unfold try_then. destruct r as [a|e']; simpl; intro H; [eauto|].
  injection H as <-. auto.
Qed.

Lemma sort_by_index_abort {V} (ltb : V -> V -> bool) (m : tdict V) (l : list term) e :
  sort_by ltb (index m) l = Abort e -> is_exception e.
Proof.
  intro H. apply sort_by_abort in H as (x & _ & H).
  apply index_abort in H as [-> _]. exact I.
Qed.

Lemma index_abort_exception {V} (m : tdict V) (k : term) e :
  index m k = Abort e -> is_exception e.
Proof. intro H. apply index_abort in H as [-> _]. exact I. Qed.

Lemma print_row_abort (cells : list (option string)) e :
  snd (print_row cells) = Some e -> is_exception e.
Proof.
  unfold print_row. intro H. apply try_then_abort in H as [H|(a & _ & H)]; [|discriminate].
  revert H. clear. revert e.
  induction cells as [|[c|] cs IH]; simpl; intros e H; [discriminate| |].
  - destruct (all_str cs) as [r|e']; simpl in H; [discriminate|].
    injection H as <-. now apply IH.
  - injection H as <-. exact I.
Qed.

Lemma sort_files_abort (l : list file_info) e : sort_files l = Abort e -> is_exception e.
Proof.
  unfold sort_files. destruct (_ && _).
  - intro H. injection H as <-. exact I.
  - rewrite sort_by_pure. discriminate.
Qed.

Lemma render_subject_abort (T : tables) h did gname s e :
  snd (render_subject T h did gname s) = Some e -> is_exception e.
Proof.
  unfold render_subject. intro H.
  apply try_then_abort in H as [H|(sn & _ & H)]; [now apply index_abort_exception in H|].
  apply try_then_abort in H as [H|(chars & _ & H)]; [now apply index_abort_exception in H|].
  destruct (negb (tmem s (subject_to_files T))); [now apply print_row_abort in H|].
  apply try_then_abort in H as [H|(fl & _ & H)]; [now apply index_abort_exception in H|].
  apply try_then_abort in H as [H|(fs & _ & H)]; [now apply sort_files_abort in H|].
  apply emit_each_abort in H as (d & _ & H). now apply print_row_abort in H.
Qed.

Lemma render_rows_abort (term_ltb : term -> term -> bool) (T : tables) h e :
  snd (render_rows term_ltb T h) = Some e -> is_exception e.
Proof.
  unfold render_rows. intro H.
  apply try_then_abort in H as [H|(ds & _ & H)]; [now apply sort_by_index_abort in H|].
  apply emit_each_abort in H as (d & _ & H). unfold render_dataset in H.
  apply try_then_abort in H as [H|(did & _ & H)]; [now apply index_abort_exception in H|].
  apply try_then_abort in H as [H|(study & _ & H)]; [now apply index_abort_exception in H|].
  apply try_then_abort in H as [H|(groups & _ & H)]; [now apply index_abort_exception in H|].
  apply try_then_abort in H as [H|(gs & _ & H)]; [now apply sort_by_index_abort in H|].
  apply emit_each_abort in H as (grp & _ & H). unfold render_group in H.
  apply try_then_abort in H as [H|(gname & _ & H)]; [now apply index_abort_exception in H|].
  apply try_then_abort in H as [H|(subjects & _ & H)]; [now apply index_abort_exception in H|].
  apply try_then_abort in H as [H|(ss & _ & H)]; [now apply sort_by_index_abort in H|].
  apply emit_each_abort in H as (s & _ & H). now apply render_subject_abort in H.
Qed.

Lemma main_abort (ru : vocab) (term_ltb : term -> term -> bool) (g : graph) (e : abort) :
  build ru g = Abort e ->
  main ru term_ltb g = ([], Some e) /\ exit_status ru term_ltb g = 1 /\ stdout ru term_ltb g = [].
Proof. intro H. unfold stdout, exit_status, main, try_then. rewrite H. auto. Qed.

Lemma build_abort_at (ru : vocab) (g : graph) (d : term) :
  In d (find_all_datasets ru g) ->
  (forall project files, exists e, link_dataset_files ru g project files d = Abort e) ->
  exists e, build ru g = Abort e.
Proof.
  intros Hd Hab. unfold build. cbv zeta.
  destruct (negb _); [eauto|].
  set (project := last_opt _).
  destruct (for_each_aborts_at (link_dataset_files ru g project) _ d Hd (Hab project) [])
    as [e He].
  rewrite He. simpl. eauto.
Qed.

(** C5, as the code has it.  When two Distributions of a Dataset report
    size values that differ as strings, the run aborts with status 1 and
    prints nothing, neither header nor data rows; the diagnostic is "file
    size mismatch" whenever the run reaches that Dataset, that is when there
    is exactly one top-level match and the file-linking loop has passed the
    Datasets enumerated before it.  When the size values under every Dataset
    agree, the run does not end with the size-mismatch diagnostic. *)
Theorem distribution_sizes_are_checked (ru : vocab) (term_ltb : term -> term -> bool) (g : graph) :
  (forall d o1 o2 z1 z2,
     In d (find_all_datasets ru g) ->
     In o1 (objects g d (SDO_DISTRIBUTIONS_TERM ru)) ->
     In o2 (objects g d (SDO_DISTRIBUTIONS_TERM ru)) ->
     In z1 (objects g o1 (SDO_SIZE_TERM ru)) ->
     In z2 (objects g o2 (SDO_SIZE_TERM ru)) ->
     str z1 <> str z2 ->
     (exists e, main ru term_ltb g = ([], Some e))
     /\ exit_status ru term_ltb g = 1
     /\ stdout ru term_ltb g = []
     /\ (forall pre post files,
           List.length (top_level_matches ru g (find_all_datasets ru g)) = 1 ->
           find_all_datasets ru g = pre ++ d :: post ->
           for_each (link_dataset_files ru g
                       (last_opt (map snd (top_level_matches ru g (find_all_datasets ru g)))))
             pre [] = Ok files ->
           main ru term_ltb g = ([], Some (Fatal "file size mismatch"))))
  /\ ((forall d, In d (find_all_datasets ru g) ->
         forall z z', In z (sizes_of ru g d) -> In z' (sizes_of ru g d) -> z = z') ->
      snd (main ru term_ltb g) <> Some (Fatal "file size mismatch")).
Proof.
  split.
  - intros d o1 o2 z1 z2 Hd Ho1 Ho2 Hz1 Hz2 Hne.
    pose proof (link_distributions_mismatch ru g d o1 o2 z1 z2 Ho1 Ho2 Hz1 Hz2 Hne) as Hm.
    assert (Hstep : forall project files,
               link_dataset_files ru g project files d = Abort (Fatal "file size mismatch")).
    { intros project files. unfold link_dataset_files. now rewrite Hm. }
    destruct (build_abort_at ru g d Hd) as [e He]; [intros; rewrite Hstep; eauto|].
    destruct (main_abort ru term_ltb g e He) as (M1 & M2 & M3).
    split; [eauto|]. split; [exact M2|]. split; [exact M3|].
    intros pre post files Hlen Hall Hpre.
    assert (Hb : build ru g = Abort (Fatal "file size mismatch")).
    { unfold build. cbv zeta. rewrite length_map, Hlen. cbn [Nat.eqb negb].
      rewrite Hall at 2. rewrite for_each_app, Hpre. simpl. rewrite Hstep. reflexivity. }
    apply (main_abort ru term_ltb g _ Hb).
  - intros Hagree Hmain. unfold main in Hmain.
    apply try_then_abort in Hmain as [Hb|(T & _ & Hr)].
    + unfold build in Hb. cbv zeta in Hb.
      destruct (negb _) in Hb; [injection Hb as Hb; discriminate Hb|].
      destruct (for_each _ _ _) as [files|e] eqn:E in Hb; simpl in Hb; [discriminate|].
      injection Hb as ->.
      apply for_each_abort_from in E as (d & st & Hd & E).
      apply link_dataset_files_abort in E; [congruence|]. now apply Hagree.
    + simpl in Hr. apply render_rows_abort in Hr. exact Hr.
Qed.

Lemma distribution_sizes_are_checked_witness :
  (exists e, main ru0 rdflib_ltb g_scenario_b = ([], Some e))
  /\ exit_status ru0 rdflib_ltb g_scenario_b = 1
  /\ stdout ru0 rdflib_ltb g_scenario_b = []
  /\ main ru0 rdflib_ltb g_scenario_b = ([], Some (Fatal "file size mismatch"))
  /\ snd (main ru0 rdflib_ltb g_scenario_a) <> Some (Fatal "file size mismatch").
Proof.
  destruct (proj1 (distribution_sizes_are_checked ru0 rdflib_ltb g_scenario_b)
              (BNode "f") (URIRef "s3://bucket/wgs/x.cram") (URIRef "gs://bucket/x.cram")
              (lit "100") (lit "200")) as (W1 & W2 & W3 & W4).
  - vm_compute. auto.
  - vm_compute. auto.
  - vm_compute. auto.
  - vm_compute. auto.
  - vm_compute. auto.
  - vm_compute. discriminate.
  - split; [exact W1|]. split; [exact W2|]. split; [exact W3|]. split.
    + apply (W4 [BNode "ds"] [] []); vm_compute; reflexivity.
    + apply (proj2 (distribution_sizes_are_checked ru0 rdflib_ltb g_scenario_a)).
      intros d Hd z z' Hz Hz'. vm_compute in Hd.
      destruct Hd as [<-|[]]. vm_compute in Hz. destruct Hz.
Defined.

(** The claim as the spec words it promises the size-mismatch diagnostic
    for every graph.  This graph has the two sizes of Scenario B and no
    Dataset with a known title: the run ends with the diagnostic of the
    top-level check, which comes first. *)
Lemma size_mismatch_behind_top_level_check :
  In (BNode "f") (find_all_datasets ru0 g_two_sizes)
  /\ In (URIRef "s3://bucket/wgs/x.cram")
        (objects g_two_sizes (BNode "f") (SDO_DISTRIBUTIONS_TERM ru0))
  /\ In (URIRef "gs://bucket/x.cram")
        (objects g_two_sizes (BNode "f") (SDO_DISTRIBUTIONS_TERM ru0))
  /\ In (lit "100") (objects g_two_sizes (URIRef "s3://bucket/wgs/x.cram") (SDO_SIZE_TERM ru0))
  /\ In (lit "200") (objects g_two_sizes (URIRef "gs://bucket/x.cram") (SDO_SIZE_TERM ru0))
  /\ str (lit "100") <> str (lit "200")
  /\ main ru0 rdflib_ltb g_two_sizes = ([], Some (Fatal "found 0 top-level DATS Datasets"))
  /\ main ru0 rdflib_ltb g_two_sizes <> ([], Some (Fatal "file size mismatch")).
Proof.
  repeat split; try (vm_compute; auto; fail); vm_compute; discriminate.
Qed.

(** Scenario B. *)
Example scenario_b : main ru0 rdflib_ltb g_scenario_b = ([], Some (Fatal "file size mismatch")).
Proof. vm_compute. reflexivity. Qed.

(** ** The order of the rows *)

Lemma sort_by_index_perm (term_ltb : term -> term -> bool) (m : tdict term)
    (l l' : list term) :
  sort_by term_ltb (index m) l = Ok l' -> Permutation l l'.
Proof.
  intro H.
  destruct (sort_by_facts term term term_ltb (fun _ _ => True) (fun _ _ => false)
              (fun _ _ _ _ _ => I)
              (fun a b k (Ha : false = true) _ =>
                 False_ind (term_ltb a b = false) (Bool.diff_false_true Ha))
              (index m) (key_term m) l l') as (P & _ & _); auto.
  intros x k _ E. apply index_ok in E. unfold key_term. now rewrite E.
Qed.

(** With a strict weak order the sort leaves the keys ascending and ties in
    their former order. *)
Lemma sort_by_index_facts (term_ltb : term -> term -> bool) (m : tdict term)
    (l l' : list term) :
  strict_weak_order term_ltb ->
  sort_by term_ltb (index m) l = Ok l' ->
  Permutation l l'
  /\ ascending term_ltb (key_term m) l'
  /\ ties_in_order term_ltb (key_term m) l l'.
Proof.
  intros W H.
  apply (sort_by_facts term term term_ltb (term_le term_ltb) (term_tie term_ltb)
           (fun a b c => term_le_trans term_ltb a b c W)
           (fun a b k => term_tie_ltb term_ltb a b k W)
           (index m) (key_term m) l l'); auto.
  - intros x k _ E. apply index_ok in E. unfold key_term. now rewrite E.
  - intros x y _ _ E. unfold term_le. now apply swo_asym.
Qed.

Lemma sort_files_facts (l l' : list file_info) :
  sort_files l = Ok l' ->
  Permutation l l' /\ files_ascending l' /\ file_ties_in_order l l'.
Proof.
  unfold sort_files.
  destruct (existsb is_none (map anatomical_part_name l)
            && existsb (fun n => negb (is_none n)) (map anatomical_part_name l)) eqn:G;
    [discriminate|].
  intro H.
  assert (Hu : forall x y, In x l -> In y l ->
                 is_none (anatomical_part_name x) = is_none (anatomical_part_name y)).
  { intros x y Hx Hy.
    destruct (is_none (anatomical_part_name x)) eqn:Ex,
             (is_none (anatomical_part_name y)) eqn:Ey; try reflexivity; exfalso.
    - assert (G1 : existsb is_none (map anatomical_part_name l) = true)
        by (apply existsb_exists; exists (anatomical_part_name x); split;
            [now apply in_map|exact Ex]).
      assert (G2 : existsb (fun n => negb (is_none n)) (map anatomical_part_name l) = true)
        by (apply existsb_exists; exists (anatomical_part_name y); split;
            [now apply in_map|now rewrite Ey]).
      rewrite G1, G2 in G. discriminate.
    - assert (G1 : existsb is_none (map anatomical_part_name l) = true)
        by (apply existsb_exists; exists (anatomical_part_name y); split;
            [now apply in_map|exact Ey]).
      assert (G2 : existsb (fun n => negb (is_none n)) (map anatomical_part_name l) = true)
        by (apply existsb_exists; exists (anatomical_part_name x); split;
            [now apply in_map|now rewrite Ex]).
      rewrite G1, G2 in G. discriminate. }
  apply (sort_by_facts file_info file_key file_key_ltb file_key_le file_key_eqb
           file_key_le_trans
           (fun a b k Ha Hb =>
              eq_ind_r (fun x => file_key_ltb x b = false)
                (eq_ind_r (fun x => file_key_ltb k x = false) (file_key_ltb_irrefl k)
                   (proj1 (file_key_eqb_eq b k) Hb))
                (proj1 (file_key_eqb_eq a k) Ha))
           (fun f => Ok (key_of_file f)) key_of_file l l'); auto.
  - intros x k _ E. now injection E.
  - intros x y _ _. apply file_key_ltb_le.
  - intros x y Hx Hy. apply file_key_ltb_false_le. unfold key_of_file. simpl.
    now apply Hu.
Qed.

Lemma file_key_le_ltb_false (a b : file_key) : file_key_le a b -> file_key_ltb b a = false.
Proof.
  destruct a as [[a1 a2] a3], b as [[b1 b2] b3]. unfold file_key_le. simpl.
  intros [H|[-> [H|[-> H]]]].
  - destruct a1 as [x|], b1 as [y|]; simpl in H; try tauto.
    simpl. destruct (String.eqb y x) eqn:E.
    + apply String.eqb_eq in E. subst. rewrite string_ltb_irrefl in H. discriminate.
    + now apply string_ltb_asym.
  - replace (option_eqb String.eqb b1 b1) with true
      by (symmetry; now apply option_eqb_string_eq).
    destruct (String.eqb b2 a2) eqn:E.
    + apply String.eqb_eq in E. subst. rewrite string_ltb_irrefl in H. discriminate.
    + now apply string_ltb_asym.
  - replace (option_eqb String.eqb b1 b1) with true
      by (symmetry; now apply option_eqb_string_eq).
    rewrite String.eqb_refl. now apply string_leb_ltb_false.
Qed.

Lemma existsb_perm {A} (f : A -> bool) (l l' : list A) :
  Permutation l l' -> existsb f l = existsb f l'.
Proof.
  induction 1 as [|x l l' _ IH|x y l|l l' l'' _ IH1 _ IH2]; simpl.
  - reflexivity.
  - now rewrite IH.
  - now destruct (f x), (f y).
  - congruence.
Qed.

(** The in-place sorts of lines 292, 298 and 321 sort a stored list again
    each time it is visited; that changes nothing. *)
Lemma sort_by_index_idempotent (term_ltb : term -> term -> bool) (m : tdict term)
    (l l' : list term) :
  strict_weak_order term_ltb ->
  sort_by term_ltb (index m) l = Ok l' -> sort_by term_ltb (index m) l' = Ok l'.
Proof.
  intro W.
  apply (sort_by_idempotent term term term_ltb (term_le term_ltb) (term_tie term_ltb)
           (fun a b c => term_le_trans term_ltb a b c W)
           (fun a b k => term_tie_ltb term_ltb a b k W)
           (index m) (key_term m) l l'); auto.
  - intros x k _ E. apply index_ok in E. unfold key_term. now rewrite E.
  - intros x y _ _ E. unfold term_le. now apply swo_asym.
Qed.

Lemma sort_files_idempotent (l l' : list file_info) :
  sort_files l = Ok l' -> sort_files l' = Ok l'.
Proof.
  intro H. destruct (sort_files_facts l l' H) as (P & _ & _).
  unfold sort_files in *.
  rewrite <- !(existsb_perm _ _ _ (Permutation_map anatomical_part_name P)).
  destruct (existsb is_none (map anatomical_part_name l)
            && existsb (fun n => negb (is_none n)) (map anatomical_part_name l)) eqn:G;
    [discriminate|].
  assert (Hu : forall x y, In x l -> In y l ->
                 is_none (anatomical_part_name x) = is_none (anatomical_part_name y)).
  { intros x y Hx Hy.
    destruct (is_none (anatomical_part_name x)) eqn:Ex,
             (is_none (anatomical_part_name y)) eqn:Ey; try reflexivity; exfalso.
    - assert (G1 : existsb is_none (map anatomical_part_name l) = true)
        by (apply existsb_exists; exists (anatomical_part_name x); split;
            [now apply in_map|exact Ex]).
      assert (G2 : existsb (fun n => negb (is_none n)) (map anatomical_part_name l) = true)
        by (apply existsb_exists; exists (anatomical_part_name y); split;
            [now apply in_map|now rewrite Ey]).
      rewrite G1, G2 in G. discriminate.
    - assert (G1 : existsb is_none (map anatomical_part_name l) = true)
        by (apply existsb_exists; exists (anatomical_part_name y); split;
            [now apply in_map|exact Ey]).
      assert (G2 : existsb (fun n => negb (is_none n)) (map anatomical_part_name l) = true)
        by (apply existsb_exists; exists (anatomical_part_name x); split;
            [now apply in_map|now rewrite Ex]).
      rewrite G1, G2 in G. discriminate. }
  revert H.
  apply (sort_by_idempotent file_info file_key file_key_ltb file_key_le file_key_eqb
           file_key_le_trans
           (fun a b k Ha Hb =>
              eq_ind_r (fun x => file_key_ltb x b = false)
                (eq_ind_r (fun x => file_key_ltb k x = false) (file_key_ltb_irrefl k)
                   (proj1 (file_key_eqb_eq b k) Hb))
                (proj1 (file_key_eqb_eq a k) Ha))
           (fun f => Ok (key_of_file f)) key_of_file l l').
  - intros x k _ E. now injection E.
  - intros x y _ _. apply file_key_ltb_le.
  - intros x y Hx Hy. apply file_key_ltb_false_le. unfold key_of_file. simpl.
    now apply Hu.
  - apply file_key_le_ltb_false.
Qed.

(** What a successful [build] guarantees about the lookups of the printing
    loop, from a Dataset down to the names of its groups. *)
Lemma build_lookups (ru : vocab) (g : graph) (T : tables) (d : term) :
  build ru g = Ok T -> In d (datasets T) ->
  exists dataset_id study groups,
    tget d (dataset_ids T) = Some dataset_id
    /\ tget d (ds_to_study T) = Some study
    /\ tget study (study_to_groups T) = Some groups
    /\ forall grp, In grp groups -> exists n, tget grp (study_group_to_name T) = Some n.
Proof.
  intros Hb Hd.
  apply build_ok in Hb as (_ & _ & _ & Hids & Hds & Hst & Hstg & Hsgn & _). cbv zeta in *.
  rewrite Hds in Hd. apply filter_In in Hd as [Hd Hm].
  apply collect_dataset_ids_spec in Hd as [did Hdid].
  apply tmem_true in Hm as [study Hstudy].
  destruct (link_groups_spec ru g
              (PyDict.values (link_studies ru g
                 (snd (collect_dataset_ids ru g (find_all_datasets ru g)))))) as [L1 L2].
  cbv zeta in L1, L2.
  destruct (L1 study (tget_in_values _ _ _ Hstudy)) as [groups Hg].
  exists did, study, groups. rewrite Hids, Hst, Hstg, Hsgn.
  repeat split; auto. intros grp Hgrp. eapply L2; eauto.
Qed.

(** C3, as the code has it.  The data rows are printed Dataset by Dataset
    in ascending order of the identifier; within a Dataset, group by group in
    ascending order of the group name; within a group, subject by subject in
    ascending order of the subject name; within a subject, file by file in
    ascending order of the key (anatomical part name, datatype, S3 URI)
    compared from left to right.  Identifiers and names are compared as
    rdflib compares the terms, whatever strict weak order that is, not as
    strings; only the key of the files is made of strings, compared
    lexicographically.  Each of the four orders is a rearrangement of what
    was discovered, and elements whose keys are equal to the sort stay in the
    order of discovery.  The second, third and fourth cell of every row are
    the identifier, the group name and the subject name under which the row
    is printed. *)
Theorem rows_in_key_order (ru : vocab) (term_ltb : term -> term -> bool) (g : graph) (T : tables) :
  build ru g = Ok T ->
  strict_weak_order term_ltb ->
  (exists ds,
     render_rows term_ltb T (col_headings T)
       = emit_each (render_dataset term_ltb T (col_headings T)) ds
     /\ Permutation (datasets T) ds
     /\ ascending term_ltb (key_term (dataset_ids T)) ds
     /\ ties_in_order term_ltb (key_term (dataset_ids T)) (datasets T) ds)
  /\ (forall d, In d (datasets T) ->
        exists dataset_id study groups gs,
          tget d (dataset_ids T) = Some dataset_id
          /\ tget d (ds_to_study T) = Some study
          /\ tget study (study_to_groups T) = Some groups
          /\ render_dataset term_ltb T (col_headings T) d
             = emit_each (render_group term_ltb T (col_headings T) dataset_id) gs
          /\ Permutation groups gs
          /\ ascending term_ltb (key_term (study_group_to_name T)) gs
          /\ ties_in_order term_ltb (key_term (study_group_to_name T)) groups gs)
  /\ (forall dataset_id grp group_name subjects,
        tget grp (study_group_to_name T) = Some group_name ->
        tget grp (study_group_to_subjects T) = Some subjects ->
        (forall s, In s subjects -> exists n, tget s (subject_to_name T) = Some n) ->
        exists ss,
          render_group term_ltb T (col_headings T) dataset_id grp
          = emit_each (render_subject T (col_headings T) dataset_id group_name) ss
          /\ Permutation subjects ss
          /\ ascending term_ltb (key_term (subject_to_name T)) ss
          /\ ties_in_order term_ltb (key_term (subject_to_name T)) subjects ss)
  /\ (forall dataset_id group_name s subject_name chars files fs,
        tget s (subject_to_name T) = Some subject_name ->
        tget s (subject_to_chars T) = Some chars ->
        tget s (subject_to_files T) = Some files ->
        sort_files files = Ok fs ->
        render_subject T (col_headings T) dataset_id group_name s
        = emit_each
            (fun d => print_row (leading_cells T dataset_id group_name subject_name chars
                                   ++ file_cells d)) fs
        /\ Permutation files fs
        /\ files_ascending fs
        /\ file_ties_in_order files fs)
  /\ (forall dataset_id group_name s r,
        In r (fst (render_subject T (col_headings T) dataset_id group_name s)) ->
        exists subject_name,
          tget s (subject_to_name T) = Some subject_name
          /\ nth_error r 1 = Some (str dataset_id)
          /\ nth_error r 2 = Some (str group_name)
          /\ nth_error r 3 = Some (str subject_name)).
Proof.
  intros Hb W. split; [|split; [|split; [|split]]].
  - destruct (sort_by_total term term term_ltb (index (dataset_ids T)) (datasets T))
      as [ds Hds].
    { intros d Hd. destruct (build_lookups ru g T d Hb Hd) as (did & _ & _ & Hdid & _).
      exists did. now apply index_ok. }
    exists ds. destruct (sort_by_index_facts _ _ _ _ W Hds) as (P & S & F).
    repeat split; auto. unfold render_rows, try_then. now rewrite Hds.
  - intros d Hd.
    destruct (build_lookups ru g T d Hb Hd) as (did & study & groups & H1 & H2 & H3 & H4).
    destruct (sort_by_total term term term_ltb (index (study_group_to_name T)) groups)
      as [gs Hgs].
    { intros grp Hgrp. destruct (H4 grp Hgrp) as [n Hn]. exists n. now apply index_ok. }
    exists did, study, groups, gs. destruct (sort_by_index_facts _ _ _ _ W Hgs) as (P & S & F).
    repeat split; auto. unfold render_dataset, try_then.
    rewrite (proj2 (index_ok _ _ _) H1), (proj2 (index_ok _ _ _) H2),
      (proj2 (index_ok _ _ _) H3), Hgs. reflexivity.
  - intros did grp gname subjects H1 H2 H3.
    destruct (sort_by_total term term term_ltb (index (subject_to_name T)) subjects)
      as [ss Hss].
    { intros s Hs. destruct (H3 s Hs) as [n Hn]. exists n. now apply index_ok. }
    exists ss. destruct (sort_by_index_facts _ _ _ _ W Hss) as (P & S & F).
    repeat split; auto. unfold render_group, try_then.
    rewrite (proj2 (index_ok _ _ _) H1), (proj2 (index_ok _ _ _) H2), Hss. reflexivity.
  - intros did gname s sname chars files fs H1 H2 H3 H4.
    destruct (sort_files_facts _ _ H4) as (P & S & F).
    repeat split; auto. unfold render_subject, try_then.
    rewrite (proj2 (index_ok _ _ _) H1), (proj2 (index_ok _ _ _) H2),
      (proj2 (index_ok _ _ _) H3), H4.
    replace (tmem s (subject_to_files T)) with true
      by (symmetry; apply tmem_true; eauto).
    reflexivity.
  - intros did gname s r Hr.
    apply render_subject_row in Hr as (sn & chars & extra & Hn & _ & Hr & _).
    exists sn. split; [exact Hn|].
    assert (N : forall i c, nth_error (map Some r) i = Some (Some c) -> nth_error r i = Some c).
    { intros i c H. rewrite nth_error_map in H.
      destruct (nth_error r i); simpl in H; congruence. }
    repeat split; apply N; rewrite Hr; reflexivity.
Qed.

Lemma rows_in_key_order_witness :
  build ru0 (g_tied_files "f1" "f2") = Ok T_tied_files
  /\ strict_weak_order rdflib_ltb
  /\ (exists ds,
        render_rows rdflib_ltb T_tied_files (col_headings T_tied_files)
        = emit_each (render_dataset rdflib_ltb T_tied_files (col_headings T_tied_files)) ds
        /\ Permutation (datasets T_tied_files) ds
        /\ ascending rdflib_ltb (key_term (dataset_ids T_tied_files)) ds
        /\ ties_in_order rdflib_ltb (key_term (dataset_ids T_tied_files))
             (datasets T_tied_files) ds)
  /\ (exists ss,
        render_group rdflib_ltb T_tied_files (col_headings T_tied_files)
          (lit "phs000424") (BNode "grp")
        = emit_each (render_subject T_tied_files (col_headings T_tied_files)
                       (lit "phs000424") (lit "Group1")) ss
        /\ Permutation [BNode "s2"; BNode "s1"] ss
        /\ ascending rdflib_ltb (key_term (subject_to_name T_tied_files)) ss
        /\ ties_in_order rdflib_ltb (key_term (subject_to_name T_tied_files))
             [BNode "s2"; BNode "s1"] ss).
Proof.
  assert (H : build ru0 (g_tied_files "f1" "f2") = Ok T_tied_files)
    by (vm_compute; reflexivity).
  pose proof (rows_in_key_order ru0 rdflib_ltb (g_tied_files "f1" "f2") T_tied_files
                H rdflib_ltb_swo) as (R1 & _ & R3 & _).
  split; [exact H|]. split; [exact rdflib_ltb_swo|]. split; [exact R1|].
  apply (R3 (lit "phs000424") (BNode "grp") (lit "Group1") [BNode "s2"; BNode "s1"]).
  - vm_compute. reflexivity.
  - vm_compute. reflexivity.
  - intros s [<-|[<-|[]]]; vm_compute; eauto.
Defined.

(** The claim as the spec words it leaves nothing to the order of
    discovery, and orders identifiers and names lexicographically.  The two
    stores of the first part hold the same triples and enumerate the two file
    Datasets in opposite orders; the two FileInfo records of "S1" have the
    same key, both runs succeed, and the rows come out in different orders.
    In the run of the second part the names are ordered as terms, not as the
    strings that are printed: rdflib puts a URIRef below every Literal, and
    the subject named by the URIRef "Z9" is printed before "S1" and "S2". *)
Lemma tied_files_follow_discovery :
  (Permutation (g_tied_files "f1" "f2") (g_tied_files "f2" "f1")
   /\ snd (main ru0 rdflib_ltb (g_tied_files "f1" "f2")) = None
   /\ snd (main ru0 rdflib_ltb (g_tied_files "f2" "f1")) = None
   /\ (exists f1 f2, files_of T_tied_files (BNode "s1") = [f1; f2]
                     /\ key_of_file f1 = key_of_file f2 /\ f1 <> f2)
   /\ main ru0 rdflib_ltb (g_tied_files "f1" "f2")
      <> main ru0 rdflib_ltb (g_tied_files "f2" "f1"))
  /\ (snd (main ru0 rdflib_ltb g_uri_name) = None
      /\ map (fun r => nth 3 r "") (fst (main ru0 rdflib_ltb g_uri_name))
         = ["Subject_ID"; "Z9"; "S1"; "S2"]
      /\ String.ltb "S1" "Z9" = true).
Proof.
  split; [split; [|split; [|split; [|split]]]|].
  - unfold g_tied_files. apply Permutation_app_head. apply perm_swap.
  - vm_compute. reflexivity.
  - vm_compute. reflexivity.
  - do 2 eexists. split; [vm_compute; reflexivity|]. split; [reflexivity|discriminate].
  - vm_compute. discriminate.
  - repeat split; vm_compute; reflexivity.
Qed.

(** ** Two runs on the same graph *)

Lemma fold_left_ext {A B} (f f' : A -> B -> A) (l : list B) (a : A) :
  (forall a x, f a x = f' a x) -> fold_left f l a = fold_left f' l a.
Proof.
  intro H. revert a. induction l as [|x l IH]; simpl; intro a; [reflexivity|].
  now rewrite H, IH.
Qed.

Lemma for_each_ext {A S} (f f' : S -> A -> result S) (l : list A) (st : S) :
  (forall st x, f st x = f' st x) -> for_each f l st = for_each f' l st.
Proof.
  intro H. revert st. induction l as [|x l IH]; simpl; intro st; [reflexivity|].
  rewrite H. destruct (f' st x); simpl; auto.
Qed.

(** A query with an object picks, among the triples with the subject and
    the predicate, those with the object. *)
Lemma triples_with_object (g : graph) (s p o : term) :
  triples g (Some s) (Some p) (Some o)
  = filter (fun t => term_eqb o (obj t)) (triples g (Some s) (Some p) None).
Proof.
  unfold triples. induction g as [|t g IH]; [reflexivity|].
  cbn [filter]. rewrite IH. cbn [matches]. rewrite andb_true_r.
  destruct (term_eqb s (subj t) && term_eqb p (pred t)); cbn [andb filter];
    [destruct (term_eqb o (obj t))|]; reflexivity.
Qed.

Section SameAnswers.
Variable ru : vocab.
Variables g1 g2 : graph.
Hypothesis same : same_answers ru g1 g2.

Lemma objects_same (s p : term) : objects g1 s p = objects g2 s p.
Proof. unfold objects. now rewrite (proj2 same s p). Qed.

Lemma triples_same (s p o : term) :
  triples g1 (Some s) (Some p) (Some o) = triples g2 (Some s) (Some p) (Some o).
Proof. now rewrite !triples_with_object, (proj2 same s p). Qed.

Lemma typed_same (o ty : term) : typed ru g1 o ty = typed ru g2 o ty.
Proof. apply triples_same. Qed.

Lemma chain_same (s p1 p2 : term) : chain g1 s p1 p2 = chain g2 s p1 p2.
Proof.
  unfold chain. rewrite objects_same. apply flat_map_ext. intro o. apply objects_same.
Qed.

Lemma find_all_datasets_same : find_all_datasets ru g1 = find_all_datasets ru g2.
Proof. unfold find_all_datasets. now rewrite (proj1 same). Qed.

Ltac same_queries := rewrite ?objects_same, ?typed_same, ?chain_same, ?triples_same.

Lemma collect_dataset_ids_same (l : list term) :
  collect_dataset_ids ru g1 l = collect_dataset_ids ru g2 l.
Proof.
  unfold collect_dataset_ids. apply fold_left_ext. intros st d. now same_queries.
Qed.

Lemma top_level_matches_same (l : list term) :
  top_level_matches ru g1 l = top_level_matches ru g2 l.
Proof.
  unfold top_level_matches. apply flat_map_ext. intro d. apply flat_map_ext. intro tt.
  now same_queries.
Qed.

Lemma link_studies_same (l : list term) : link_studies ru g1 l = link_studies ru g2 l.
Proof.
  unfold link_studies. apply fold_left_ext. intros m d. same_queries.
  apply fold_left_ext. intros m' o. now same_queries.
Qed.

Lemma groups_of_study_same (s : term) (names : tdict term) :
  groups_of_study ru g1 s names = groups_of_study ru g2 s names.
Proof.
  unfold groups_of_study. same_queries. apply fold_left_ext. intros st o. now same_queries.
Qed.

Lemma link_groups_same (l : list term) : link_groups ru g1 l = link_groups ru g2 l.
Proof.
  unfold link_groups. apply fold_left_ext. intros st s. now rewrite groups_of_study_same.
Qed.

Lemma subjects_of_group_same (sg : term) (names : tdict term) :
  subjects_of_group ru g1 sg names = subjects_of_group ru g2 sg names.
Proof.
  unfold subjects_of_group. same_queries. apply fold_left_ext. intros st o.
  now same_queries.
Qed.

Lemma link_subjects_same (l : list term) : link_subjects ru g1 l = link_subjects ru g2 l.
Proof.
  unfold link_subjects. apply fold_left_ext. intros st sg.
  now rewrite subjects_of_group_same.
Qed.

Lemma characteristic_of_same (o : term) :
  characteristic_of ru g1 o = characteristic_of ru g2 o.
Proof. unfold characteristic_of. now same_queries. Qed.

Lemma chars_of_subject_same (s : term) (acn : sdict bool) :
  chars_of_subject ru g1 s acn = chars_of_subject ru g2 s acn.
Proof.
  unfold chars_of_subject. same_queries. apply fold_left_ext. intros st o.
  now rewrite characteristic_of_same.
Qed.

Lemma collect_chars_same (l : list term) : collect_chars ru g1 l = collect_chars ru g2 l.
Proof.
  unfold collect_chars. apply fold_left_ext. intros st s.
  now rewrite chars_of_subject_same.
Qed.

Lemma md5_of_same (d : term) : md5_of ru g1 d = md5_of ru g2 d.
Proof.
  unfold md5_of. same_queries. apply fold_left_ext. intros md5 o2. now same_queries.
Qed.

Lemma link_distributions_same (d : term) :
  link_distributions ru g1 d = link_distributions ru g2 d.
Proof.
  unfold link_distributions. same_queries. apply for_each_ext. intros st o.
  unfold distribution_step, check_sizes. now same_queries.
Qed.

Lemma data_acquisitions_same (d : term) :
  data_acquisitions ru g1 d = data_acquisitions ru g2 d.
Proof.
  unfold data_acquisitions. same_queries. apply flat_map_ext. intro o. now same_queries.
Qed.

Lemma anatomical_part_same (o3 : term) : anatomical_part ru g1 o3 = anatomical_part ru g2 o3.
Proof. unfold anatomical_part. now same_queries. Qed.

Lemma anatomical_parts_of_same (o2 : term) :
  anatomical_parts_of ru g1 o2 = anatomical_parts_of ru g2 o2.
Proof.
  unfold anatomical_parts_of. same_queries. apply for_each_ext. intros parts o3.
  same_queries. apply for_each_ext. intros parts' _. now rewrite anatomical_part_same.
Qed.

Lemma link_dataset_files_same (project : option term) (files : tdict (list file_info))
    (d : term) :
  link_dataset_files ru g1 project files d = link_dataset_files ru g2 project files d.
Proof.
  unfold link_dataset_files.
  rewrite md5_of_same, link_distributions_same, data_acquisitions_same.
  destruct (link_distributions ru g2 d) as [dist|e]; simpl; [|reflexivity].
  destruct (data_acquisitions ru g2 d) as [|acq [|? ?]]; try reflexivity.
  same_queries. apply for_each_ext. intros st extract.
  same_queries. apply for_each_ext. intros st' o2.
  now rewrite anatomical_parts_of_same, objects_same.
Qed.

Lemma build_same : build ru g1 = build ru g2.
Proof.
  unfold build. cbv zeta.
  rewrite find_all_datasets_same, !collect_dataset_ids_same, !top_level_matches_same,
    !link_studies_same, !link_groups_same, !link_subjects_same, !collect_chars_same.
  rewrite (for_each_ext (link_dataset_files ru g1 _) (link_dataset_files ru g2 _) _ _
             (link_dataset_files_same _)).
  reflexivity.
Qed.
End SameAnswers.

(** C8, as the code has it.  What [main] prints and how it ends is a
    function of the answers the store gives to the queries of the script: the
    enumeration of the Datasets (line 29) and, for a subject and a predicate,
    the enumeration of the matching triples.  Two runs against stores that
    answer these alike, however else they enumerate their triples, print the
    same rows, the same text, and leave the same exit status. *)
Theorem run_is_deterministic (ru : vocab) (term_ltb : term -> term -> bool)
    (g1 g2 : graph) :
  same_answers ru g1 g2 ->
  main ru term_ltb g1 = main ru term_ltb g2
  /\ stdout ru term_ltb g1 = stdout ru term_ltb g2
  /\ exit_status ru term_ltb g1 = exit_status ru term_ltb g2.
Proof.
  intro H.
  assert (E : main ru term_ltb g1 = main ru term_ltb g2)
    by (unfold main; now rewrite (build_same ru g1 g2 H)).
  unfold stdout, exit_status. rewrite E. auto.
Qed.

Lemma triples_eqb_eq (l1 l2 : list triple) : triples_eqb l1 l2 = true -> l1 = l2.
Proof.
  revert l2. induction l1 as [|a l1 IH]; intros [|b l2] H; simpl in H;
    try discriminate; [reflexivity|].
  apply andb_true_iff in H as [Hab H]. rewrite (IH l2 H). f_equal.
  unfold triple_eqb in Hab.
  apply andb_true_iff in Hab as [Hab Ho]. apply andb_true_iff in Hab as [Hs Hp].
  apply term_eqb_eq in Hs, Hp, Ho.
  destruct a as [[a1 a2] a3], b as [[b1 b2] b3]. unfold subj, pred, obj in *.
  simpl in *. congruence.
Qed.

Lemma same_answers_b_ok (ru : vocab) (g1 g2 : graph) :
  same_answers_b ru g1 g2 = true -> same_answers ru g1 g2.
Proof.
  unfold same_answers_b. intro H. apply andb_true_iff in H as [H1 H2].
  split; [now apply triples_eqb_eq|]. intros s p.
  destruct (existsb (fun t => term_eqb s (subj t) && term_eqb p (pred t)) (g1 ++ g2)) eqn:E.
  - apply existsb_exists in E as (t & Ht & E). apply andb_true_iff in E as [Es Ep].
    apply term_eqb_eq in Es, Ep. subst s p.
    rewrite forallb_forall in H2. now apply triples_eqb_eq, H2.
  - assert (N : forall g, (forall t, In t g -> In t (g1 ++ g2)) ->
                          triples g (Some s) (Some p) None = []).
    { intros g Hg. unfold triples. induction g as [|t g IH]; [reflexivity|].
      cbn [filter matches]. rewrite andb_true_r.
      replace (term_eqb s (subj t) && term_eqb p (pred t)) with false.
      - apply IH. intros; apply Hg; now right.
      - symmetry. destruct (term_eqb s (subj t) && term_eqb p (pred t)) eqn:C; [|reflexivity].
        rewrite <- E. symmetry. apply existsb_exists. exists t. split; [|exact C].
        apply Hg. now left. }
    rewrite (N g1), (N g2); [reflexivity| |]; intros t Ht; apply in_or_app; auto.
Qed.

Lemma run_is_deterministic_witness :
  g_chars <> g_chars_reordered
  /\ main ru0 rdflib_ltb g_chars = main ru0 rdflib_ltb g_chars_reordered
  /\ stdout ru0 rdflib_ltb g_chars = stdout ru0 rdflib_ltb g_chars_reordered
  /\ exit_status ru0 rdflib_ltb g_chars = exit_status ru0 rdflib_ltb g_chars_reordered.
Proof.
  split; [vm_compute; discriminate|].
  apply (run_is_deterministic ru0 rdflib_ltb g_chars g_chars_reordered).
  apply same_answers_b_ok. vm_compute. reflexivity.
Defined.

(** The claim as the spec words it makes the output a function of the
    graph.  These two stores hold the same triples, none twice; they
    enumerate the two identifiers behind the central id of the Dataset in
    opposite orders, the last one enumerated is the one printed (line 35),
    and the two runs, both successful, print different tables. *)
Lemma same_triples_other_output :
  Permutation (g_two_ids "phs000001" "phs000002") (g_two_ids "phs000002" "phs000001")
  /\ no_repeats (g_two_ids "phs000001" "phs000002") = true
  /\ snd (main ru0 rdflib_ltb (g_two_ids "phs000001" "phs000002")) = None
  /\ snd (main ru0 rdflib_ltb (g_two_ids "phs000002" "phs000001")) = None
  /\ stdout ru0 rdflib_ltb (g_two_ids "phs000001" "phs000002")
     <> stdout ru0 rdflib_ltb (g_two_ids "phs000002" "phs000001").
Proof.
  split; [|split; [|split; [|split]]].
  - unfold g_two_ids. apply Permutation_app_head. apply perm_swap.
  - vm_compute. reflexivity.
  - vm_compute. reflexivity.
  - vm_compute. reflexivity.
  - vm_compute. discriminate.
Qed.

Example two_ids_run :
  map (fun r => nth 1 r "") (fst (main ru0 rdflib_ltb (g_two_ids "phs000001" "phs000002")))
  = ["dbGaP_Study"; "phs000002"; "phs000002"]
  /\ map (fun r => nth 1 r "") (fst (main ru0 rdflib_ltb (g_two_ids "phs000002" "phs000001")))
     = ["dbGaP_Study"; "phs000001"; "phs000001"].
Proof. split; vm_compute; reflexivity. Qed.

(** Scenario A, and Scenario D with no Dataset at all. *)
Example scenario_a :
  main ru0 rdflib_ltb g_scenario_a
  = ([ ["Project"; "dbGaP_Study"; "Study_Group"; "Subject_ID";
        "Anatomical_Part"; "Anatomical_Part_ID"; "Datatype"; "File_Size";
        "MD5_Checksum"; "AWS_URI"; "GCP_URI"];
       ["Genotype-Tissue Expression Project (GTEx)"; "phs000424"; "Group1"; "S1";
        ""; ""; ""; ""; ""; ""; ""];
       ["Genotype-Tissue Expression Project (GTEx)"; "phs000424"; "Group1"; "S2";
        ""; ""; ""; ""; ""; ""; ""] ], None).
Proof. vm_compute. reflexivity. Qed.

Example scenario_d_none :
  main ru0 rdflib_ltb [] = ([], Some (Fatal "found 0 top-level DATS Datasets")).
Proof. vm_compute. reflexivity. Qed.

Example scenario_d_two :
  main ru0 rdflib_ltb (g_scenario_a ++ [is_a (BNode "ds2") (DATS_DATASET_TERM ru0);
                             (BNode "ds2", TITLE_TERM ru0, topmed_title)])
  = ([], Some (Fatal "found 2 top-level DATS Datasets")).
Proof. vm_compute. reflexivity. Qed.

(** ** The sample runs *)

Example sample_stores_are_sets :
  forallb no_repeats
    [ g_scenario_a; g_project topmed_title; g_nameless; g_chars; g_both_fragments;
      g_topmed_file; g_two_sizes; g_scenario_b;
      g_tied_files "f1" "f2"; g_tied_files "f2" "f1";
      g_gtex_file "s3://bucket/wgs/x.cram"; g_gtex_file "s3://bucket/other/x.cram";
      g_unmatched_two_sizes; g_uri_name; g_chars_reordered;
      g_two_ids "phs000001" "phs000002"; g_two_ids "phs000002" "phs000001" ]
  = true.
Proof. vm_compute. reflexivity. Qed.

(** The quality node of "S2" with two names is dropped, the one without a
    value is kept as "None", and both subjects are printed. *)
Example characteristics_run :
  main ru0 rdflib_ltb g_chars
  = ([ ["Project"; "dbGaP_Study"; "Study_Group"; "Subject_ID"; "age"; "sex";
        "Anatomical_Part"; "Anatomical_Part_ID"; "Datatype"; "File_Size";
        "MD5_Checksum"; "AWS_URI"; "GCP_URI"];
       ["Genotype-Tissue Expression Project (GTEx)"; "phs000424"; "Group1"; "S1";
        ""; "male"; ""; ""; ""; ""; ""; ""; ""];
       ["Genotype-Tissue Expression Project (GTEx)"; "phs000424"; "Group1"; "S2";
        "None"; ""; ""; ""; ""; ""; ""; ""; ""] ], None).
Proof. vm_compute. reflexivity. Qed.

(** The member without a name ends the run after the header. *)
Example nameless_member_run :
  main ru0 rdflib_ltb g_nameless
  = ([ ["Project"; "dbGaP_Study"; "Study_Group"; "Subject_ID";
        "Anatomical_Part"; "Anatomical_Part_ID"; "Datatype"; "File_Size";
        "MD5_Checksum"; "AWS_URI"; "GCP_URI"] ],
     Some (KeyError (BNode "s3"))).
Proof. vm_compute. reflexivity. Qed.

(* ================================================================== *)
(** * More of [main]: what each table holds *)
(* ================================================================== *)

Lemma last_opt_app {A} (l : list A) (x : A) : last_opt (l ++ [x]) = Some x.
Proof. unfold last_opt. now rewrite fold_left_app. Qed.

Lemma last_opt_rev {A} (l : list A) :
  last_opt l = match rev l with v :: _ => Some v | [] => None end.
Proof.
  induction l as [|x l _] using rev_ind; [reflexivity|].
  now rewrite last_opt_app, rev_app_distr.
Qed.

Lemma last_opt_in {A} (l : list A) (x : A) : last_opt l = Some x -> In x l.
Proof.
  rewrite last_opt_rev. destruct (rev l) as [|v vs] eqn:E; [discriminate|].
  intro H. injection H as ->. apply in_rev. rewrite E. now left.
Qed.

Lemma last_opt_nil {A} (l : list A) : last_opt l = None <-> l = [].
Proof.
  rewrite last_opt_rev. split.
  - destruct (rev l) eqn:E; [|discriminate]. intros _.
    rewrite <- (rev_involutive l), E. reflexivity.
  - intros ->. reflexivity.
Qed.

(** Two nested loops whose inner body does not look at the inner element
    are one loop over the flattened list. *)
Lemma fold_left_nested {S A B} (f : S -> A -> S) (inner : A -> list B) (l : list A) (st : S) :
  fold_left (fun st o => fold_left (fun st (_ : B) => f st o) (inner o) st) l st
  = fold_left f (flat_map (fun o => map (fun _ : B => o) (inner o)) l) st.
Proof.
  revert st. induction l as [|o l IH]; simpl; intro st; [reflexivity|].
  rewrite fold_left_app, IH. f_equal.
  generalize (inner o). intro bs. revert st.
  induction bs as [|b bs IHb]; simpl; intro st; [reflexivity|apply IHb].
Qed.

Lemma is_in_In (x : term) (l : list term) : is_in x l = true <-> In x l.
Proof.
  unfold is_in. rewrite existsb_exists. split.
  - intros (y & Hy & E). apply term_eqb_eq in E. now subst.
  - intro H. exists x. split; [exact H|apply term_eqb_refl].
Qed.

Lemma tget_fold_tset_last (o : term) (os : list term) (m : tdict term) (k : term) :
  tget k (fold_left (fun m o3 => tset o o3 m) os m)
  = if term_eqb o k
    then match last_opt os with Some v => Some v | None => tget k m end
    else tget k m.
Proof. rewrite tget_fold_tset, last_opt_rev. now destruct (rev os). Qed.

(** *** Identifiers and studies (lines 31-38, 58-65) *)

Lemma collect_dataset_ids_fold (ru : vocab) (g : graph) (l : list term)
    (ids0 : tdict term) (ds0 : list term) :
  (forall k v, tget k ids0 = Some v -> last_opt (identifiers_of ru g k) = Some v) ->
  let r := fold_left
             (fun (st : tdict term * list term) d =>
                let ids := fold_left (fun m o2 => tset d o2 m)
                             (chain g d (CENTRAL_ID_TERM ru) (SDO_IDENT_TERM ru)) (fst st) in
                (ids, if tmem d ids then snd st ++ [d] else snd st))
             l (ids0, ds0) in
  (forall k, tget k (fst r)
             = if is_in k l then last_opt (identifiers_of ru g k) else tget k ids0)
  /\ snd r = ds0 ++ filter (has_identifier ru g) l.
Proof.
  revert ids0 ds0. induction l as [|x l IH]; intros ids0 ds0 Hinv; simpl.
  - split; [reflexivity|now rewrite app_nil_r].
  - set (ids := fold_left (fun m o2 => tset x o2 m)
                  (chain g x (CENTRAL_ID_TERM ru) (SDO_IDENT_TERM ru)) ids0).
    assert (Hids : forall k, tget k ids
                             = if term_eqb x k
                               then match last_opt (identifiers_of ru g x) with
                                    | Some v => Some v
                                    | None => tget k ids0
                                    end
                               else tget k ids0)
      by (intro k; apply tget_fold_tset_last).
    assert (Hinv' : forall k v, tget k ids = Some v ->
                                last_opt (identifiers_of ru g k) = Some v).
    { intros k v. rewrite Hids. destruct (term_eqb x k) eqn:E; [|apply Hinv].
      apply term_eqb_eq in E. subst k.
      destruct (last_opt (identifiers_of ru g x)) eqn:L; [auto|].
      intro H. apply Hinv in H. congruence. }
    assert (Hmem : tmem x ids = has_identifier ru g x).
    { unfold has_identifier. destruct (tmem x ids) eqn:M.
      - apply tmem_true in M as [v M]. apply Hinv', last_opt_in in M.
        destruct (identifiers_of ru g x); [destruct M|reflexivity].
      - apply tmem_false in M. rewrite Hids, term_eqb_refl in M.
        destruct (last_opt (identifiers_of ru g x)) eqn:L; [discriminate|].
        apply last_opt_nil in L. now rewrite L. }
    destruct (IH ids (if tmem x ids then ds0 ++ [x] else ds0) Hinv') as [I1 I2].
    cbv zeta in I1, I2. split.
    + intro k. rewrite I1. unfold is_in. simpl. fold (is_in k l).
      destruct (is_in k l) eqn:El; [now rewrite orb_true_r|]. rewrite orb_false_r.
      rewrite Hids. destruct (term_eqb k x) eqn:E.
      * apply term_eqb_eq in E. subst k. rewrite term_eqb_refl.
        destruct (last_opt (identifiers_of ru g x)) eqn:L; [reflexivity|].
        destruct (tget x ids0) eqn:G0; [|reflexivity]. apply Hinv in G0. congruence.
      * destruct (term_eqb x k) eqn:E'; [|reflexivity].
        apply term_eqb_eq in E'. subst k. rewrite term_eqb_refl in E. discriminate.
    + rewrite I2, Hmem. destruct (has_identifier ru g x); [|reflexivity].
      now rewrite <- app_assoc.
Qed.

(** X1.  [dataset_ids] maps a Dataset of the graph to the last of its
    identifiers in enumeration order and has no entry for any other node or
    for a Dataset without identifier; [datasets] is the list of all Datasets
    with the ones without identifier left out, in the order of discovery. *)
Theorem dataset_ids_last_identifier (ru : vocab) (g : graph) (all_datasets : list term) :
  (forall d, tget d (fst (collect_dataset_ids ru g all_datasets))
             = if is_in d all_datasets then last_opt (identifiers_of ru g d) else None)
  /\ snd (collect_dataset_ids ru g all_datasets) = filter (has_identifier ru g) all_datasets.
Proof.
  destruct (collect_dataset_ids_fold ru g all_datasets [] []) as [H1 H2]; [discriminate|].
  split; [exact H1|exact H2].
Qed.

Lemma link_studies_fold (ru : vocab) (g : graph) (l : list term) (m0 : tdict term) (k : term) :
  tget k (fold_left
            (fun m d =>
               fold_left
                 (fun m o => fold_left (fun m _ => tset d o m)
                   (typed ru g o (DATS_STUDY_TERM ru)) m)
                 (objects g d (PRODUCED_BY_TERM ru)) m)
            l m0)
  = if is_in k l
    then match last_opt (studies_of ru g k) with Some v => Some v | None => tget k m0 end
    else tget k m0.
Proof.
  revert m0. induction l as [|x l IH]; intro m0; simpl; [reflexivity|].
  rewrite IH. rewrite (fold_left_nested (fun m o => tset x o m)
                         (fun o => typed ru g o (DATS_STUDY_TERM ru))).
  fold (studies_of ru g x). rewrite tget_fold_tset_last.
  unfold is_in. simpl. fold (is_in k l).
  destruct (term_eqb k x) eqn:E.
  - apply term_eqb_eq in E. subst k. rewrite term_eqb_refl. simpl.
    destruct (is_in x l); [|reflexivity].
    now destruct (last_opt (studies_of ru g x)).
  - assert (E' : term_eqb x k = false).
    { destruct (term_eqb x k) eqn:E'; [|reflexivity].
      apply term_eqb_eq in E'. subst. rewrite term_eqb_refl in E. discriminate. }
    rewrite E'. reflexivity.
Qed.

Lemma link_studies_lookup (ru : vocab) (g : graph) (ds : list term) (k : term) :
  tget k (link_studies ru g ds) = if is_in k ds then last_opt (studies_of ru g k) else None.
Proof.
  unfold link_studies. rewrite link_studies_fold.
  destruct (is_in k ds); [|reflexivity]. now destruct (last_opt (studies_of ru g k)).
Qed.

Lemma has_study_last (ru : vocab) (g : graph) (d : term) :
  has_study ru g d = true <-> exists s, last_opt (studies_of ru g d) = Some s.
Proof.
  unfold has_study. split.
  - destruct (studies_of ru g d) as [|x xs] eqn:E; [discriminate|]. intros _.
    destruct (last_opt (x :: xs)) eqn:L; [eauto|]. apply last_opt_nil in L. discriminate.
  - intros [s H]. apply last_opt_in in H. now destruct (studies_of ru g d).
Qed.

(** X2.  The Datasets that are printed are the Datasets of the graph that
    have an identifier and are produced by at least one node typed Study,
    in the order of discovery; each is printed under the last of its
    identifiers and is linked to the last of those studies. *)
Theorem datasets_with_identifier_and_study (ru : vocab) (g : graph) (T : tables) :
  build ru g = Ok T ->
  datasets T
  = filter (has_study ru g) (filter (has_identifier ru g) (find_all_datasets ru g))
  /\ (forall d, In d (datasets T) ->
        tget d (dataset_ids T) = last_opt (identifiers_of ru g d)
        /\ tget d (ds_to_study T) = last_opt (studies_of ru g d)).
Proof.
  intro Hb. apply build_ok in Hb as (_ & _ & _ & Hids & Hds & Hst & _). cbv zeta in *.
  assert (I : (forall d, tget d (fst (collect_dataset_ids ru g (find_all_datasets ru g)))
                         = if is_in d (find_all_datasets ru g)
                           then last_opt (identifiers_of ru g d) else None)
               /\ snd (collect_dataset_ids ru g (find_all_datasets ru g))
                  = filter (has_identifier ru g) (find_all_datasets ru g)).
  { refine (collect_dataset_ids_fold ru g (find_all_datasets ru g) [] [] _). discriminate. }
  destruct I as [I1 I2].
  assert (Hd : datasets T
               = filter (has_study ru g)
                   (filter (has_identifier ru g) (find_all_datasets ru g))).
  { rewrite Hds, I2. apply filter_ext_in. intros d Hd.
    unfold tmem, PyDict.mem. fold (tget d (link_studies ru g
                                     (filter (has_identifier ru g) (find_all_datasets ru g)))).
    rewrite link_studies_lookup.
    replace (is_in d (filter (has_identifier ru g) (find_all_datasets ru g))) with true
      by (symmetry; now apply is_in_In).
    unfold has_study. destruct (studies_of ru g d) as [|x xs] eqn:E; [reflexivity|].
    destruct (last_opt (x :: xs)) eqn:L; [reflexivity|].
    apply last_opt_nil in L. discriminate. }
  split; [exact Hd|].
  intros d Hin. rewrite Hd in Hin.
  apply filter_In in Hin as [Hin _]. pose proof Hin as Hin'.
  apply filter_In in Hin' as [Hall _].
  split.
  - rewrite Hids, I1. now rewrite (proj2 (is_in_In d _) Hall).
  - rewrite Hst, I2, link_studies_lookup. now rewrite (proj2 (is_in_In d _) Hin).
Qed.

(** *** Study groups (lines 68-81) *)

Lemma groups_of_study_fst (ru : vocab) (g : graph) (s : term) (names : tdict term) :
  fst (groups_of_study ru g s names) = groups_in ru g s.
Proof.
  unfold groups_of_study, groups_in.
  set (inner := fun o (st : list term * tdict term) (_ : triple) =>
                  (if Nat.eqb (List.length (objects g o (NAME_TERM ru))) 1
                   then fst st ++ [o] else fst st,
                   fold_left (fun m o3 => tset o o3 m) (objects g o (NAME_TERM ru)) (snd st))).
  assert (Hin : forall o ts acc nm,
             fst (fold_left (inner o) ts (acc, nm))
             = acc ++ flat_map
                        (fun _ : triple =>
                           if Nat.eqb (List.length (objects g o (NAME_TERM ru))) 1
                           then [o] else []) ts).
  { intros o ts. induction ts as [|t ts IHt]; intros acc nm; simpl.
    - now rewrite app_nil_r.
    - unfold inner at 2. simpl. rewrite IHt.
      destruct (Nat.eqb (List.length (objects g o (NAME_TERM ru))) 1); simpl;
        [now rewrite <- app_assoc|reflexivity]. }
  assert (G : forall os acc nm,
             fst (fold_left (fun st o => fold_left (inner o)
                                           (typed ru g o (DATS_STUDY_GROUP_TERM ru)) st)
                    os (acc, nm))
             = acc ++ flat_map
                        (fun o => flat_map
                                    (fun _ : triple =>
                                       if Nat.eqb (List.length (objects g o (NAME_TERM ru))) 1
                                       then [o] else [])
                                    (typed ru g o (DATS_STUDY_GROUP_TERM ru))) os).
  { induction os as [|o os IH]; intros acc nm; simpl.
    - now rewrite app_nil_r.
    - destruct (fold_left (inner o) (typed ru g o (DATS_STUDY_GROUP_TERM ru)) (acc, nm))
        as [acc' nm'] eqn:E.
      rewrite IH. pose proof (Hin o (typed ru g o (DATS_STUDY_GROUP_TERM ru)) acc nm) as H.
      rewrite E in H. simpl in H. subst acc'. now rewrite <- app_assoc. }
  apply (G (objects g s (HAS_PART_TERM ru)) [] names).
Qed.

(** A name map is sound when every entry is the last name triple of its
    key. *)
Lemma groups_of_study_names (ru : vocab) (g : graph) (s : term) (names : tdict term) :
  (forall k v, tget k names = Some v -> last_opt (objects g k (NAME_TERM ru)) = Some v) ->
  forall k v, tget k (snd (groups_of_study ru g s names)) = Some v ->
              last_opt (objects g k (NAME_TERM ru)) = Some v.
Proof.
  intro H0. unfold groups_of_study.
  set (P := fun st : list term * tdict term =>
              forall k v, tget k (snd st) = Some v ->
                          last_opt (objects g k (NAME_TERM ru)) = Some v).
  apply (fold_left_invariant P); [|exact H0].
  intros st o _ HP. apply (fold_left_invariant P); [|exact HP].
  clear. intros [acc nm] _ _ HP k v. simpl. rewrite tget_fold_tset_last.
  destruct (term_eqb o k) eqn:E; [|apply HP].
  apply term_eqb_eq in E. subst k.
  destruct (last_opt (objects g o (NAME_TERM ru))) eqn:L; [auto|].
  intro H. apply HP in H. simpl in H. congruence.
Qed.

Lemma link_groups_content (ru : vocab) (g : graph) (studies : list term) :
  let r := link_groups ru g studies in
  (forall s l, tget s (fst r) = Some l -> l = groups_in ru g s)
  /\ (forall k v, tget k (snd r) = Some v ->
                  last_opt (objects g k (NAME_TERM ru)) = Some v).
Proof.
  unfold link_groups.
  set (P := fun st : tdict (list term) * tdict term =>
              (forall s l, tget s (fst st) = Some l -> l = groups_in ru g s)
              /\ (forall k v, tget k (snd st) = Some v ->
                              last_opt (objects g k (NAME_TERM ru)) = Some v)).
  apply (fold_left_invariant P).
  - intros [stg nm] s _ [H1 H2]. unfold P. simpl. split.
    + intros s' l. rewrite tget_tset, groups_of_study_fst.
      destruct (term_eqb s s') eqn:E; [|apply H1].
      apply term_eqb_eq in E. subst. intro H. now injection H.
    + now apply groups_of_study_names.
  - unfold P. simpl. split; discriminate.
Qed.

Lemma groups_in_In (ru : vocab) (g : graph) (s grp : term) :
  In grp (groups_in ru g s) <->
  In grp (objects g s (HAS_PART_TERM ru))
  /\ typed ru g grp (DATS_STUDY_GROUP_TERM ru) <> []
  /\ List.length (objects g grp (NAME_TERM ru)) = 1.
Proof.
  unfold groups_in. rewrite in_flat_map. split.
  - intros (o & Ho & H). apply in_flat_map in H as (t & Ht & H).
    destruct (Nat.eqb (List.length (objects g o (NAME_TERM ru))) 1) eqn:E; [|destruct H].
    destruct H as [<-|[]]. apply Nat.eqb_eq in E. repeat split; auto.
    intro Hn. rewrite Hn in Ht. destruct Ht.
  - intros (Ho & Ht & Hn). exists grp. split; [exact Ho|].
    destruct (typed ru g grp (DATS_STUDY_GROUP_TERM ru)) as [|t ts]; [congruence|].
    simpl. rewrite Hn. simpl. now left.
Qed.

(** X3.  The groups listed for a study are its parts that are typed
    StudyGroup and have exactly one name triple, in the order of discovery;
    a part with no name or with several names is not in the list.  The name
    under which a listed group is printed is that one name. *)
Theorem groups_have_exactly_one_name (ru : vocab) (g : graph) (T : tables)
    (study : term) (groups : list term) :
  build ru g = Ok T ->
  tget study (study_to_groups T) = Some groups ->
  groups = groups_in ru g study
  /\ forall grp,
       In grp groups <->
       In grp (objects g study (HAS_PART_TERM ru))
       /\ typed ru g grp (DATS_STUDY_GROUP_TERM ru) <> []
       /\ exists n, objects g grp (NAME_TERM ru) = [n]
                    /\ tget grp (study_group_to_name T) = Some n.
Proof.
  intros Hb Hg.
  apply build_ok in Hb as (_ & _ & _ & _ & _ & _ & Hstg & Hsgn & _). cbv zeta in *.
  set (studies := PyDict.values _) in *.
  destruct (link_groups_content ru g studies) as [C1 C2].
  destruct (link_groups_spec ru g studies) as [_ S2]. cbv zeta in *.
  rewrite Hstg in Hg. pose proof (C1 study groups Hg) as Heq.
  split; [exact Heq|]. intro grp. split.
  - intro Hin. pose proof Hin as Hin'. rewrite Heq in Hin'.
    apply groups_in_In in Hin' as (H1 & H2 & H3). repeat split; auto.
    destruct (objects g grp (NAME_TERM ru)) as [|n [|? ?]] eqn:E; try discriminate.
    exists n. split; [reflexivity|].
    destruct (S2 study groups grp Hg Hin) as [v Hv]. rewrite Hsgn, Hv.
    apply C2 in Hv. rewrite E in Hv. symmetry. exact Hv.
  - intros (H1 & H2 & n & Hn & _). rewrite Heq. apply groups_in_In.
    repeat split; auto. now rewrite Hn.
Qed.

(** *** Subjects and their names (lines 84-93) *)

Lemma names_sound_none (ru : vocab) (g : graph) (names : tdict term) (k : term) :
  names_sound ru g names -> last_opt (objects g k (NAME_TERM ru)) = None ->
  tget k names = None.
Proof.
  intros Hs Hl. destruct (tget k names) as [v|] eqn:E; [|reflexivity].
  apply Hs in E. congruence.
Qed.

Lemma name_step (ru : vocab) (g : graph) (o : term) (names : tdict term) :
  names_sound ru g names ->
  let names' := fold_left (fun m o3 => tset o o3 m) (objects g o (NAME_TERM ru)) names in
  names_sound ru g names'
  /\ tget o names' = last_opt (objects g o (NAME_TERM ru))
  /\ (forall k, k <> o -> tget k names' = tget k names)
  /\ (forall k v, tget k names = Some v -> tget k names' = Some v).
Proof.
  intro Hs. cbv zeta.
  assert (Ho : tget o (fold_left (fun m o3 => tset o o3 m) (objects g o (NAME_TERM ru)) names)
               = last_opt (objects g o (NAME_TERM ru))).
  { rewrite tget_fold_tset_last, term_eqb_refl.
    destruct (last_opt (objects g o (NAME_TERM ru))) eqn:L; [reflexivity|].
    now apply (names_sound_none ru g). }
  assert (Hk : forall k, k <> o ->
                 tget k (fold_left (fun m o3 => tset o o3 m) (objects g o (NAME_TERM ru)) names)
                 = tget k names).
  { intros k Hne. rewrite tget_fold_tset_last, term_eqb_neq; auto. }
  split; [|split; [exact Ho|split; [exact Hk|]]].
  - intros k v. destruct (term_eqb k o) eqn:E.
    + apply term_eqb_eq in E. subst k. now rewrite Ho.
    + rewrite Hk; [apply (Hs k v)|]. intro. subst. rewrite term_eqb_refl in E. discriminate.
  - intros k v H. destruct (term_eqb k o) eqn:E.
    + apply term_eqb_eq in E. subst k. rewrite Ho. exact (Hs o v H).
    + rewrite Hk; [exact H|]. intro. subst. rewrite term_eqb_refl in E. discriminate.
Qed.

Lemma subjects_of_group_content (ru : vocab) (g : graph) (sg : term) (names : tdict term) :
  names_sound ru g names ->
  let r := subjects_of_group ru g sg names in
  names_sound ru g (snd r)
  /\ (forall k v, tget k names = Some v -> tget k (snd r) = Some v)
  /\ (forall o, In o (fst r) -> tget o (snd r) = last_opt (objects g o (NAME_TERM ru)))
  /\ (forall k v, tget k (snd r) = Some v -> tget k names = Some v \/ In k (fst r)).
Proof.
  intro Hs. unfold subjects_of_group.
  set (P := fun st : list term * tdict term =>
              names_sound ru g (snd st)
              /\ (forall k v, tget k names = Some v -> tget k (snd st) = Some v)
              /\ (forall o, In o (fst st) ->
                            tget o (snd st) = last_opt (objects g o (NAME_TERM ru)))
              /\ (forall k v, tget k (snd st) = Some v ->
                              tget k names = Some v \/ In k (fst st))).
  apply (fold_left_invariant P).
  - intros st o _ HP. apply (fold_left_invariant P); [|exact HP].
    clear st HP. intros [acc nm] _ _ (H1 & H2 & H3 & H4). unfold P. simpl in *.
    destruct (name_step ru g o nm H1) as (N1 & N2 & N3 & N4). cbv zeta in *.
    split; [exact N1|]. split; [auto|]. split.
    + intros o' Hin. destruct (term_eqb o' o) eqn:E.
      * apply term_eqb_eq in E. subst o'. exact N2.
      * assert (Hne : o' <> o) by (intro; subst; rewrite term_eqb_refl in E; discriminate).
        rewrite N3 by exact Hne. apply H3.
        apply in_app_or in Hin as [Hin|[Heq|[]]]; [exact Hin|congruence].
    + intros k v Hk. destruct (term_eqb k o) eqn:E.
      * apply term_eqb_eq in E. subst k. right. apply in_or_app. right. now left.
      * assert (Hne : k <> o) by (intro; subst; rewrite term_eqb_refl in E; discriminate).
        rewrite N3 in Hk by exact Hne.
        destruct (H4 k v Hk) as [H|H]; [auto|]. right. apply in_or_app. now left.
  - unfold P. simpl. repeat split; auto. intros o [].
Qed.

Lemma link_subjects_content (ru : vocab) (g : graph) (groups : list term) :
  let r := link_subjects ru g groups in
  names_sound ru g (snd r)
  /\ (forall sg l, tget sg (fst r) = Some l ->
        l = members ru g sg
        /\ forall o, In o l -> tget o (snd r) = last_opt (objects g o (NAME_TERM ru)))
  /\ (forall k v, tget k (snd r) = Some v ->
        exists sg, In sg groups /\ In k (members ru g sg)).
Proof.
  unfold link_subjects.
  set (P := fun st : tdict (list term) * tdict term =>
              names_sound ru g (snd st)
              /\ (forall sg l, tget sg (fst st) = Some l ->
                    l = members ru g sg
                    /\ forall o, In o l ->
                         tget o (snd st) = last_opt (objects g o (NAME_TERM ru)))
              /\ (forall k v, tget k (snd st) = Some v ->
                    exists sg, In sg groups /\ In k (members ru g sg))).
  apply (fold_left_invariant P).
  - intros [sgs nm] sg Hsg (H1 & H2 & H3). unfold P. simpl in *.
    destruct (subjects_of_group_content ru g sg nm H1) as (S1 & S2 & S3 & S4).
    cbv zeta in *. rewrite subjects_of_group_fst in *.
    split; [exact S1|]. split.
    + intros sg' l. rewrite tget_tset. destruct (term_eqb sg sg') eqn:E.
      * apply term_eqb_eq in E. subst sg'. intro H. injection H as <-. split; auto.
      * intro H. destruct (H2 sg' l H) as [Hl Ho]. split; [exact Hl|].
        intros o Hin. specialize (Ho o Hin).
        destruct (last_opt (objects g o (NAME_TERM ru))) as [v|] eqn:L.
        -- now apply S2.
        -- now apply (names_sound_none ru g).
    + intros k v Hk. destruct (S4 k v Hk) as [H|H]; [now apply (H3 k v)|]. eauto.
  - unfold P. simpl. repeat split; try discriminate.
Qed.

(** X4.  The subjects listed for a study group are its members typed
    Material, in the order of discovery, with or without a name.  The name
    map gives each of them the last of its name triples, and nothing when it
    has none; every node the name map knows is such a member of a group that
    has a name. *)
Theorem subjects_and_their_names (ru : vocab) (g : graph) (T : tables) :
  build ru g = Ok T ->
  (forall sg subjects,
     tget sg (study_group_to_subjects T) = Some subjects ->
     subjects = members ru g sg
     /\ forall o, In o subjects ->
          tget o (subject_to_name T) = last_opt (objects g o (NAME_TERM ru)))
  /\ (forall k v,
        tget k (subject_to_name T) = Some v ->
        last_opt (objects g k (NAME_TERM ru)) = Some v
        /\ exists sg n, tget sg (study_group_to_name T) = Some n /\ In k (members ru g sg)).
Proof.
  intro Hb.
  apply build_ok in Hb as (_ & _ & _ & _ & _ & _ & _ & Hsgn & Hsgs & Hsn & _). cbv zeta in *.
  rewrite Hsgs, Hsn, Hsgn.
  set (gr := link_groups ru g _).
  destruct (link_subjects_content ru g (PyDict.keys (snd gr))) as (C1 & C2 & C3).
  cbv zeta in *. split; [exact C2|].
  intros k v Hk. split; [now apply C1|].
  destruct (C3 k v Hk) as (sg & Hsg & Hm).
  apply tget_keys in Hsg as [n Hn]. eauto.
Qed.

(** *** Characteristics (lines 108-139) *)

Lemma chars_fold_lookup (ru : vocab) (g : graph) (l : list term)
    (chars0 : sdict characteristic) (acn0 : sdict bool) (k : string) :
  sget k (fst (fold_left
                 (fun (st : sdict characteristic * sdict bool) o =>
                    match characteristic_of ru g o with
                    | None => st
                    | Some c => (sset (name c) c (fst st), sset (name c) true (snd st))
                    end)
                 l (chars0, acn0)))
  = match last_opt (filter (fun c => String.eqb (name c) k)
                      (flat_map (fun o => match characteristic_of ru g o with
                                          | Some c => [c]
                                          | None => []
                                          end) l)) with
    | Some c => Some c
    | None => sget k chars0
    end.
Proof.
  induction l as [|o l IH] using rev_ind; [reflexivity|].
  rewrite fold_left_app, flat_map_app, filter_app. simpl.
  destruct (characteristic_of ru g o) as [c|]; simpl.
  - rewrite sget_sset. destruct (String.eqb (name c) k).
    + now rewrite last_opt_app.
    + now rewrite !app_nil_r.
  - now rewrite !app_nil_r.
Qed.

Lemma collect_chars_content (ru : vocab) (g : graph) (subjects : list term) (s : term)
    (chars : sdict characteristic) :
  tget s (fst (collect_chars ru g subjects)) = Some chars ->
  exists acn, chars = fst (chars_of_subject ru g s acn).
Proof.
  unfold collect_chars. revert s chars.
  apply (fold_left_invariant
           (fun st : tdict (sdict characteristic) * sdict bool =>
              forall s chars, tget s (fst st) = Some chars ->
                              exists acn, chars = fst (chars_of_subject ru g s acn))).
  - intros [dict acn] x _ IH s chars. simpl. rewrite tget_tset.
    destruct (term_eqb x s) eqn:E; [|apply IH].
    apply term_eqb_eq in E. subst. intro H. injection H as <-. eauto.
  - discriminate.
Qed.

(** X5.  The characteristic a subject has under a name is the one of the
    last of its quality nodes that was kept under that name: a later quality
    node with the same name replaces an earlier one.  The name of a kept
    characteristic is the one name value of its quality node, and its value
    is the one value of the node, or "None" when the node has no value. *)
Theorem characteristic_of_last_quality_node (ru : vocab) (g : graph) (T : tables)
    (s : term) (chars : sdict characteristic) :
  build ru g = Ok T ->
  tget s (subject_to_chars T) = Some chars ->
  (forall k, sget k chars
             = last_opt (filter (fun c => String.eqb (name c) k)
                           (kept_characteristics ru g s)))
  /\ (forall c, In c (kept_characteristics ru g s) ->
        exists o n, In o (objects g s (HAS_QUALITY_TERM ru))
                    /\ chain g o (NAME_TERM ru) (SDO_VALUE_TERM ru) = [n]
                    /\ name c = str n
                    /\ value c = match objects g o (DATA_ITEM_TERM ru) with
                                 | [] => "None"
                                 | v :: _ => str v
                                 end).
Proof.
  intros Hb Hc.
  apply build_ok in Hb as (_ & _ & _ & _ & _ & _ & _ & _ & _ & _ & Hsc & _). cbv zeta in *.
  rewrite Hsc in Hc. apply collect_chars_content in Hc as [acn ->]. split.
  - intro k. unfold chars_of_subject, kept_characteristics. rewrite chars_fold_lookup.
    simpl. now destruct (last_opt _).
  - intros c Hin. unfold kept_characteristics in Hin.
    apply in_flat_map in Hin as (o & Ho & Hin). exists o.
    unfold characteristic_of in Hin.
    destruct (objects g o (DATA_ITEM_TERM ru)) as [|v [|v' vs]];
      destruct (chain g o (NAME_TERM ru) (SDO_VALUE_TERM ru)) as [|n [|n' ns]];
      destruct (chain g o (CENTRAL_ID_TERM ru) (SDO_IDENT_TERM ru)) as [|i [|i' ids]];
      simpl in Hin; try (destruct Hin; fail);
      destruct Hin as [<-|[]]; exists n; simpl; auto.
Qed.

(** *** The checksum (lines 154-166) *)

Lemma md5_fold (ru : vocab) (g : graph) (dims : list term) (md5 : option string) :
  fold_left (fun md5 o2 => if is_md5 ru g o2 then dimension_value ru g o2 else md5) dims md5
  = match last_opt (filter (is_md5 ru g) dims) with
    | Some o2 => dimension_value ru g o2
    | None => md5
    end.
Proof.
  induction dims as [|o dims IH] using rev_ind; [reflexivity|].
  rewrite fold_left_app, filter_app. simpl.
  destruct (is_md5 ru g o).
  - now rewrite last_opt_app.
  - now rewrite app_nil_r.
Qed.

(** X6.  The checksum of a Dataset is the value of the last of its parts
    typed Dimension whose name is "MD5"; it is "TBD" when the Dataset has no
    such part, and it is missing ([None]) when that part has no value. *)
Theorem md5_of_last_dimension (ru : vocab) (g : graph) (d : term) :
  md5_of ru g d
  = match last_opt (filter (is_md5 ru g) (dimensions_of ru g d)) with
    | Some o2 => dimension_value ru g o2
    | None => Some "TBD"
    end.
Proof.
  unfold md5_of, dimensions_of.
  rewrite <- md5_fold.
  apply (fold_left_nested
           (fun md5 o2 => if is_md5 ru g o2 then dimension_value ru g o2 else md5)
           (fun o2 => typed ru g o2 (DATS_DIMENSION_TERM ru))).
Qed.

(** *** Distributions (lines 169-188) *)

Lemma gs_is_not_s3 (u : string) : is_gs u = true -> is_s3 u = false.
Proof.
  unfold is_gs, is_s3. destruct u as [|a u]; [discriminate|]. cbn [String.prefix].
  destruct (ascii_dec "g"%char a) as [<-|]; [|intro H; discriminate H]. intros _.
  destruct (ascii_dec "s"%char "g"%char) as [E|]; [discriminate E|reflexivity].
Qed.

Lemma last_opt_append {A} (l1 l2 : list A) :
  last_opt (l1 ++ l2) = match last_opt l2 with Some x => Some x | None => last_opt l1 end.
Proof.
  induction l2 as [|x l2 _] using rev_ind.
  - now rewrite app_nil_r.
  - now rewrite app_assoc, !last_opt_app.
Qed.

Lemma record_download_uris (o : term) (st : distributions) :
  d_s3_URI (record_download o st) = (if is_s3 (str o) then Some (str o) else d_s3_URI st)
  /\ d_gs_URI (record_download o st) = (if is_gs (str o) then Some (str o) else d_gs_URI st)
  /\ map fst (d_distribs (record_download o st))
     = map fst (d_distribs st) ++ (if is_gs (str o) || is_s3 (str o) then [str o] else []).
Proof.
  unfold record_download. fold (is_gs (str o)). fold (is_s3 (str o)).
  destruct (is_gs (str o)) eqn:G.
  - rewrite (gs_is_not_s3 _ G). simpl. now rewrite map_app.
  - destruct (is_s3 (str o)); simpl; [now rewrite map_app|now rewrite app_nil_r].
Qed.

Lemma record_downloads_uris (o : term) (ts : list triple) (st : distributions) :
  let st' := fold_left (fun st _ => record_download o st) ts st in
  let us := map (fun _ : triple => str o) ts in
  d_s3_URI st' = match last_opt (filter is_s3 us) with Some u => Some u | None => d_s3_URI st end
  /\ d_gs_URI st' = match last_opt (filter is_gs us) with Some u => Some u | None => d_gs_URI st end
  /\ map fst (d_distribs st')
     = map fst (d_distribs st) ++ filter (fun u => is_gs u || is_s3 u) us.
Proof.
  cbv zeta. induction ts as [|t ts IH] using rev_ind; simpl.
  - now rewrite app_nil_r.
  - rewrite fold_left_app, map_app, !filter_app. simpl.
    destruct IH as (I1 & I2 & I3).
    destruct (record_download_uris o (fold_left (fun st _ => record_download o st) ts st))
      as (R1 & R2 & R3).
    rewrite R1, R2, R3, I1, I2, I3. rewrite !last_opt_append.
    destruct (is_s3 (str o)), (is_gs (str o)); simpl;
      rewrite ?app_nil_r, <- ?app_assoc; auto.
Qed.

Lemma distributions_uris (ru : vocab) (g : graph) (os : list term) (st st' : distributions) :
  for_each (distribution_step ru g) os st = Ok st' ->
  let us := flat_map (fun o => map (fun _ : triple => str o)
                                 (typed ru g o (SDO_DATA_DOWNLOAD_TERM ru))) os in
  d_s3_URI st' = match last_opt (filter is_s3 us) with Some u => Some u | None => d_s3_URI st end
  /\ d_gs_URI st' = match last_opt (filter is_gs us) with Some u => Some u | None => d_gs_URI st end
  /\ map fst (d_distribs st')
     = map fst (d_distribs st) ++ filter (fun u => is_gs u || is_s3 u) us.
Proof.
  cbv zeta. revert st. induction os as [|o os IH]; simpl; intros st H.
  - injection H as <-. now rewrite app_nil_r.
  - destruct (distribution_step ru g st o) as [st1|] eqn:E; simpl in H; [|discriminate].
    destruct (IH _ H) as (I1 & I2 & I3).
    unfold distribution_step in E.
    destruct (check_sizes ru g o (d_file_size st)) as [fs|]; simpl in E; [|discriminate].
    injection E as E.
    destruct (record_downloads_uris o (typed ru g o (SDO_DATA_DOWNLOAD_TERM ru))
                {| d_file_size := fs; d_s3_URI := d_s3_URI st;
                   d_gs_URI := d_gs_URI st; d_distribs := d_distribs st |})
      as (R1 & R2 & R3).
    cbv zeta in R1, R2, R3. rewrite E in R1, R2, R3. simpl in R1, R2, R3.
    rewrite I1, I2, I3, R1, R2, R3, !filter_app, !last_opt_append, <- app_assoc.
    repeat split.
    + now destruct (last_opt (filter is_s3 _)).
    + now destruct (last_opt (filter is_gs _)).
Qed.

(** X7.  When the loop over the distributions of a Dataset ends normally,
    the S3 URI it leaves is the last DataDownload URI that starts with
    "s3://", the GCP URI the last one that starts with "gs://" (there is none
    when no such URI exists), and the recorded distributions are the
    DataDownload URIs with one of these two schemes, in the order of
    discovery; a URI with another scheme is not recorded. *)
Theorem distributions_keep_s3_and_gs (ru : vocab) (g : graph) (d : term) (dist : distributions) :
  link_distributions ru g d = Ok dist ->
  d_s3_URI dist = last_opt (filter is_s3 (downloads_of ru g d))
  /\ d_gs_URI dist = last_opt (filter is_gs (downloads_of ru g d))
  /\ map fst (d_distribs dist)
     = filter (fun u => is_gs u || is_s3 u) (downloads_of ru g d).
Proof.
  intro H. unfold link_distributions in H.
  apply distributions_uris in H as (H1 & H2 & H3). cbv zeta in *. simpl in *.
  unfold downloads_of. split; [|split].
  - rewrite H1. destruct (last_opt (filter is_s3 _)); reflexivity.
  - rewrite H2. destruct (last_opt (filter is_gs _)); reflexivity.
  - exact H3.
Qed.

Lemma distributions_keep_s3_and_gs_witness :
  d_s3_URI dist_wgs_file = last_opt (filter is_s3 (downloads_of ru0 g_wgs_file (BNode "f1")))
  /\ d_gs_URI dist_wgs_file = last_opt (filter is_gs (downloads_of ru0 g_wgs_file (BNode "f1")))
  /\ map fst (d_distribs dist_wgs_file)
     = filter (fun u => is_gs u || is_s3 u) (downloads_of ru0 g_wgs_file (BNode "f1")).
Proof.
  apply (distributions_keep_s3_and_gs ru0 g_wgs_file (BNode "f1") dist_wgs_file).
  vm_compute. reflexivity.
Defined.

Lemma distributions_no_sizes (ru : vocab) (g : graph) (os : list term)
    (st st' : distributions) :
  for_each (distribution_step ru g) os st = Ok st' ->
  (forall o, In o os -> objects g o (SDO_SIZE_TERM ru) = []) ->
  d_file_size st' = d_file_size st.
Proof.
  revert st. induction os as [|o os IH]; simpl; intros st H Hno.
  - now injection H as <-.
  - destruct (distribution_step ru g st o) as [st1|] eqn:E; simpl in H; [|discriminate].
    rewrite (IH st1 H) by auto.
    apply distribution_step_ok in E. unfold check_sizes in E.
    rewrite (Hno o (or_introl eq_refl)) in E. simpl in E. now injection E.
Qed.

(** X8.  When the loop over the distributions of a Dataset ends normally,
    the file size it leaves is the one size value that every distribution
    of the Dataset reports, and there is none when no distribution reports a
    size. *)
Theorem file_size_is_the_common_size (ru : vocab) (g : graph) (d : term)
    (dist : distributions) :
  link_distributions ru g d = Ok dist ->
  d_file_size dist = last_opt (sizes_of ru g d)
  /\ forall z, In z (sizes_of ru g d) -> d_file_size dist = Some z.
Proof.
  intro H. unfold link_distributions in H.
  assert (Hall : forall z, In z (sizes_of ru g d) -> d_file_size dist = Some z).
  { intros z Hz. unfold sizes_of in Hz. apply in_flat_map in Hz as (o & Ho & Hz).
    apply in_map_iff in Hz as (z0 & <- & Hz0).
    apply (proj2 (distributions_ok ru g _ _ _ H) o z0 Ho Hz0). }
  split; [|exact Hall].
  destruct (last_opt (sizes_of ru g d)) as [z|] eqn:L.
  - apply Hall. now apply last_opt_in.
  - apply last_opt_nil in L.
    rewrite (distributions_no_sizes ru g _ _ _ H); [reflexivity|].
    intros o Ho. destruct (objects g o (SDO_SIZE_TERM ru)) as [|z zs] eqn:E; [reflexivity|].
    exfalso. assert (Hin : In (str z) (sizes_of ru g d)).
    { unfold sizes_of. apply in_flat_map. exists o. split; [exact Ho|].
      rewrite E. now left. }
    rewrite L in Hin. destruct Hin.
Qed.

Lemma file_size_is_the_common_size_witness :
  d_file_size dist_wgs_file = last_opt (sizes_of ru0 g_wgs_file (BNode "f1"))
  /\ forall z, In z (sizes_of ru0 g_wgs_file (BNode "f1")) -> d_file_size dist_wgs_file = Some z.
Proof.
  apply (file_size_is_the_common_size ru0 g_wgs_file (BNode "f1") dist_wgs_file).
  vm_compute. reflexivity.
Defined.

(** *** Runs without files (lines 191-198, 311-317) *)

Lemma for_each_unchanged {A S} (body : S -> A -> result S) (l : list A) (st : S) :
  (forall x, In x l -> body st x = Ok st) -> for_each body l st = Ok st.
Proof.
  induction l as [|x l IH]; simpl; intro H; [reflexivity|].
  rewrite (H x (or_introl eq_refl)). simpl. apply IH. auto.
Qed.

Lemma emit_each_no_abort {A} (body : A -> (list (list string) * option abort)) (l : list A) :
  (forall x, In x l -> snd (body x) = None) -> snd (emit_each body l) = None.
Proof.
  induction l as [|x l IH]; simpl; intro H; [reflexivity|].
  pose proof (H x (or_introl eq_refl)) as Hx.
  destruct (body x) as [rows [e|]]; simpl in *; [discriminate|]. apply IH. auto.
Qed.

Lemma print_row_somes (l : list string) : print_row (map Some l) = ([l], None).
Proof. unfold print_row, try_then. now rewrite all_str_somes. Qed.

(** A subject with a name and without files is printed without abort. *)
Lemma render_subject_plain (ru : vocab) (g : graph) (T : tables) (h : list string)
    (dataset_id group_name s n : term) :
  build ru g = Ok T ->
  tget s (subject_to_name T) = Some n ->
  tget s (subject_to_files T) = None ->
  snd (render_subject T h dataset_id group_name s) = None.
Proof.
  intros Hb Hn Hf.
  destruct (build_project ru g T Hb) as (pn & Hpn & _).
  destruct (build_subject_chars ru g T s n Hb Hn) as [chars Hc].
  unfold render_subject, try_then.
  rewrite (proj2 (index_ok _ _ _) Hn), (proj2 (index_ok _ _ _) Hc).
  rewrite (proj2 (tmem_false _ _) Hf). cbn [negb].
  rewrite Hpn, char_cells_somes, repeat_Some. cbn [option_map].
  change [Some (str pn); Some (str dataset_id); Some (str group_name); Some (str n)]
    with (map Some [str pn; str dataset_id; str group_name; str n]).
  rewrite <- !map_app, print_row_somes. reflexivity.
Qed.

Lemma link_dataset_files_skipped (ru : vocab) (g : graph) project files d :
  (forall z z', In z (sizes_of ru g d) -> In z' (sizes_of ru g d) -> z = z') ->
  List.length (data_acquisitions ru g d) <> 1 ->
  link_dataset_files ru g project files d = Ok files.
Proof.
  intros Hagree Hacq. unfold link_dataset_files.
  destruct (link_distributions_agree ru g d Hagree) as [dist ->]. simpl.
  destruct (data_acquisitions ru g d) as [|a [|? ?]]; try reflexivity.
  simpl in Hacq. congruence.
Qed.

(** X9.  A graph with exactly one top-level title match, in which the
    sizes under every Dataset agree, no Dataset has exactly one
    DataAcquisition, and every Material member of a study group has a name,
    is printed to the end: the run exits with status 0, the header is the
    first row, and no FileInfo record was made. *)
Theorem run_without_acquisitions_succeeds (ru : vocab) (term_ltb : term -> term -> bool)
    (g : graph) :
  List.length (top_level_matches ru g (find_all_datasets ru g)) = 1 ->
  (forall d, In d (find_all_datasets ru g) ->
     forall z z', In z (sizes_of ru g d) -> In z' (sizes_of ru g d) -> z = z') ->
  (forall d, In d (find_all_datasets ru g) ->
     List.length (data_acquisitions ru g d) <> 1) ->
  (forall sg o, In o (members ru g sg) -> objects g o (NAME_TERM ru) <> []) ->
  exists T rows,
    build ru g = Ok T
    /\ subject_to_files T = []
    /\ main ru term_ltb g = (col_headings T :: rows, None)
    /\ exit_status ru term_ltb g = 0.
Proof.
  intros Htl Hagree Hacq Hnames.
  assert (Hfe : for_each (link_dataset_files ru g
                            (last_opt (map snd (top_level_matches ru g (find_all_datasets ru g)))))
                  (find_all_datasets ru g) [] = Ok []).
  { apply for_each_unchanged. intros d Hd.
    apply link_dataset_files_skipped; [exact (Hagree d Hd)|exact (Hacq d Hd)]. }
  assert (Hb : exists T, build ru g = Ok T /\ subject_to_files T = []).
  { unfold build. cbv zeta. rewrite length_map, Htl. cbn [Nat.eqb negb].
    rewrite Hfe. simpl. eauto. }
  destruct Hb as (T & Hb & Hfiles).
  assert (Hr : snd (render_rows term_ltb T (col_headings T)) = None).
  { unfold render_rows.
    destruct (sort_by_total term term term_ltb (index (dataset_ids T)) (datasets T))
      as [ds Hds].
    { intros d Hd. destruct (build_lookups ru g T d Hb Hd) as (did & _ & _ & Hdid & _).
      exists did. now apply index_ok. }
    rewrite Hds. unfold try_then. apply emit_each_no_abort. intros d Hd.
    apply (Permutation_in _ (Permutation_sym ((sort_by_index_perm _ _ _ _ Hds)))) in Hd.
    destruct (build_lookups ru g T d Hb Hd) as (did & study & groups & H1 & H2 & H3 & H4).
    destruct (sort_by_total term term term_ltb (index (study_group_to_name T)) groups)
      as [gs Hgs].
    { intros grp Hgrp. destruct (H4 grp Hgrp) as [n Hn]. exists n. now apply index_ok. }
    unfold render_dataset, try_then.
    rewrite (proj2 (index_ok _ _ _) H1), (proj2 (index_ok _ _ _) H2),
      (proj2 (index_ok _ _ _) H3), Hgs.
    apply emit_each_no_abort. intros grp Hgrp.
    apply (Permutation_in _ (Permutation_sym ((sort_by_index_perm _ _ _ _ Hgs)))) in Hgrp.
    destruct (H4 grp Hgrp) as [gname Hgname].
    pose proof (build_ok ru g T Hb) as
      (_ & _ & _ & _ & _ & _ & _ & Hsgn & Hsgs & Hsn & _). cbv zeta in *.
    set (gr := link_groups ru g _) in *.
    destruct (link_subjects_spec ru g (PyDict.keys (snd gr))) as [L1 _].
    destruct (link_subjects_content ru g (PyDict.keys (snd gr))) as (_ & C2 & _).
    cbv zeta in *.
    assert (Hsubj : tget grp (study_group_to_subjects T) = Some (members ru g grp)).
    { rewrite Hsgs. apply L1. apply tget_keys. rewrite <- Hsgn. eauto. }
    assert (Hnamed : forall s, In s (members ru g grp) ->
                       exists n, tget s (subject_to_name T) = Some n).
    { intros s Hs. rewrite Hsgs in Hsubj. destruct (C2 grp _ Hsubj) as [_ Hl].
      rewrite Hsn, (Hl s Hs).
      destruct (last_opt (objects g s (NAME_TERM ru))) eqn:L; [eauto|].
      apply last_opt_nil in L. exfalso. exact (Hnames grp s Hs L). }
    destruct (sort_by_total term term term_ltb (index (subject_to_name T)) (members ru g grp))
      as [ss Hss].
    { intros s Hs. destruct (Hnamed s Hs) as [n Hn]. exists n. now apply index_ok. }
    unfold render_group, try_then.
    rewrite (proj2 (index_ok _ _ _) Hgname), (proj2 (index_ok _ _ _) Hsubj), Hss.
    apply emit_each_no_abort. intros s Hs.
    apply (Permutation_in _ (Permutation_sym ((sort_by_index_perm _ _ _ _ Hss)))) in Hs.
    destruct (Hnamed s Hs) as [n Hn].
    apply (render_subject_plain ru g T _ _ _ s n Hb Hn).
    rewrite Hfiles. reflexivity. }
  exists T, (fst (render_rows term_ltb T (col_headings T))).
  split; [exact Hb|]. split; [exact Hfiles|].
  assert (Hm : main ru term_ltb g
    = (col_headings T :: fst (render_rows term_ltb T (col_headings T)), None))
    by (rewrite (main_ok ru term_ltb g T Hb), Hr; reflexivity).
  split; [exact Hm|]. unfold exit_status. now rewrite Hm.
Qed.

(** A member of a group is the subject of a type triple with the object
    Material. *)
Lemma members_typed (ru : vocab) (g : graph) (sg o : term) :
  In o (members ru g sg) ->
  In o (map subj (triples g None (Some (RDF_TYPE_TERM ru)) (Some (DATS_MATERIAL_TERM ru)))).
Proof.
  unfold members. intro H. apply in_flat_map in H as (o' & _ & H).
  apply in_map_iff in H as (t & <- & Ht).
  unfold typed, triples in Ht. apply filter_In in Ht as [Ht Hm].
  apply andb_true_iff in Hm as [Hm Ho]. apply andb_true_iff in Hm as [Hs Hp].
  simpl in Hs. apply term_eqb_eq in Hs. subst o'.
  apply in_map. unfold triples. apply filter_In. split; [exact Ht|].
  simpl. simpl in Hp, Ho. now rewrite Hp, Ho.
Qed.

Lemma run_without_acquisitions_succeeds_witness :
  exists T rows,
    build ru0 g_chars = Ok T
    /\ subject_to_files T = []
    /\ main ru0 rdflib_ltb g_chars = (col_headings T :: rows, None)
    /\ exit_status ru0 rdflib_ltb g_chars = 0.
Proof.
  apply (run_without_acquisitions_succeeds ru0 rdflib_ltb g_chars).
  - vm_compute. reflexivity.
  - intros d Hd z z' Hz Hz'. vm_compute in Hd. destruct Hd as [<-|[]].
    vm_compute in Hz. destruct Hz.
  - intros d Hd. vm_compute in Hd. destruct Hd as [<-|[]]. vm_compute. discriminate.
  - intros sg o Ho. apply members_typed in Ho. vm_compute in Ho.
    destruct Ho as [<-|[<-|[]]]; vm_compute; discriminate.
Defined.

(** *** The tables of the sample run with characteristics *)

Lemma datasets_with_identifier_and_study_witness :
  datasets T_chars
  = filter (has_study ru0 g_chars)
      (filter (has_identifier ru0 g_chars) (find_all_datasets ru0 g_chars))
  /\ (forall d, In d (datasets T_chars) ->
        tget d (dataset_ids T_chars) = last_opt (identifiers_of ru0 g_chars d)
        /\ tget d (ds_to_study T_chars) = last_opt (studies_of ru0 g_chars d)).
Proof.
  apply (datasets_with_identifier_and_study ru0 g_chars T_chars).
  vm_compute. reflexivity.
Defined.

Lemma groups_have_exactly_one_name_witness :
  [BNode "grp"] = groups_in ru0 g_chars (BNode "study")
  /\ forall grp,
       In grp [BNode "grp"] <->
       In grp (objects g_chars (BNode "study") (HAS_PART_TERM ru0))
       /\ typed ru0 g_chars grp (DATS_STUDY_GROUP_TERM ru0) <> []
       /\ exists n, objects g_chars grp (NAME_TERM ru0) = [n]
                    /\ tget grp (study_group_to_name T_chars) = Some n.
Proof.
  apply (groups_have_exactly_one_name ru0 g_chars T_chars (BNode "study") [BNode "grp"]);
    vm_compute; reflexivity.
Defined.

Lemma subjects_and_their_names_witness :
  (forall sg subjects,
     tget sg (study_group_to_subjects T_chars) = Some subjects ->
     subjects = members ru0 g_chars sg
     /\ forall o, In o subjects ->
          tget o (subject_to_name T_chars) = last_opt (objects g_chars o (NAME_TERM ru0)))
  /\ (forall k v,
        tget k (subject_to_name T_chars) = Some v ->
        last_opt (objects g_chars k (NAME_TERM ru0)) = Some v
        /\ exists sg n, tget sg (study_group_to_name T_chars) = Some n
                        /\ In k (members ru0 g_chars sg)).
Proof.
  apply (subjects_and_their_names ru0 g_chars T_chars).
  vm_compute. reflexivity.
Defined.

Lemma characteristic_of_last_quality_node_witness :
  (forall k, sget k chars_s2
             = last_opt (filter (fun c => String.eqb (name c) k)
                           (kept_characteristics ru0 g_chars (BNode "s2"))))
  /\ (forall c, In c (kept_characteristics ru0 g_chars (BNode "s2")) ->
        exists o n, In o (objects g_chars (BNode "s2") (HAS_QUALITY_TERM ru0))
                    /\ chain g_chars o (NAME_TERM ru0) (SDO_VALUE_TERM ru0) = [n]
                    /\ name c = str n
                    /\ value c = match objects g_chars o (DATA_ITEM_TERM ru0) with
                                 | [] => "None"
                                 | v :: _ => str v
                                 end).
Proof.
  apply (characteristic_of_last_quality_node ru0 g_chars T_chars (BNode "s2") chars_s2);
    vm_compute; reflexivity.
Defined.

(** *** Anatomical parts (lines 212-243) *)

Lemma term_ids_keys (l : list term) (m0 : sdict bool) :
  let m := fold_left (fun (m : sdict bool) o6 => sset (str o6) true m) l m0 in
  (forall x, In x (PyDict.keys m) <-> In x (PyDict.keys m0) \/ In x (map str l))
  /\ (NoDup (PyDict.keys m0) -> NoDup (PyDict.keys m)).
Proof.
  cbv zeta. revert m0. induction l as [|o l IH]; intro m0; simpl.
  - split; [intro x; tauto|auto].
  - destruct (IH (sset (str o) true m0)) as [I1 I2]. split.
    + intro x. rewrite I1, sset_keys. intuition.
    + intro H. apply I2. now apply sset_keys_NoDup.
Qed.

Lemma singleton_of_NoDup {A} (l : list A) (t : A) :
  NoDup l -> l <> [] -> (forall x, In x l -> x = t) -> l = [t].
Proof.
  intros Hnd Hne Hall. destruct l as [|a [|b r]]; [congruence| |].
  - now rewrite (Hall a (or_introl eq_refl)).
  - exfalso. inversion Hnd as [|? ? Hn _]; subst. apply Hn. left.
    rewrite (Hall a), (Hall b); simpl; auto.
Qed.

(** X10.  An AnatomicalPart node resolves, to its last name and the id
    [t], exactly when it has at least one term id and all its term ids are
    the string [t]: repeated ids count once, and no id or two different ids
    end the run. *)
Theorem anatomical_part_needs_one_distinct_id
    (ru : vocab) (g : graph) (o3 : term) (nm : option string) (t : string) :
  anatomical_part ru g o3 = Ok (nm, t) <->
  nm = last_opt (map str (objects g o3 (NAME_TERM ru)))
  /\ term_ids_of ru g o3 <> []
  /\ forall i, In i (term_ids_of ru g o3) -> i = t.
Proof.
  unfold anatomical_part, term_ids_of.
  destruct (term_ids_keys (chain g o3 (CENTRAL_ID_TERM ru) (CENTRAL_ID_TERM ru)) [])
    as [K1 K2]. cbv zeta in K1, K2.
  set (keys := PyDict.keys _) in *.
  assert (Hnd : NoDup keys) by (apply K2; constructor).
  assert (Hin : forall x, In x keys <->
                          In x (map str (chain g o3 (CENTRAL_ID_TERM ru) (CENTRAL_ID_TERM ru))))
    by (intro x; rewrite K1; simpl; tauto).
  split.
  - intro H. destruct keys as [|k [|k' ks]] eqn:E.
    + destruct (last_opt (map str (objects g o3 (NAME_TERM ru)))); discriminate.
    + injection H as <- <-. split; [reflexivity|]. split.
      * intro Hn. rewrite Hn in Hin. destruct (proj1 (Hin k) (or_introl eq_refl)).
      * intros i Hi. apply Hin in Hi. destruct Hi as [<-|[]]. reflexivity.
    + destruct (last_opt (map str (objects g o3 (NAME_TERM ru)))); discriminate.
  - intros (-> & Hne & Hall).
    assert (Hk : keys = [t]).
    { apply singleton_of_NoDup; [exact Hnd| |].
      - intro Hn. apply Hne.
        destruct (map str (chain g o3 (CENTRAL_ID_TERM ru) (CENTRAL_ID_TERM ru)))
          as [|x xs]; [reflexivity|].
        rewrite Hn in Hin. destruct (proj2 (Hin x) (or_introl eq_refl)).
      - intros x Hx. apply Hall. now apply Hin. }
    now rewrite Hk.
Qed.

Lemma anatomical_parts_of_length (ru : vocab) (g : graph) (o2 : term)
    (parts : list (option string * string)) :
  anatomical_parts_of ru g o2 = Ok parts ->
  List.length parts = List.length (anatomical_matches ru g o2).
Proof.
  unfold anatomical_parts_of, anatomical_matches.
  assert (Hin : forall o3 ts acc parts,
             for_each (fun parts (_ : triple) =>
                         p <- anatomical_part ru g o3 ;; Ok (parts ++ [p])) ts acc = Ok parts ->
             List.length parts = List.length acc + List.length ts).
  { intros o3 ts. induction ts as [|t ts IH]; simpl; intros acc ps H.
    - injection H as <-. lia.
    - destruct (anatomical_part ru g o3) as [p|]; simpl in H; [|discriminate].
      apply IH in H. rewrite length_app in H. simpl in H. lia. }
  assert (G : forall os acc parts,
             for_each
               (fun parts o3 =>
                  for_each (fun parts (_ : triple) =>
                              p <- anatomical_part ru g o3 ;; Ok (parts ++ [p]))
                    (typed ru g o3 (SDO_ANATOMICAL_STRUCTURE_TERM ru)) parts)
               os acc = Ok parts ->
             List.length parts
             = List.length acc
               + List.length (flat_map (fun o3 => typed ru g o3 (SDO_ANATOMICAL_STRUCTURE_TERM ru))
                                os)).
  { induction os as [|o os IH]; simpl; intros acc ps H.
    - injection H as <-. lia.
    - destruct (for_each _ (typed ru g o (SDO_ANATOMICAL_STRUCTURE_TERM ru)) acc)
        as [acc'|] eqn:E; simpl in H; [|discriminate].
      apply Hin in E. apply IH in H. rewrite length_app. lia. }
  intro H. apply G in H. simpl in H. exact H.
Qed.

(** X11.  Whatever the project, a Dataset with exactly one DataAcquisition
    and a chain from an input extract over a sample to a subject ends the run
    when the sample does not derive from exactly one node typed as an
    anatomical structure: [main] aborts with status 1 before anything is
    printed. *)
Theorem sample_needs_one_anatomical_part (ru : vocab) (term_ltb : term -> term -> bool) (g : graph)
    (d acq extract sample subject : term) :
  In d (find_all_datasets ru g) ->
  data_acquisitions ru g d = [acq] ->
  In extract (objects g acq (HAS_INPUT_TERM ru)) ->
  In sample (objects g extract (DERIVES_FROM_TERM ru)) ->
  In subject (objects g sample (DERIVES_FROM_TERM ru)) ->
  List.length (anatomical_matches ru g sample) <> 1 ->
  exists e, main ru term_ltb g = ([], Some e) /\ exit_status ru term_ltb g = 1
    /\ stdout ru term_ltb g = [].
Proof.
  intros Hd Hacq He Hs Hsu Hn.
  destruct (build_abort_at ru g d Hd) as [e Hab].
  - intros project files. unfold link_dataset_files. apply bind_abort. intro dist.
    rewrite Hacq. apply (for_each_aborts_at _ _ extract He). intro st.
    apply (for_each_aborts_at _ _ sample Hs). intro st'.
    destruct (anatomical_parts_of ru g sample) as [parts|e] eqn:E; simpl; [|eauto].
    apply anatomical_parts_of_length in E.
    apply (for_each_aborts_at _ _ subject Hsu). intro st''.
    unfold link_file. destruct parts as [|p [|? ?]]; eauto.
    simpl in E. congruence.
  - exists e. now apply main_abort.
Qed.

Lemma sample_needs_one_anatomical_part_witness :
  exists e, main ru0 rdflib_ltb g_two_parts = ([], Some e)
            /\ exit_status ru0 rdflib_ltb g_two_parts = 1 /\ stdout ru0 rdflib_ltb g_two_parts = [].
Proof.
  apply (sample_needs_one_anatomical_part ru0 rdflib_ltb g_two_parts
           (BNode "f1") (BNode "f1_acq") (BNode "f1_extract") (BNode "f1_sample") (BNode "s1")).
  - vm_compute. auto.
  - vm_compute. reflexivity.
  - vm_compute. auto.
  - vm_compute. auto.
  - vm_compute. auto.
  - vm_compute. discriminate.
Defined.

Example two_parts_run :
  main ru0 rdflib_ltb g_two_parts = ([], Some (Fatal "found 2 AnatomicalParts for subject s1")).
Proof. vm_compute. reflexivity. Qed.

(** *** Where a FileInfo record comes from (lines 190-273) *)

Lemma link_dataset_files_from (ru : vocab) (g : graph) project (ds : list term)
    files d files' :
  In d ds ->
  files_from ru g project ds files ->
  link_dataset_files ru g project files d = Ok files' ->
  files_from ru g project ds files'.
Proof.
  intros Hd Hinv H. unfold link_dataset_files in H.
  destruct (link_distributions ru g d) as [dist|] eqn:Hdist; simpl in H; [|discriminate].
  destruct (data_acquisitions ru g d) as [|acq [|? ?]] eqn:Hacq;
    try (injection H as <-; exact Hinv).
  revert H. apply for_each_invariant; [|exact Hinv].
  intros st extract st' Hext Hst. apply for_each_invariant; [|exact Hst].
  clear st st' Hst. intros st sample st' Hsample Hst H.
  destruct (anatomical_parts_of ru g sample) as [parts|] eqn:Hparts; simpl in H;
    [|discriminate].
  revert H. apply for_each_invariant; [|exact Hst].
  clear st st' Hst. intros st o3 st' Ho3 Hst H.
  unfold link_file in H. destruct parts as [|part [|? ?]]; try discriminate.
  destruct (seq_datatype project (d_s3_URI dist)) as [dt|] eqn:Hdt; simpl in H;
    [|discriminate].
  set (files0 := if tmem o3 st then st else tset o3 [] st) in *.
  destruct (index files0 o3) as [l|] eqn:Hl; simpl in H; [|discriminate].
  injection H as <-. apply index_ok in Hl.
  assert (Hl' : forall f, In f l -> exists d0, In d0 ds /\ file_from ru g project d0 o3 f).
  { unfold files0 in Hl. destruct (tmem o3 st) eqn:M.
    - intros f Hf. apply (Hst o3 l f Hl Hf).
    - rewrite tget_tset_same in Hl. injection Hl as <-. intros f []. }
  intros k l0 f Hk Hf. rewrite tget_tset in Hk. destruct (term_eqb o3 k) eqn:E.
  - apply term_eqb_eq in E. subst k. injection Hk as <-.
    apply in_app_or in Hf as [Hf|[<-|[]]]; [now apply Hl'|].
    exists d. split; [exact Hd|].
    exists dist, acq, extract, sample, part, dt. repeat split; auto.
  - apply (Hst k l0 f); [|exact Hf]. rewrite <- Hk. unfold files0.
    destruct (tmem o3 st); [reflexivity|]. rewrite tget_tset, E. reflexivity.
Qed.

(** X12.  Every FileInfo record held for a node after a successful build
    was made from a Dataset of the graph that has exactly one
    DataAcquisition, whose input extract derives from a sample that derives
    from that node and from exactly one anatomical part; the record carries
    the part's name and id, the datatype the classifier gives for the
    Dataset's S3 URI, and the Dataset's URIs, size and checksum. *)
Theorem file_records_come_from_chains (ru : vocab) (g : graph) (T : tables)
    (s : term) (l : list file_info) (f : file_info) :
  build ru g = Ok T ->
  tget s (subject_to_files T) = Some l ->
  In f l ->
  exists d, In d (find_all_datasets ru g) /\ file_from ru g (project_name T) d s f.
Proof.
  intros Hb Hl Hf. apply build_ok in Hb as (_ & Hfe & Hp & _). rewrite Hp.
  revert s l f Hl Hf.
  change (files_from ru g
            (last_opt (map snd (top_level_matches ru g (find_all_datasets ru g))))
            (find_all_datasets ru g) (subject_to_files T)).
  revert Hfe. apply for_each_invariant.
  - intros st d st' Hd Hst H. eapply link_dataset_files_from; eauto.
  - intros k l f Hk. discriminate.
Qed.

Lemma file_records_come_from_chains_witness :
  exists f d,
    files_of T_wgs_file (BNode "s1") = [f]
    /\ In d (find_all_datasets ru0 g_wgs_file)
    /\ file_from ru0 g_wgs_file (project_name T_wgs_file) d (BNode "s1") f.
Proof.
  eexists.
  destruct (file_records_come_from_chains ru0 g_wgs_file T_wgs_file (BNode "s1") _ _
              ltac:(vm_compute; reflexivity) ltac:(vm_compute; reflexivity)
              (or_introl eq_refl)) as (d & Hd & Hf).
  exists d. split; [vm_compute; reflexivity|]. split; [exact Hd|exact Hf].
Defined.

(** *** Every complete chain gives a FileInfo record *)

Section Reach.
Variables A S : Type.
Variable R : S -> S -> Prop.
Variable body : S -> A -> result S.
Hypothesis R_refl : forall a, R a a.
Hypothesis R_trans : forall a b c, R a b -> R b c -> R a c.
Hypothesis body_R : forall st x st', body st x = Ok st' -> R st st'.

Lemma for_each_R (l : list A) (st st' : S) : for_each body l st = Ok st' -> R st st'.
Proof.
  revert st. induction l as [|x l IH]; simpl; intros st H.
  - injection H as <-. apply R_refl.
  - destruct (body st x) as [st1|] eqn:E; simpl in H; [|discriminate].
    eapply R_trans; [eapply body_R; eauto|now apply IH].
Qed.

(** In a loop that ends normally every element had its turn: the body ran
    on it from a state that follows the initial one, and the final state
    follows the one it left. *)
Lemma for_each_reaches (l : list A) (st st' : S) (x : A) :
  for_each body l st = Ok st' -> In x l ->
  exists st1 st2, R st st1 /\ body st1 x = Ok st2 /\ R st2 st'.
Proof.
  revert st. induction l as [|y l IH]; simpl; intros st H Hx; [tauto|].
  destruct (body st y) as [st1|] eqn:E; simpl in H; [|discriminate].
  destruct Hx as [->|Hx].
  - exists st, st1. split; [apply R_refl|]. split; [exact E|]. now apply for_each_R in H.
  - destruct (IH st1 H Hx) as (a & b & H1 & H2 & H3).
    exists a, b. split; [|auto]. eapply R_trans; [eapply body_R; eauto|exact H1].
Qed.
End Reach.

Lemma files_grow_refl (a : tdict (list file_info)) : files_grow a a.
Proof. intros k l H. exists []. now rewrite app_nil_r. Qed.

Lemma files_grow_trans (a b c : tdict (list file_info)) :
  files_grow a b -> files_grow b c -> files_grow a c.
Proof.
  intros H1 H2 k l H. destruct (H1 k l H) as [l1 Hb]. destruct (H2 k _ Hb) as [l2 Hc].
  exists (l1 ++ l2). now rewrite app_assoc.
Qed.

Lemma link_file_grows project dist md5 parts files o3 files' :
  link_file project dist md5 parts files o3 = Ok files' -> files_grow files files'.
Proof.
  intro H. unfold link_file in H. destruct parts as [|part [|? ?]]; try discriminate.
  destruct (seq_datatype project (d_s3_URI dist)) as [dt|]; simpl in H; [|discriminate].
  set (files0 := if tmem o3 files then files else tset o3 [] files) in *.
  destruct (index files0 o3) as [l|] eqn:Hl; simpl in H; [|discriminate].
  injection H as <-. apply index_ok in Hl.
  intros k l0 Hk. rewrite tget_tset. destruct (term_eqb o3 k) eqn:E.
  - apply term_eqb_eq in E. subst k. unfold files0 in Hl.
    rewrite (proj2 (tmem_true o3 files)) in Hl by eauto.
    rewrite Hk in Hl. injection Hl as <-. eauto.
  - exists []. rewrite app_nil_r, <- Hk. unfold files0.
    destruct (tmem o3 files); [reflexivity|]. now rewrite tget_tset, E.
Qed.

Lemma link_sample_grows (ru : vocab) (g : graph) project dist md5 files o2 files' :
  (parts <- anatomical_parts_of ru g o2 ;;
   for_each (link_file project dist md5 parts) (objects g o2 (DERIVES_FROM_TERM ru)) files)
  = Ok files' ->
  files_grow files files'.
Proof.
  destruct (anatomical_parts_of ru g o2) as [parts|]; simpl; [|discriminate].
  apply (for_each_R _ _ files_grow _ files_grow_refl files_grow_trans).
  intros st x st'. apply link_file_grows.
Qed.

Lemma link_extract_grows (ru : vocab) (g : graph) project dist md5 files extract files' :
  for_each
    (fun files o2 =>
       parts <- anatomical_parts_of ru g o2 ;;
       for_each (link_file project dist md5 parts) (objects g o2 (DERIVES_FROM_TERM ru)) files)
    (objects g extract (DERIVES_FROM_TERM ru)) files = Ok files' ->
  files_grow files files'.
Proof.
  apply (for_each_R _ _ files_grow _ files_grow_refl files_grow_trans).
  intros st x st'. apply link_sample_grows.
Qed.

Lemma link_dataset_files_grows (ru : vocab) (g : graph) project files d files' :
  link_dataset_files ru g project files d = Ok files' -> files_grow files files'.
Proof.
  unfold link_dataset_files.
  destruct (link_distributions ru g d) as [dist|]; simpl; [|discriminate].
  destruct (data_acquisitions ru g d) as [|acq [|? ?]];
    try (intro H; injection H as <-; apply files_grow_refl).
  apply (for_each_R _ _ files_grow _ files_grow_refl files_grow_trans).
  intros st x st'. apply link_extract_grows.
Qed.

Lemma files_grow_in (a b : tdict (list file_info)) (k : term) (l : list file_info)
    (f : file_info) :
  files_grow a b -> tget k a = Some l -> In f l ->
  exists l', tget k b = Some l' /\ In f l'.
Proof.
  intros Hg Hk Hf. destruct (Hg k l Hk) as [l' Hb].
  exists (l ++ l'). split; [exact Hb|]. apply in_or_app. now left.
Qed.

(** X13.  After a successful build, every chain from a Dataset with
    exactly one DataAcquisition over an input extract and a sample to a node
    the sample derives from has its FileInfo record in the list of that
    node: no file is lost, whichever records are linked before or after
    it. *)
Theorem every_chain_has_its_file_record (ru : vocab) (g : graph) (T : tables)
    (d acq extract sample s : term) :
  build ru g = Ok T ->
  In d (find_all_datasets ru g) ->
  data_acquisitions ru g d = [acq] ->
  In extract (objects g acq (HAS_INPUT_TERM ru)) ->
  In sample (objects g extract (DERIVES_FROM_TERM ru)) ->
  In s (objects g sample (DERIVES_FROM_TERM ru)) ->
  exists l f,
    tget s (subject_to_files T) = Some l
    /\ In f l
    /\ file_from ru g (project_name T) d s f.
Proof.
  intros Hb Hd Hacq Hext Hsample Hs.
  apply build_ok in Hb as (_ & Hfe & Hp & _). rewrite Hp.
  set (project := last_opt _) in *.
  destruct (for_each_reaches _ _ files_grow _ files_grow_refl files_grow_trans
              (link_dataset_files_grows ru g project) _ _ _ d Hfe Hd)
    as (st1 & st2 & _ & H1 & G1).
  unfold link_dataset_files in H1.
  destruct (link_distributions ru g d) as [dist|] eqn:Hdist; simpl in H1; [|discriminate].
  rewrite Hacq in H1.
  destruct (for_each_reaches _ _ files_grow _ files_grow_refl files_grow_trans
              (fun st x st' => link_extract_grows ru g project dist (md5_of ru g d) st x st')
              _ _ _ extract H1 Hext)
    as (st3 & st4 & _ & H2 & G2).
  destruct (for_each_reaches _ _ files_grow _ files_grow_refl files_grow_trans
              (fun st x st' => link_sample_grows ru g project dist (md5_of ru g d) st x st')
              _ _ _ sample H2 Hsample)
    as (st5 & st6 & _ & H3 & G3).
  destruct (anatomical_parts_of ru g sample) as [parts|] eqn:Hparts; simpl in H3;
    [|discriminate].
  destruct (for_each_reaches _ _ files_grow _ files_grow_refl files_grow_trans
              (fun st x st' => link_file_grows project dist (md5_of ru g d) parts st x st')
              _ _ _ s H3 Hs)
    as (st7 & st8 & _ & H4 & G4).
  unfold link_file in H4. destruct parts as [|part [|? ?]]; try discriminate.
  destruct (seq_datatype project (d_s3_URI dist)) as [dt|] eqn:Hdt; simpl in H4;
    [|discriminate].
  destruct (index _ s) as [l|] eqn:Hl; simpl in H4; [|discriminate].
  injection H4 as H4.
  set (fi := {| anatomical_part_name := fst part; anatomical_part_id := snd part;
                S3_URI := snd dt; GS_URI := d_gs_URI dist; datatype := fst dt;
                distribs := d_distribs dist; file_size := d_file_size dist;
                md5_checksum := md5_of ru g d |}) in *.
  assert (H8 : tget s st8 = Some (l ++ [fi])) by (rewrite <- H4; apply tget_tset_same).
  assert (Hin : In fi (l ++ [fi])) by (apply in_or_app; right; now left).
  destruct (files_grow_in _ _ _ _ _ G4 H8 Hin) as (l6 & H6 & Hin6).
  destruct (files_grow_in _ _ _ _ _ G3 H6 Hin6) as (l4 & H4' & Hin4).
  destruct (files_grow_in _ _ _ _ _ G2 H4' Hin4) as (l2 & H2' & Hin2).
  destruct (files_grow_in _ _ _ _ _ G1 H2' Hin2) as (lT & HT & HinT).
  exists lT, fi. split; [exact HT|]. split; [exact HinT|].
  exists dist, acq, extract, sample, part, dt. repeat split; auto.
Qed.

Lemma every_chain_has_its_file_record_witness :
  exists l f,
    tget (BNode "s1") (subject_to_files T_wgs_file) = Some l
    /\ In f l
    /\ file_from ru0 g_wgs_file (project_name T_wgs_file) (BNode "f1") (BNode "s1") f.
Proof.
  apply (every_chain_has_its_file_record ru0 g_wgs_file T_wgs_file
           (BNode "f1") (BNode "f1_acq") (BNode "f1_extract") (BNode "f1_sample") (BNode "s1")).
  - vm_compute. reflexivity.
  - vm_compute. auto.
  - vm_compute. reflexivity.
  - vm_compute. auto.
  - vm_compute. auto.
  - vm_compute. auto.
Defined.

(** *** The rows of a subject with files (lines 319-347) *)

Lemma emit_each_one_row {A} (body : A -> (list (list string) * option abort))
    (r : A -> list string) (l : list A) :
  (forall x, In x l -> body x = ([r x], None)) -> emit_each body l = (map r l, None).
Proof.
  induction l as [|x l IH]; simpl; intro H; [reflexivity|].
  rewrite (H x (or_introl eq_refl)). rewrite IH by auto. reflexivity.
Qed.

Lemma emit_each_stops {A} (body : A -> (list (list string) * option abort))
    (r : A -> list string) (ok : A -> bool) (e : abort) (l : list A) :
  (forall x, In x l -> body x = if ok x then ([r x], None) else ([], Some e)) ->
  (exists x, In x l /\ ok x = false) ->
  snd (emit_each body l) = Some e
  /\ List.length (fst (emit_each body l)) < List.length l.
Proof.
  induction l as [|x l IH]; simpl; intros H [y [Hy Hok]]; [tauto|].
  rewrite (H x (or_introl eq_refl)). destruct (ok x) eqn:E.
  - destruct Hy as [->|Hy]; [congruence|].
    destruct IH as [I1 I2]; [auto|eauto|]. simpl. split; [exact I1|]. lia.
  - simpl. split; [reflexivity|lia].
Qed.

Lemma all_str_none (cells1 cells2 : list (option string)) :
  all_str (cells1 ++ None :: cells2) = Abort TypeError.
Proof.
  induction cells1 as [|[c|] cs IH]; simpl; [reflexivity| |reflexivity].
  now rewrite IH.
Qed.

Lemma file_cells_complete (f : file_info) :
  file_complete f = true -> file_cells f = map Some (file_strings f).
Proof.
  unfold file_complete, file_cells, file_strings.
  destruct (anatomical_part_name f), (file_size f), (md5_checksum f), (GS_URI f);
    simpl; intro H; try discriminate; reflexivity.
Qed.

Lemma all_str_none_after (lead pre post : list (option string)) :
  all_str (lead ++ pre ++ None :: post) = Abort TypeError.
Proof. rewrite app_assoc. apply all_str_none. Qed.

Lemma file_cells_incomplete (lead : list (option string)) (f : file_info) :
  file_complete f = false -> all_str (lead ++ file_cells f) = Abort TypeError.
Proof.
  unfold file_complete, file_cells. intro H.
  destruct (anatomical_part_name f) as [a|] eqn:E1;
    [|apply (all_str_none_after lead [])].
  destruct (file_size f) as [b|] eqn:E2;
    [|apply (all_str_none_after lead
               [Some a; Some (anatomical_part_id f); Some (datatype f)])].
  destruct (md5_checksum f) as [c|] eqn:E3;
    [|apply (all_str_none_after lead
               [Some a; Some (anatomical_part_id f); Some (datatype f); Some b])].
  destruct (GS_URI f) as [d|] eqn:E4; [discriminate|].
  apply (all_str_none_after lead
           [Some a; Some (anatomical_part_id f); Some (datatype f);
            Some b; Some c; Some (S3_URI f)]).
Qed.

(** X14.  A subject with FileInfo records whose cells are all strings is
    printed with one row per record, in the sorted order, each row being the
    subject's leading cells followed by the seven file cells.  If one of the
    records lacks the anatomical part name, the size, the checksum or the GCP
    URI, joining its row raises [TypeError]: the subject's rows end there,
    with fewer rows than records. *)
Theorem subject_rows_one_per_file (T : tables)
    (pn dataset_id group_name s subject_name : term)
    (chars : sdict characteristic) (files fs : list file_info) :
  project_name T = Some pn ->
  tget s (subject_to_name T) = Some subject_name ->
  tget s (subject_to_chars T) = Some chars ->
  tget s (subject_to_files T) = Some files ->
  sort_files files = Ok fs ->
  (forallb file_complete files = true ->
   render_subject T (col_headings T) dataset_id group_name s
   = (map (fun f => leading_strings T pn dataset_id group_name subject_name chars
                      ++ file_strings f) fs, None))
  /\ (forallb file_complete files = false ->
      snd (render_subject T (col_headings T) dataset_id group_name s) = Some TypeError
      /\ List.length (fst (render_subject T (col_headings T) dataset_id group_name s))
         < List.length files).
Proof.
  intros Hp Hn Hc Hf Hs.
  destruct (sort_files_facts files fs Hs) as (P & _ & _).
  assert (Hr : render_subject T (col_headings T) dataset_id group_name s
               = emit_each
                   (fun d => print_row
                               (map Some (leading_strings T pn dataset_id group_name
                                            subject_name chars) ++ file_cells d)) fs).
  { unfold render_subject, try_then.
    rewrite (proj2 (index_ok _ _ _) Hn), (proj2 (index_ok _ _ _) Hc),
      (proj2 (index_ok _ _ _) Hf), Hs.
    replace (tmem s (subject_to_files T)) with true by (symmetry; apply tmem_true; eauto).
    cbn [negb]. rewrite Hp, char_cells_somes. unfold leading_strings.
    rewrite map_app. reflexivity. }
  assert (Hbody : forall f,
             print_row (map Some (leading_strings T pn dataset_id group_name
                                    subject_name chars) ++ file_cells f)
             = if file_complete f
               then ([leading_strings T pn dataset_id group_name subject_name chars
                        ++ file_strings f], None)
               else ([], Some TypeError)).
  { intro f. destruct (file_complete f) eqn:E.
    - rewrite (file_cells_complete f E), <- map_app. apply print_row_somes.
    - unfold print_row, try_then. now rewrite (file_cells_incomplete _ f E). }
  rewrite Hr. split.
  - intro Hall. rewrite forallb_forall in Hall. apply emit_each_one_row.
    intros f Hin. rewrite Hbody, Hall; [reflexivity|].
    exact (Permutation_in _ (Permutation_sym P) Hin).
  - intro Hsome.
    assert (Hex : exists f, In f fs /\ file_complete f = false).
    { destruct (forallb file_complete fs) eqn:E.
      - rewrite forallb_forall in E.
        assert (forallb file_complete files = true)
          by (apply forallb_forall; intros x Hx; apply E;
              exact (Permutation_in _ P Hx)).
        congruence.
      - clear -E. induction fs as [|x xs IH]; simpl in E; [discriminate|].
        destruct (file_complete x) eqn:Ex; simpl in E.
        + destruct (IH E) as (f & Hf & Hc). exists f. split; [now right|exact Hc].
        + exists x. split; [now left|exact Ex]. }
    rewrite (Permutation_length P).
    apply (emit_each_stops _
             (fun f => leading_strings T pn dataset_id group_name subject_name chars
                         ++ file_strings f) file_complete TypeError fs); [|exact Hex].
    intros f _. apply Hbody.
Qed.

Lemma subject_rows_one_per_file_witness :
  (forallb file_complete (files_of T_wgs_file (BNode "s1")) = true
   /\ render_subject T_wgs_file (col_headings T_wgs_file)
        (lit "phs000424") (lit "Group1") (BNode "s1")
      = (map (fun f => leading_strings T_wgs_file gtex_title (lit "phs000424") (lit "Group1")
                         (lit "S1") (chars_of T_wgs_file (BNode "s1")) ++ file_strings f)
           (files_of T_wgs_file (BNode "s1")), None))
  /\ (forallb file_complete (files_of T_no_gcp (BNode "s1")) = false
      /\ snd (render_subject T_no_gcp (col_headings T_no_gcp)
                (lit "phs000424") (lit "Group1") (BNode "s1")) = Some TypeError
      /\ List.length (fst (render_subject T_no_gcp (col_headings T_no_gcp)
                             (lit "phs000424") (lit "Group1") (BNode "s1")))
         < List.length (files_of T_no_gcp (BNode "s1"))).
Proof.
  split.
  - split; [vm_compute; reflexivity|].
    apply (proj1 (subject_rows_one_per_file T_wgs_file gtex_title
                    (lit "phs000424") (lit "Group1") (BNode "s1") (lit "S1")
                    (chars_of T_wgs_file (BNode "s1"))
                    (files_of T_wgs_file (BNode "s1"))
                    (files_of T_wgs_file (BNode "s1"))
                    ltac:(vm_compute; reflexivity) ltac:(vm_compute; reflexivity)
                    ltac:(vm_compute; reflexivity) ltac:(vm_compute; reflexivity)
                    ltac:(vm_compute; reflexivity))).
    vm_compute. reflexivity.
  - split; [vm_compute; reflexivity|].
    apply (proj2 (subject_rows_one_per_file T_no_gcp gtex_title
                    (lit "phs000424") (lit "Group1") (BNode "s1") (lit "S1")
                    (chars_of T_no_gcp (BNode "s1"))
                    (files_of T_no_gcp (BNode "s1"))
                    (files_of T_no_gcp (BNode "s1"))
                    ltac:(vm_compute; reflexivity) ltac:(vm_compute; reflexivity)
                    ltac:(vm_compute; reflexivity) ltac:(vm_compute; reflexivity)
                    ltac:(vm_compute; reflexivity))).
    vm_compute. reflexivity.
Defined.

(** A file Dataset without a GCP distribution ends the run at its row. *)
Example no_gcp_run :
  main ru0 rdflib_ltb g_no_gcp
  = ([ ["Project"; "dbGaP_Study"; "Study_Group"; "Subject_ID";
        "Anatomical_Part"; "Anatomical_Part_ID"; "Datatype"; "File_Size";
        "MD5_Checksum"; "AWS_URI"; "GCP_URI"] ], Some TypeError).
Proof. vm_compute. reflexivity. Qed.

(** *** How a run that printed its header can end *)

Lemma sort_files_abort_incomplete (l : list file_info) e :
  sort_files l = Abort e -> e = TypeError /\ forallb file_complete l = false.
Proof.
  unfold sort_files.
  destruct (existsb is_none (map anatomical_part_name l) && _) eqn:E.
  - intro H. injection H as <-. split; [reflexivity|].
    apply andb_true_iff in E as [E _]. apply existsb_exists in E as (n & Hn & Hnone).
    apply in_map_iff in Hn as (f & <- & Hf).
    destruct (forallb file_complete l) eqn:F; [|reflexivity].
    rewrite forallb_forall in F. specialize (F f Hf). unfold file_complete in F.
    destruct (anatomical_part_name f); discriminate.
  - rewrite sort_by_pure. discriminate.
Qed.

Lemma all_str_abort (cells : list (option string)) e :
  all_str cells = Abort e -> e = TypeError /\ In None cells.
Proof.
  induction cells as [|[c|] cs IH]; simpl; intro H; [discriminate| |].
  - destruct (all_str cs) as [r|e']; simpl in H; [discriminate|].
    injection H as <-. destruct IH as [-> Hin]; [reflexivity|]. auto.
  - injection H as <-. auto.
Qed.

Lemma file_cells_none (f : file_info) : In None (file_cells f) -> file_complete f = false.
Proof.
  unfold file_cells, file_complete.
  destruct (anatomical_part_name f), (file_size f), (md5_checksum f), (GS_URI f);
    simpl; intro H; try reflexivity.
  repeat (destruct H as [H|H]; [discriminate|]). destruct H.
Qed.

Lemma forallb_false_in {A} (p : A -> bool) (l : list A) (x : A) :
  In x l -> p x = false -> forallb p l = false.
Proof.
  intros Hx Hp. destruct (forallb p l) eqn:F; [|reflexivity].
  rewrite forallb_forall in F. rewrite (F x Hx) in Hp. discriminate.
Qed.

(** X15.  Once the tables are built and the header is printed, a run can
    end abnormally in two ways only.  Either sorting the subjects of a named
    study group raises [KeyError] for a Material member that has no name
    triple, or a row of a subject with files raises [TypeError] because one
    of the subject's FileInfo records lacks the anatomical part name, the
    size, the checksum or the GCP URI.  No fatal diagnostic and no failed
    lookup of a Dataset, a study or a group occurs after the header. *)
Theorem after_header_two_failures_only (ru : vocab) (term_ltb : term -> term -> bool)
    (g : graph) (T : tables) (e : abort) :
  build ru g = Ok T ->
  snd (main ru term_ltb g) = Some e ->
  (exists sg group_name s,
     tget sg (study_group_to_name T) = Some group_name
     /\ In s (members ru g sg)
     /\ objects g s (NAME_TERM ru) = []
     /\ e = KeyError s)
  \/ (exists s subject_name files,
        tget s (subject_to_name T) = Some subject_name
        /\ tget s (subject_to_files T) = Some files
        /\ forallb file_complete files = false
        /\ e = TypeError).
Proof.
  intros Hb He. rewrite (main_ok ru term_ltb g T Hb) in He. cbn [snd] in He.
  destruct (build_project ru g T Hb) as (pn & Hpn & _).
  unfold render_rows in He.
  apply try_then_abort in He as [H|(ds & Hds & H)].
  { apply sort_by_abort in H as (d & Hd & H).
    destruct (build_lookups ru g T d Hb Hd) as (did & _ & _ & Hdid & _).
    apply index_ok in Hdid. congruence. }
  apply emit_each_abort in H as (d & Hd & H).
  apply (Permutation_in _ (Permutation_sym ((sort_by_index_perm _ _ _ _ Hds)))) in Hd.
  destruct (build_lookups ru g T d Hb Hd) as (did & study & groups & H1 & H2 & H3 & H4).
  unfold render_dataset, try_then in H.
  rewrite (proj2 (index_ok _ _ _) H1), (proj2 (index_ok _ _ _) H2),
    (proj2 (index_ok _ _ _) H3) in H.
  destruct (sort_by term_ltb (index (study_group_to_name T)) groups) as [gs|e0] eqn:Hgs.
  2:{ apply sort_by_abort in Hgs as (grp & Hgrp & Hk).
      destruct (H4 grp Hgrp) as [n Hn]. apply index_ok in Hn. congruence. }
  apply emit_each_abort in H as (grp & Hgrp & H).
  apply (Permutation_in _ (Permutation_sym ((sort_by_index_perm _ _ _ _ Hgs)))) in Hgrp.
  destruct (H4 grp Hgrp) as [gname Hgname].
  pose proof (build_ok ru g T Hb) as
    (_ & _ & _ & _ & _ & _ & _ & Hsgn & Hsgs & Hsn & _). cbv zeta in *.
  set (gr := link_groups ru g _) in *.
  destruct (link_subjects_spec ru g (PyDict.keys (snd gr))) as [L1 _].
  destruct (link_subjects_content ru g (PyDict.keys (snd gr))) as (_ & C2 & _).
  cbv zeta in *.
  assert (Hsubj : tget grp (study_group_to_subjects T) = Some (members ru g grp)).
  { rewrite Hsgs. apply L1. apply tget_keys. rewrite <- Hsgn. eauto. }
  unfold render_group, try_then in H.
  rewrite (proj2 (index_ok _ _ _) Hgname), (proj2 (index_ok _ _ _) Hsubj) in H.
  destruct (sort_by term_ltb (index (subject_to_name T)) (members ru g grp))
    as [ss|e1] eqn:Hss.
  2:{ left. cbn [snd] in H. injection H as <-.
      apply sort_by_abort in Hss as (s & Hs & Hk). apply index_abort in Hk as [-> Hnone].
      exists grp, gname, s. repeat split; auto.
      rewrite Hsgs in Hsubj. destruct (C2 grp _ Hsubj) as [_ Hl].
      rewrite Hsn, (Hl s Hs) in Hnone. now apply last_opt_nil in Hnone. }
  right.
  apply emit_each_abort in H as (s & Hs & H).
  apply (Permutation_in _ (Permutation_sym ((sort_by_index_perm _ _ _ _ Hss)))) in Hs.
  destruct (sort_by_ok_keys _ _ _ _ Hss s Hs) as [n Hn]. apply index_ok in Hn.
  destruct (build_subject_chars ru g T s n Hb Hn) as [chars Hc].
  unfold render_subject, try_then in H.
  rewrite (proj2 (index_ok _ _ _) Hn), (proj2 (index_ok _ _ _) Hc) in H.
  rewrite Hpn, char_cells_somes in H. cbn [option_map] in H.
  change [Some (str pn); Some (str did); Some (str gname); Some (str n)]
    with (map Some [str pn; str did; str gname; str n]) in H.
  rewrite <- map_app in H.
  destruct (tget s (subject_to_files T)) as [fl|] eqn:Hf.
  2:{ rewrite (proj2 (tmem_false _ _) Hf) in H. cbn [negb] in H.
      rewrite repeat_Some, <- map_app, print_row_somes in H. discriminate. }
  rewrite (proj2 (tmem_true _ _) (ex_intro _ fl Hf)) in H. cbn [negb] in H.
  rewrite (proj2 (index_ok _ _ _) Hf) in H.
  exists s, n, fl. split; [exact Hn|]. split; [exact Hf|].
  destruct (sort_files fl) as [fs|e2] eqn:Hsf.
  2:{ cbn [snd] in H. injection H as <-.
      apply sort_files_abort_incomplete in Hsf as [-> Hi]. auto. }
  apply emit_each_abort in H as (f & Hfin & H).
  destruct (sort_files_facts fl fs Hsf) as (P & _ & _).
  apply (Permutation_in _ (Permutation_sym P)) in Hfin.
  unfold print_row in H. apply try_then_abort in H as [H|(r & _ & H)]; [|discriminate].
  apply all_str_abort in H as [-> Hnone]. split; [|reflexivity].
  apply in_app_or in Hnone as [Hnone|Hnone].
  - apply in_map_iff in Hnone as (x & Hx & _). discriminate.
  - apply (forallb_false_in _ _ f Hfin). now apply file_cells_none.
Qed.

Lemma after_header_two_failures_only_witness :
  ((exists sg group_name s,
      tget sg (study_group_to_name T_nameless) = Some group_name
      /\ In s (members ru0 g_nameless sg)
      /\ objects g_nameless s (NAME_TERM ru0) = []
      /\ KeyError (BNode "s3") = KeyError s)
   \/ (exists s subject_name files,
         tget s (subject_to_name T_nameless) = Some subject_name
         /\ tget s (subject_to_files T_nameless) = Some files
         /\ forallb file_complete files = false
         /\ KeyError (BNode "s3") = TypeError))
  /\ ((exists sg group_name s,
         tget sg (study_group_to_name T_no_gcp) = Some group_name
         /\ In s (members ru0 g_no_gcp sg)
         /\ objects g_no_gcp s (NAME_TERM ru0) = []
         /\ TypeError = KeyError s)
      \/ (exists s subject_name files,
            tget s (subject_to_name T_no_gcp) = Some subject_name
            /\ tget s (subject_to_files T_no_gcp) = Some files
            /\ forallb file_complete files = false
            /\ TypeError = TypeError)).
Proof.
  split.
  - apply (after_header_two_failures_only ru0 rdflib_ltb g_nameless T_nameless
    (KeyError (BNode "s3")));
      vm_compute; reflexivity.
  - apply (after_header_two_failures_only ru0 rdflib_ltb g_no_gcp T_no_gcp TypeError);
      vm_compute; reflexivity.
Defined.

(** *** A file needs an S3 distribution (lines 169-188, 245-257) *)

Lemma seq_datatype_no_uri (project : option term) : seq_datatype project None = Abort TypeError.
Proof.
  unfold seq_datatype. destruct project as [pn|]; [|reflexivity].
  destruct (contains "GTEx" (str pn)); reflexivity.
Qed.

(** X16.  A Dataset with exactly one DataAcquisition and a chain from an
    input extract over a sample to a subject ends the run when none of its
    DataDownload distributions has a URI that starts with "s3://", a
    "gs://" distribution notwithstanding: [main] aborts with status 1
    before anything is printed. *)
Theorem file_needs_an_s3_distribution (ru : vocab) (term_ltb : term -> term -> bool) (g : graph)
    (d acq extract sample subject : term) :
  In d (find_all_datasets ru g) ->
  data_acquisitions ru g d = [acq] ->
  In extract (objects g acq (HAS_INPUT_TERM ru)) ->
  In sample (objects g extract (DERIVES_FROM_TERM ru)) ->
  In subject (objects g sample (DERIVES_FROM_TERM ru)) ->
  filter is_s3 (downloads_of ru g d) = [] ->
  exists e, main ru term_ltb g = ([], Some e) /\ exit_status ru term_ltb g = 1
    /\ stdout ru term_ltb g = [].
Proof.
  intros Hd Hacq He Hs Hsu Hno.
  destruct (build_abort_at ru g d Hd) as [e Hab].
  - intros project files. unfold link_dataset_files.
    destruct (link_distributions ru g d) as [dist|e] eqn:Hdist; simpl; [|eauto].
    assert (Hs3 : d_s3_URI dist = None).
    { apply distributions_uris in Hdist as (H1 & _). cbv zeta in H1.
      fold (downloads_of ru g d) in H1. rewrite Hno in H1. exact H1. }
    rewrite Hacq. apply (for_each_aborts_at _ _ extract He). intro st.
    apply (for_each_aborts_at _ _ sample Hs). intro st'.
    destruct (anatomical_parts_of ru g sample) as [parts|e] eqn:E; simpl; [|eauto].
    apply (for_each_aborts_at _ _ subject Hsu). intro st''.
    unfold link_file. destruct parts as [|p [|? ?]]; eauto.
    rewrite Hs3, seq_datatype_no_uri. simpl. eauto.
  - exists e. now apply main_abort.
Qed.

Lemma file_needs_an_s3_distribution_witness :
  exists e, main ru0 rdflib_ltb g_gs_only = ([], Some e)
            /\ exit_status ru0 rdflib_ltb g_gs_only = 1 /\ stdout ru0 rdflib_ltb g_gs_only = [].
Proof.
  apply (file_needs_an_s3_distribution ru0 rdflib_ltb g_gs_only
           (BNode "f1") (BNode "f1_acq") (BNode "f1_extract") (BNode "f1_sample") (BNode "s1")).
  - vm_compute. auto.
  - vm_compute. reflexivity.
  - vm_compute. auto.
  - vm_compute. auto.
  - vm_compute. auto.
  - vm_compute. reflexivity.
Defined.

Example gs_only_run : main ru0 rdflib_ltb g_gs_only = ([], Some TypeError).
Proof. vm_compute. reflexivity. Qed.

(** ** The datatype of a file, in a GTEx run (lines 245-257) *)

Lemma seq_datatype_unmatched (project : option term) (u : string) :
  contains "/wgs/" u = false -> contains "/rnaseq/" u = false ->
  exists e, seq_datatype project (Some u) = Abort e.
Proof.
  intros W R. unfold seq_datatype. destruct project as [pn|]; [|eauto].
  destruct (contains "GTEx" (str pn)); [rewrite W, R|]; eauto.
Qed.

Lemma seq_datatype_gtex_unmatched (ru : vocab) (u : string) :
  contains "/wgs/" u = false -> contains "/rnaseq/" u = false ->
  seq_datatype
    (Some (Literal "Genotype-Tissue Expression Project (GTEx)" (Some (str (DESCR_TERM ru)))))
    (Some u)
  = Abort (Fatal ("couldn't parse seq type from URI " ++ u)).
Proof.
  intros W R. unfold seq_datatype. cbn [str].
  replace (contains "GTEx" "Genotype-Tissue Expression Project (GTEx)") with true
    by (vm_compute; reflexivity).
  now rewrite W, R.
Qed.

Lemma link_distributions_s3 (ru : vocab) (g : graph) (d : term) (dist : distributions) :
  link_distributions ru g d = Ok dist ->
  d_s3_URI dist = last_opt (filter is_s3 (downloads_of ru g d)).
Proof.
  intro H. apply distributions_uris in H as (H1 & _). cbv zeta in H1.
  fold (downloads_of ru g d) in H1. rewrite H1.
  now destruct (last_opt (filter is_s3 (downloads_of ru g d))).
Qed.

(** C6, as the code has it.  In a run whose one top-level match is the
    GTEx title, every FileInfo of the tables whose S3 URI contains "/wgs/"
    has the datatype "WGS", and every other FileInfo has an S3 URI that
    contains "/rnaseq/" and the datatype "RNA-Seq" ("/wgs/" is looked for
    first).  A Dataset with exactly one DataAcquisition and a chain from an
    input extract over a sample to a subject, whose S3 URI contains neither
    fragment, ends the run: [main] aborts with status 1 and nothing is
    printed.  The abort is the fatal diagnostic "couldn't parse seq type from
    URI ..." whenever the run gets as far as that file: the Datasets
    enumerated before were linked, the sizes under the Dataset agree, and the
    chain is the first of the Dataset, its sample with one anatomical
    part. *)
Theorem gtex_datatype_from_uri (ru : vocab) (term_ltb : term -> term -> bool)
    (g : graph) (d0 : term) :
  top_level_matches ru g (find_all_datasets ru g)
  = [(d0, Literal "Genotype-Tissue Expression Project (GTEx)" (Some (str (DESCR_TERM ru))))] ->
  (forall T s l f,
     build ru g = Ok T -> tget s (subject_to_files T) = Some l -> In f l ->
     (contains "/wgs/" (S3_URI f) = true -> datatype f = "WGS")
     /\ (contains "/wgs/" (S3_URI f) = false ->
         contains "/rnaseq/" (S3_URI f) = true /\ datatype f = "RNA-Seq"))
  /\ (forall d acq extract sample subject u,
        In d (find_all_datasets ru g) ->
        data_acquisitions ru g d = [acq] ->
        In extract (objects g acq (HAS_INPUT_TERM ru)) ->
        In sample (objects g extract (DERIVES_FROM_TERM ru)) ->
        In subject (objects g sample (DERIVES_FROM_TERM ru)) ->
        last_opt (filter is_s3 (downloads_of ru g d)) = Some u ->
        contains "/wgs/" u = false ->
        contains "/rnaseq/" u = false ->
        (exists e, main ru term_ltb g = ([], Some e))
        /\ exit_status ru term_ltb g = 1
        /\ stdout ru term_ltb g = []
        /\ (forall pre post files extracts samples subjects part,
              find_all_datasets ru g = pre ++ d :: post ->
              for_each
                (link_dataset_files ru g
                   (Some (Literal "Genotype-Tissue Expression Project (GTEx)"
                            (Some (str (DESCR_TERM ru))))))
                pre [] = Ok files ->
              (forall z z', In z (sizes_of ru g d) -> In z' (sizes_of ru g d) -> z = z') ->
              objects g acq (HAS_INPUT_TERM ru) = extract :: extracts ->
              objects g extract (DERIVES_FROM_TERM ru) = sample :: samples ->
              objects g sample (DERIVES_FROM_TERM ru) = subject :: subjects ->
              anatomical_parts_of ru g sample = Ok [part] ->
              main ru term_ltb g
              = ([], Some (Fatal ("couldn't parse seq type from URI " ++ u))))).
Proof.
  intro Htl.
  set (gtex := Literal "Genotype-Tissue Expression Project (GTEx)"
                 (Some (str (DESCR_TERM ru)))) in *.
  split.
  - intros T s l f Hb Hl Hf.
    destruct (build_files_classified ru g T Hb s l Hl) as [_ Hc].
    specialize (Hc f Hf).
    apply build_ok in Hb as (_ & _ & Hp & _). cbv zeta in Hp. rewrite Htl in Hp.
    cbn [map snd last_opt fold_left] in Hp. rewrite Hp in Hc.
    unfold gtex, seq_datatype in Hc. cbn [str] in Hc.
    replace (contains "GTEx" "Genotype-Tissue Expression Project (GTEx)") with true in Hc
      by (vm_compute; reflexivity).
    destruct (contains "/wgs/" (S3_URI f)) eqn:W.
    + injection Hc as Hd. split; [auto|discriminate].
    + destruct (contains "/rnaseq/" (S3_URI f)) eqn:R; [|discriminate].
      injection Hc as Hd. split; [discriminate|auto].
  - intros d acq extract sample subject u Hd Hacq He Hs Hsu Hu W R.
    assert (Hstep : forall project files, exists e,
               link_dataset_files ru g project files d = Abort e).
    { intros project files. unfold link_dataset_files.
      destruct (link_distributions ru g d) as [dist|e] eqn:Hdist; simpl; [|eauto].
      apply link_distributions_s3 in Hdist. rewrite Hu in Hdist.
      rewrite Hacq. apply (for_each_aborts_at _ _ extract He). intro st.
      apply (for_each_aborts_at _ _ sample Hs). intro st'.
      apply bind_abort. intro parts.
      apply (for_each_aborts_at _ _ subject Hsu). intro st''.
      unfold link_file. destruct parts as [|p [|? ?]]; eauto.
      rewrite Hdist. destruct (seq_datatype_unmatched project u W R) as [e ->].
      simpl. eauto. }
    destruct (build_abort_at ru g d Hd Hstep) as [e Hab].
    destruct (main_abort ru term_ltb g e Hab) as (M1 & M2 & M3).
    split; [eauto|]. split; [exact M2|]. split; [exact M3|].
    intros pre post files extracts samples subjects part Hall Hpre Hagree Hex Hsa Hsus Hparts.
    destruct (link_distributions_agree ru g d Hagree) as [dist Hdist].
    pose proof (link_distributions_s3 ru g d dist Hdist) as Hs3. rewrite Hu in Hs3.
    assert (Hb : build ru g
                 = Abort (Fatal ("couldn't parse seq type from URI " ++ u))).
    { unfold build. cbv zeta. rewrite Htl.
      cbn [map fst snd List.length Nat.eqb negb last_opt fold_left]. fold gtex.
      rewrite Hall, for_each_app, Hpre. cbn [bind for_each].
      unfold link_dataset_files at 1. rewrite Hdist, Hacq. cbn [bind].
      rewrite Hex. cbn [for_each]. rewrite Hsa. cbn [for_each].
      rewrite Hparts, Hsus. cbn [bind for_each]. unfold link_file at 1.
      rewrite Hs3. unfold gtex. rewrite (seq_datatype_gtex_unmatched ru u W R).
      reflexivity. }
    apply (main_abort ru term_ltb g _ Hb).
Qed.

Lemma gtex_datatype_from_uri_witness :
  (forall s l f, tget s (subject_to_files T_both_fragments) = Some l -> In f l ->
     (contains "/wgs/" (S3_URI f) = true -> datatype f = "WGS")
     /\ (contains "/wgs/" (S3_URI f) = false ->
         contains "/rnaseq/" (S3_URI f) = true /\ datatype f = "RNA-Seq"))
  /\ (exists e, main ru0 rdflib_ltb g_unmatched = ([], Some e))
  /\ exit_status ru0 rdflib_ltb g_unmatched = 1
  /\ stdout ru0 rdflib_ltb g_unmatched = []
  /\ main ru0 rdflib_ltb g_unmatched
     = ([], Some (Fatal "couldn't parse seq type from URI s3://bucket/other/x.cram")).
Proof.
  split.
  - intros s l f.
    apply (proj1 (gtex_datatype_from_uri ru0 rdflib_ltb g_both_fragments (BNode "ds")
                    ltac:(vm_compute; reflexivity)) T_both_fragments s l f).
    vm_compute. reflexivity.
  - destruct (proj2 (gtex_datatype_from_uri ru0 rdflib_ltb g_unmatched (BNode "ds")
                       ltac:(vm_compute; reflexivity))
                (BNode "f1") (BNode "f1_acq") (BNode "f1_extract") (BNode "f1_sample")
                (BNode "s1") "s3://bucket/other/x.cram")
      as (W1 & W2 & W3 & W4).
    + vm_compute. auto.
    + vm_compute. reflexivity.
    + vm_compute. auto.
    + vm_compute. auto.
    + vm_compute. auto.
    + vm_compute. reflexivity.
    + vm_compute. reflexivity.
    + vm_compute. reflexivity.
    + split; [exact W1|]. split; [exact W2|]. split; [exact W3|].
      apply (W4 [BNode "ds"] [] [] [] [] [BNode "Blood"] (Some "Blood", "UBERON:0000178")).
      * vm_compute. reflexivity.
      * vm_compute. reflexivity.
      * intros z z' Hz Hz'. vm_compute in Hz, Hz'.
        destruct Hz as [<-|[]], Hz' as [<-|[]]. reflexivity.
      * vm_compute. reflexivity.
      * vm_compute. reflexivity.
      * vm_compute. reflexivity.
      * vm_compute. reflexivity.
Defined.
